(** * Budget Advisory System: the transaction / budget consistency core

    A shallow embedding of [database.py], [utils.py], [accounts.py],
    [categories.py], [budget.py] and [transactions.py], and of the account
    menu of [main.py].

    Modelling conventions.
    - Money (Python [float] read from the console, [Decimal] read from the
      store) is an exact rational [Q]; rounding is not modelled, except where
      [BudgetManager.check_budget_alerts] converts to [float] and multiplies:
      there the numbers are rounded as IEEE 754 binary64 rounds them.
    - Strings are ASCII; [lower] and [casefold] coincide on them.
    - The store is a record of tables (lists of rows in insertion order) with
      auto-increment counters; every statement handed to [Database.execute]
      succeeds, so the [else] branches that report a failed statement are
      not represented.
    - The managers keep caches next to the store; the caches are part of the
      state and are reloaded exactly where the source reloads them.
    - A method takes the answers typed at its prompts as a record, and returns
      the status it reports together with the new state.
    - The key the store gives a new account or category row is handed to the
      method that inserts the row, next to its arguments. *)

From Stdlib Require Import List String Ascii ZArith QArith Qabs Qround Qpower Bool Lia Lqa.
Import ListNotations.

Local Open Scope bool_scope.
Local Open Scope Z_scope.
Local Open Scope Q_scope.

(* ================================================================= *)
(** ** Python values *)

(** [str] methods used by the source, on ASCII strings. *)

Definition lower_char (c : ascii) : ascii :=
  let n := nat_of_ascii c in
  if ((65 <=? n) && (n <=? 90))%nat then ascii_of_nat (n + 32) else c.

Fixpoint lower (s : string) : string :=
  match s with
  | EmptyString => EmptyString
  | String c s' => String (lower_char c) (lower s')
  end.

Definition casefold (s : string) : string := lower s.

Definition isspace (c : ascii) : bool :=
  let n := nat_of_ascii c in
  (((9 <=? n) && (n <=? 13)) || ((28 <=? n) && (n <=? 32)))%nat.

Fixpoint lstrip (s : string) : string :=
  match s with
  | EmptyString => EmptyString
  | String c s' => if isspace c then lstrip s' else s
  end.

Fixpoint rstrip (s : string) : string :=
  match s with
  | EmptyString => EmptyString
  | String c s' =>
      match rstrip s' with
      | EmptyString => if isspace c then EmptyString else String c EmptyString
      | r => String c r
      end
  end.

Definition strip (s : string) : string := rstrip (lstrip s).

(** [sub in s] *)
Fixpoint contains (sub s : string) : bool :=
  prefix sub s ||
  match s with
  | EmptyString => false
  | String _ s' => contains sub s'
  end.

(** [s.split(sep)[0]]: the part of [s] before the first [sep]. *)
Fixpoint split_head (sep : ascii) (s : string) : string :=
  match s with
  | EmptyString => EmptyString
  | String c s' => if Ascii.eqb c sep then EmptyString else String c (split_head sep s')
  end.

(** [s.replace(old, "")] for a non-empty [old]: the occurrences of [old]
    are removed from left to right; [skip] counts the characters of the
    current occurrence still to be dropped. *)
Fixpoint remove_from (old s : string) (skip : nat) : string :=
  match s with
  | EmptyString => EmptyString
  | String c s' =>
      match skip with
      | S k => remove_from old s' k
      | O => if prefix old s
             then remove_from old s' (String.length old - 1)
             else String c (remove_from old s' 0)
      end
  end.

Definition replace_with_empty (old s : string) : string := remove_from old s 0.

(** [f"{x}"] of a value that may be [None]. *)
Definition fstr (x : option string) : string :=
  match x with
  | Some s => s
  | None => "None"%string
  end.

(** Comparisons of numbers, as booleans. *)
Definition Qltb (x y : Q) : bool := negb (Qle_bool y x).
Definition Qleb (x y : Q) : bool := Qle_bool x y.

(** [int(x)] of a float: truncation towards zero. *)
Definition int_of_float (x : Q) : Z := Z.quot (Qnum x) (Zpos (Qden x)).

(** A Python [float] where its rounding matters: an IEEE 754 binary64 number,
    given by the rational it stands for.  The two zeros are not told apart;
    the comparisons and the product used below do not tell them apart
    either. *)
Inductive binary64 : Type :=
  | Finite (x : Q)
  | Infinite (negative : bool)
  | NaN.

(** The binary exponent of a positive [x]: [2^e <= x < 2^(e+1)]. *)
Definition ilog2 (x : Q) : Z :=
  let k := (Z.log2 (Qnum x) - Z.log2 (Zpos (Qden x)))%Z in
  if Qltb x (2 ^ k) then (k - 1)%Z else k.

(** The nearest integer, a tie going to the even one. *)
Definition round_half_even (y : Q) : Z :=
  let f := Qfloor y in
  let r := y - inject_Z f in
  if Qltb r (1 # 2) then f
  else if Qltb (1 # 2) r then (f + 1)%Z
  else if Z.even f then f else (f + 1)%Z.

(** The exponent of the last of the 53 bits of the significand; it stops at
    -1074, where the subnormal numbers begin. *)
Definition ulp_exponent (x : Q) : Z := Z.max (ilog2 x - 52) (-1074).

(** A positive [x] rounded to the nearest multiple of its last bit. *)
Definition round_magnitude (x : Q) : Q :=
  inject_Z (round_half_even (x / 2 ^ ulp_exponent x)) * 2 ^ ulp_exponent x.

(** [float(x)] of an exact number [x] (a [Decimal], a literal): the nearest
    binary64 number; a magnitude that rounds to [2^1024] or more gives an
    infinity. *)
Definition float (x : Q) : binary64 :=
  if Qeq_bool x 0 then Finite 0
  else
    let r := round_magnitude (Qabs x) in
    if Qleb (2 ^ 1024) r then Infinite (Qltb x 0)
    else Finite (if Qltb x 0 then - r else r).

(** [a * b] on floats *)
Definition fmul (a b : binary64) : binary64 :=
  match a, b with
  | Finite x, Finite y => float (x * y)
  | Finite x, Infinite n | Infinite n, Finite x =>
      if Qeq_bool x 0 then NaN else Infinite (xorb n (Qltb x 0))
  | Infinite n, Infinite m => Infinite (xorb n m)
  | _, _ => NaN
  end.

(** [a <= b] on floats; a comparison with [nan] is false. *)
Definition fle (a b : binary64) : bool :=
  match a, b with
  | Finite x, Finite y => Qleb x y
  | Infinite true, Infinite _ | Infinite true, Finite _ => true
  | Finite _, Infinite false | Infinite false, Infinite false => true
  | _, _ => false
  end.

(** [a < b] on floats *)
Definition flt (a b : binary64) : bool :=
  match a, b with
  | Finite x, Finite y => Qltb x y
  | Infinite true, Finite _ | Infinite true, Infinite false => true
  | Finite _, Infinite false => true
  | _, _ => false
  end.

(** [a == 0.0], the divisor that raises [ZeroDivisionError]. *)
Definition is_zero (a : binary64) : bool :=
  match a with Finite x => Qeq_bool x 0 | _ => false end.

(** The relative error of a rounding in the normal range, [2^-53], and the
    largest error among the subnormal numbers, [2^-1075]. *)
Definition half_ulp : Q := 2 ^ (-53).
Definition tiny : Q := 2 ^ (-1075).

(** The number a finite float stands for, in lowest terms. *)
Definition float_value (a : binary64) : option Q :=
  match a with
  | Finite x => Some (Qred x)
  | _ => None
  end.

(** A [dict]: keys are unique and keep their insertion order. *)
Section Dict.
Context {K V : Type} (eqb : K -> K -> bool).

Definition dict : Type := list (K * V).

Fixpoint dict_get (k : K) (d : dict) : option V :=
  match d with
  | [] => None
  | (k', v) :: d' => if eqb k k' then Some v else dict_get k d'
  end.

Definition dict_mem (k : K) (d : dict) : bool :=
  match dict_get k d with Some _ => true | None => false end.

(** [d[k] = v] *)
Fixpoint dict_set (k : K) (v : V) (d : dict) : dict :=
  match d with
  | [] => [(k, v)]
  | (k', v') :: d' => if eqb k k' then (k', v) :: d' else (k', v') :: dict_set k v d'
  end.

(** [{k: v for (k, v) in items}] *)
Definition dict_of (items : list (K * V)) : dict :=
  fold_left (fun d kv => dict_set (fst kv) (snd kv) d) items [].
End Dict.

Arguments dict : clear implicits.

(** Membership in a list of strings. *)
Definition str_in (s : string) (l : list string) : bool :=
  existsb (String.eqb s) l.

(** What the interpreter's [float] and [int] make of a typed line; [None]
    stands for [ValueError]. *)
Class Runtime : Type := {
  float_of_string : string -> option Q;
  int_of_string : string -> option Z
}.

(** Dates and times of day. *)
Record date : Type := mkDate { year : Z; month : Z; day : Z }.
Record time : Type := mkTime { hour : Z; minute : Z; second : Z }.
Record datetime : Type := mkDatetime { dt_date : date; dt_time : time }.

(* ================================================================= *)
(** ** The store: tables of [database.py]'s schema *)

Inductive TransactionType : Type := Income | Expense | Transfer.

Definition TransactionType_eqb (a b : TransactionType) : bool :=
  match a, b with
  | Income, Income | Expense, Expense | Transfer, Transfer => true
  | _, _ => false
  end.

Record Account : Type := mkAccount {
  account_id : Z;
  account_name : string;
  initial_balance : Q;
  account_type : string
}.

Record Category : Type := mkCategory {
  category_id : Z;
  category_name : string;
  description : option string
}.

Record Budget : Type := mkBudget {
  budget_id : Z;
  b_category_id : Z;
  monthly_limit : Q;
  spent : Q
}.

Record Transaction : Type := mkTransaction {
  transaction_id : Z;
  t_account_id : Z;
  t_category_id : option Z;
  transaction_type : TransactionType;
  amount : Q;
  notes : string;
  transaction_date : date;
  transaction_time : time
}.

Record Store : Type := mkStore {
  accounts_tbl : list Account;
  categories_tbl : list Category;
  income_categories_tbl : list Z;
  expense_categories_tbl : list Z;
  budgets_tbl : list Budget;
  transactions_tbl : list Transaction;
  next_budget_id : Z;
  next_transaction_id : Z
}.

Definition set_accounts_tbl (l : list Account) (s : Store) : Store :=
  mkStore l (categories_tbl s) (income_categories_tbl s) (expense_categories_tbl s)
          (budgets_tbl s) (transactions_tbl s) (next_budget_id s) (next_transaction_id s).

Definition set_budgets_tbl (l : list Budget) (s : Store) : Store :=
  mkStore (accounts_tbl s) (categories_tbl s) (income_categories_tbl s)
          (expense_categories_tbl s) l (transactions_tbl s)
          (next_budget_id s) (next_transaction_id s).

Definition set_transactions_tbl (l : list Transaction) (s : Store) : Store :=
  mkStore (accounts_tbl s) (categories_tbl s) (income_categories_tbl s)
          (expense_categories_tbl s) (budgets_tbl s) l
          (next_budget_id s) (next_transaction_id s).

(** A row of [load_transactions]' SELECT: the transaction with the names its
    two LEFT JOINs found. *)
Record TransactionView : Type := mkView {
  v_row : Transaction;
  v_account_name : option string;
  v_category_name : option string
}.

(** The value a category dict of [CategoryManager] holds under a name. *)
Record CategoryInfo : Type := mkInfo {
  i_category_id : Z;
  i_description : option string
}.

(** SQL [LIKE] under the default (case-insensitive) collation: [%] matches any
    run of characters, [_] one character, a backslash escapes the next one. *)
Definition same_char_ci (a b : ascii) : bool :=
  Ascii.eqb (lower_char a) (lower_char b).

Fixpoint sql_like (pattern : string) : string -> bool :=
  match pattern with
  | EmptyString => fun s => match s with EmptyString => true | _ => false end
  | String p pattern' =>
      if Ascii.eqb p "%" then
        fix any (s : string) : bool :=
          sql_like pattern' s ||
          match s with
          | EmptyString => false
          | String _ s' => any s'
          end
      else if Ascii.eqb p "_" then
        fun s => match s with
                 | EmptyString => false
                 | String _ s' => sql_like pattern' s'
                 end
      else if Ascii.eqb p "\" then
        match pattern' with
        | EmptyString =>
            fun s => match s with
                     | String c EmptyString => Ascii.eqb c "\"
                     | _ => false
                     end
        | String e pattern'' =>
            fun s => match s with
                     | EmptyString => false
                     | String c s' => same_char_ci e c && sql_like pattern'' s'
                     end
        end
      else
        fun s => match s with
                 | EmptyString => false
                 | String c s' => same_char_ci p c && sql_like pattern' s'
                 end
  end.

(* ================================================================= *)
(** ** Statements issued through [Database.fetch_one], [fetch_all], [execute] *)

Definition with_balance (a : Account) (b : Q) : Account :=
  mkAccount (account_id a) (account_name a) b (account_type a).

Definition with_spent (b : Budget) (x : Q) : Budget :=
  mkBudget (budget_id b) (b_category_id b) (monthly_limit b) x.

(** [SELECT initial_balance FROM accounts WHERE account_id = %s] *)
Definition select_balance (id : Z) (s : Store) : option Q :=
  option_map initial_balance
    (find (fun a => (account_id a =? id)%Z) (accounts_tbl s)).

(** [UPDATE accounts SET initial_balance = <f initial_balance>
     WHERE account_id = %s] *)
Definition update_balance (f : Q -> Q) (id : Z) (s : Store) : Store :=
  set_accounts_tbl
    (map (fun a => if (account_id a =? id)%Z
                   then with_balance a (f (initial_balance a)) else a)
         (accounts_tbl s)) s.

(** [INSERT INTO transactions (account_id, category_id, transaction_type,
     amount, notes, transaction_date, transaction_time) VALUES (...)];
    the key comes from the auto-increment counter. *)
Definition insert_transaction (account : Z) (category : option Z)
    (ty : TransactionType) (x : Q) (note : string) (d : date) (t : time)
    (s : Store) : Store :=
  mkStore (accounts_tbl s) (categories_tbl s) (income_categories_tbl s)
          (expense_categories_tbl s) (budgets_tbl s)
          (transactions_tbl s ++
             [mkTransaction (next_transaction_id s) account category ty x note d t])
          (next_budget_id s) (next_transaction_id s + 1)%Z.

(** [DELETE FROM transactions WHERE transaction_id = %s] *)
Definition delete_transaction_row (id : Z) (s : Store) : Store :=
  set_transactions_tbl
    (filter (fun t => negb (transaction_id t =? id)%Z) (transactions_tbl s)) s.

(** [... WHERE account_id = %s AND notes LIKE %s] *)
Definition account_notes_like (account : Z) (pattern : string) (t : Transaction) : bool :=
  (t_account_id t =? account)%Z && sql_like pattern (notes t).

(** [DELETE FROM transactions WHERE account_id = %s AND notes LIKE %s] *)
Definition delete_transactions_like (account : Z) (pattern : string) (s : Store) : Store :=
  set_transactions_tbl
    (filter (fun t => negb (account_notes_like account pattern t)) (transactions_tbl s)) s.

(** [UPDATE transactions SET category_id = %s, amount = %s, notes = %s,
     transaction_date = %s, transaction_time = %s WHERE transaction_id = %s] *)
Definition update_transaction_row (category : option Z) (x : Q) (note : string)
    (d : date) (t : time) (id : Z) (s : Store) : Store :=
  set_transactions_tbl
    (map (fun r => if (transaction_id r =? id)%Z
                   then mkTransaction (transaction_id r) (t_account_id r) category
                                      (transaction_type r) x note d t
                   else r)
         (transactions_tbl s)) s.

(** [UPDATE transactions SET amount = %s, notes = %s, transaction_date = %s,
     transaction_time = %s WHERE account_id = %s AND notes LIKE %s] *)
Definition update_transfer_rows_notes (x : Q) (note : string) (d : date) (t : time)
    (account : Z) (pattern : string) (s : Store) : Store :=
  set_transactions_tbl
    (map (fun r => if account_notes_like account pattern r
                   then mkTransaction (transaction_id r) (t_account_id r) (t_category_id r)
                                      (transaction_type r) x note d t
                   else r)
         (transactions_tbl s)) s.

(** [UPDATE transactions SET amount = %s, transaction_date = %s,
     transaction_time = %s WHERE account_id = %s AND notes LIKE %s] *)
Definition update_transfer_rows (x : Q) (d : date) (t : time)
    (account : Z) (pattern : string) (s : Store) : Store :=
  set_transactions_tbl
    (map (fun r => if account_notes_like account pattern r
                   then mkTransaction (transaction_id r) (t_account_id r) (t_category_id r)
                                      (transaction_type r) x (notes r) d t
                   else r)
         (transactions_tbl s)) s.

(** [SELECT t.*, a.account_name, c.category_name FROM transactions t
     LEFT JOIN accounts a ON ... LEFT JOIN categories c ON ...]; the joined
    keys are primary keys, so a transaction finds at most one row of each. *)
Definition select_transactions (s : Store) : list TransactionView :=
  map (fun t =>
         mkView t
           (option_map account_name
              (find (fun a => (account_id a =? t_account_id t)%Z) (accounts_tbl s)))
           (match t_category_id t with
            | None => None
            | Some c =>
                option_map category_name
                  (find (fun k => (category_id k =? c)%Z) (categories_tbl s))
            end))
      (transactions_tbl s).

(** [SELECT ..., c.category_id, c.category_name, c.description
     FROM income_categories ic JOIN categories c ON ic.category_id = c.category_id]
    (and the same for [expense_categories]). *)
Definition select_role_categories (role : list Z) (s : Store) : list Category :=
  flat_map (fun id => filter (fun c => (category_id c =? id)%Z) (categories_tbl s)) role.

(** [INSERT INTO budgets (category_id, monthly_limit, spent) VALUES (...)] *)
Definition insert_budget (category : Z) (limit x : Q) (s : Store) : Store :=
  mkStore (accounts_tbl s) (categories_tbl s) (income_categories_tbl s)
          (expense_categories_tbl s)
          (budgets_tbl s ++ [mkBudget (next_budget_id s) category limit x])
          (transactions_tbl s) (next_budget_id s + 1)%Z (next_transaction_id s).

(** [UPDATE budgets SET spent = %s WHERE budget_id = %s] *)
Definition update_budget_spent (x : Q) (id : Z) (s : Store) : Store :=
  set_budgets_tbl
    (map (fun b => if (budget_id b =? id)%Z then with_spent b x else b)
         (budgets_tbl s)) s.

(** [UPDATE budgets SET spent = <f spent> WHERE category_id = %s] *)
Definition update_category_spent (f : Q -> Q) (category : option Z) (s : Store) : Store :=
  set_budgets_tbl
    (map (fun b => match category with
                   | Some c => if (b_category_id b =? c)%Z
                               then with_spent b (f (spent b)) else b
                   | None => b
                   end)
         (budgets_tbl s)) s.

(** The rows of
    [FROM transactions WHERE category_id = %s AND transaction_type = 'Expense'
     AND EXTRACT(YEAR FROM transaction_date) = %s
     AND EXTRACT(MONTH FROM transaction_date) = %s]. *)
Definition month_expense (category : option Z) (y m : Z) (t : Transaction) : bool :=
  match category, t_category_id t with
  | Some c, Some c' => (c' =? c)%Z
  | _, _ => false
  end
  && TransactionType_eqb (transaction_type t) Expense
  && (year (transaction_date t) =? y)%Z
  && (month (transaction_date t) =? m)%Z.

(** [SUM] is NULL over no rows. *)
Definition sql_sum (l : list Q) : option Q :=
  match l with
  | [] => None
  | x :: l' => Some (fold_left Qplus l' x)
  end.

Definition coalesce (x : option Q) (d : Q) : Q :=
  match x with Some v => v | None => d end.

(** [SELECT COALESCE(SUM(amount), 0) AS total_spent FROM transactions WHERE ...] *)
Definition select_total_spent (category : option Z) (y m : Z) (s : Store) : Q :=
  coalesce
    (sql_sum (map amount (filter (month_expense category y m) (transactions_tbl s))))
    0.

(* ================================================================= *)
(** ** Program state and control flow *)

(** The store together with the caches of the four managers. *)
Record World : Type := mkWorld {
  db : Store;
  (* AccountsManager *)
  accounts : list Account;
  account_id_to_name : dict Z string;
  account_name_to_id : dict string Z;
  (* CategoryManager *)
  income_categories : dict string CategoryInfo;
  expense_categories : dict string CategoryInfo;
  (* BudgetManager *)
  budgets : dict Z Budget;
  (* TransactionsManager *)
  transactions : list TransactionView
}.

Definition set_db (s : Store) (w : World) : World :=
  mkWorld s (accounts w) (account_id_to_name w) (account_name_to_id w)
          (income_categories w) (expense_categories w) (budgets w) (transactions w).

Definition set_accounts (l : list Account) (i2n : dict Z string) (n2i : dict string Z)
    (w : World) : World :=
  mkWorld (db w) l i2n n2i
          (income_categories w) (expense_categories w) (budgets w) (transactions w).

Definition set_categories (inc exp : dict string CategoryInfo) (w : World) : World :=
  mkWorld (db w) (accounts w) (account_id_to_name w) (account_name_to_id w)
          inc exp (budgets w) (transactions w).

Definition set_budgets (b : dict Z Budget) (w : World) : World :=
  mkWorld (db w) (accounts w) (account_id_to_name w) (account_name_to_id w)
          (income_categories w) (expense_categories w) b (transactions w).

Definition set_transactions (l : list TransactionView) (w : World) : World :=
  mkWorld (db w) (accounts w) (account_id_to_name w) (account_name_to_id w)
          (income_categories w) (expense_categories w) (budgets w) l.

(** The alert or status line a method reports last.  The statuses of a
    completed operation carry the values of the locals it was completed with. *)
Inductive Status : Type :=
  (* check_budget_alerts *)
  | NearingBudget
  | ExceededBudget
  | NoBudgetAlert
  | ErrorCheckingAlerts
  | NothingReported
  (* budgets *)
  | NoBudgetFound
  | BudgetAdded (category : Z) (seed : Q)
  (* shared *)
  | ErrorReported
  | InvalidSelection
  | InvalidNumber
  | CategoryDoesNotExist
  | InsufficientFunds
  | InvalidAmount
  | DeletionCancelled
  | NoTransactions
  (* add_transaction *)
  | InvalidTransactionType
  | AccountNotFound
  | BalanceZeroOrNegative
  | TransactionAdded (account : Z) (category : Z) (ty : TransactionType) (x : Q)
  (* update_transaction, update_transfer_funds *)
  | TransactionUpdated
  | TransferUpdated
  | SourceAccountNotFound
  | DestinationAccountNotFound
  (* delete_transaction *)
  | TransferAccountsUnidentified
  | TransactionDeleted (t : TransactionView)
  (* transfer_funds *)
  | SourceInsufficientFunds
  | SameAccount
  | FundsTransferred (source dest : Z) (x : Q).

(** How a block of statements is left early: by [return] after a status
    line, or by an exception. *)
Inductive Exit : Type :=
  | Return (s : Status)
  | Raise.

Definition M (A : Type) : Type := World -> (A + Exit) * World.

Definition ret {A} (a : A) : M A := fun w => (inl a, w).

Definition bind {A B} (m : M A) (k : A -> M B) : M B :=
  fun w =>
    match m w with
    | (inl a, w') => k a w'
    | (inr e, w') => (inr e, w')
    end.

Declare Scope py_scope.
Delimit Scope py_scope with py.
Notation "x <- m ;; k" := (bind m (fun x => k))
  (at level 100, m at next level, right associativity) : py_scope.
Notation "m ;; k" := (bind m (fun _ => k))
  (at level 100, right associativity) : py_scope.

Definition return_ {A} (s : Status) : M A := fun w => (inr (Return s), w).
Definition raise {A} : M A := fun w => (inr Raise, w).
Definition gets {A} (f : World -> A) : M A := fun w => (inl (f w), w).
Definition modify (f : World -> World) : M unit := fun w => (inl tt, f w).

(** [if c: <report s>; return] *)
Definition return_if (c : bool) (s : Status) : M unit :=
  if c then return_ s else ret tt.

(** A value that must not be [None] where it is used ([TypeError]). *)
Definition not_none {A} (x : option A) : M A :=
  match x with Some a => ret a | None => raise end.

(** [self.db.execute(...)] *)
Definition execute (f : Store -> Store) : M unit :=
  modify (fun w => set_db (f (db w)) w).

(** A method whose body is one [try] block: an exception is reported by the
    [except] branch, which ends the method. *)
Definition method (body : M Status) (on_error : Status) (w : World) : Status * World :=
  match body w with
  | (inl s, w') => (s, w')
  | (inr (Return s), w') => (s, w')
  | (inr Raise, w') => (on_error, w')
  end.

(** Calling a method from a block. *)
Definition call (f : World -> Status * World) : M Status :=
  fun w => let (s, w') := f w in (inl s, w').

Local Open Scope py_scope.

(* ================================================================= *)
(** ** utils.py *)

Section InputUtils.
Context {rt : Runtime}.

(** [InputUtils.get_float]: at most three typed lines are read; a line
    that is not a number, or is below [min_value], is refused; after three
    refusals the loop ends and the function returns [None].  Reading past
    the typed lines raises. *)
Fixpoint get_float_loop (attempts : nat) (typed : list string)
    (min_value : option Q) : M (option Q) :=
  match attempts with
  | O => ret None
  | S attempts' =>
      match typed with
      | [] => raise
      | line :: typed' =>
          match float_of_string (strip line) with
          | Some num =>
              if match min_value with
                 | Some m => Qltb num m
                 | None => false
                 end
              then get_float_loop attempts' typed' min_value
              else ret (Some num)
          | None => get_float_loop attempts' typed' min_value
          end
      end
  end.

Definition get_float (typed : list string) (min_value : option Q) : M (option Q) :=
  get_float_loop 3 typed min_value.

(** [InputUtils.get_string] *)
Definition get_string (typed : string) : string := strip typed.

(** [int(input(...))] with its [except ValueError] branch. *)
Definition get_choice (typed : string) : M Z :=
  match int_of_string typed with
  | Some n => ret n
  | None => return_ InvalidNumber
  end.
End InputUtils.

(** A name or a key that Python treats as false: [None] or [0]. *)
Definition falsy (id : option Z) : bool :=
  match id with
  | None => true
  | Some n => (n =? 0)%Z
  end.

(** [x or y] on an optional value. *)
Definition or_else {A} (x : option A) (y : A) : A :=
  match x with Some a => a | None => y end.

(** [typed or current] on a typed line: the empty string is false. *)
Definition or_current (typed current : string) : string :=
  if String.eqb typed "" then current else typed.

(* ================================================================= *)
(** ** accounts.py *)

(** [AccountsManager.load_accounts] *)
Definition load_accounts : M unit :=
  modify (fun w =>
    let rows := accounts_tbl (db w) in
    set_accounts rows
      (dict_of Z.eqb (map (fun acc => (account_id acc, account_name acc)) rows))
      (dict_of String.eqb (map (fun acc => (casefold (account_name acc), account_id acc)) rows))
      w).

(** [AccountsManager.search_accounts] *)
Definition search_accounts (name : string) (w : World) : list Account :=
  filter (fun account => String.eqb (lower (account_name account)) (lower name))
         (accounts w).

(** [{acc['account_id']: acc['initial_balance'] for acc in self.accounts_manager.accounts}] *)
Definition account_balances (w : World) : dict Z Q :=
  dict_of Z.eqb (map (fun acc => (account_id acc, initial_balance acc)) (accounts w)).

(** [[name.lower() for name in self.accounts_manager.account_name_to_id]] *)
Definition known_account_names (w : World) : list string :=
  map (fun kv => lower (fst kv)) (account_name_to_id w).

(* ================================================================= *)
(** ** categories.py *)

Definition find_category (name_lower : string) (d : dict string CategoryInfo) : option Z :=
  option_map (fun kv => i_category_id (snd kv))
    (find (fun kv => String.eqb (lower (fst kv)) name_lower) d).

(** [CategoryManager.get_category_id_by_name]: income categories are
    searched first; a [None] name raises inside the method's own [try], which
    answers [None]. *)
Definition get_category_id_by_name (name : option string) (w : World) : option Z :=
  match name with
  | None => None
  | Some category_name =>
      let category_name_lower := lower category_name in
      match find_category category_name_lower (income_categories w) with
      | Some id => Some id
      | None => find_category category_name_lower (expense_categories w)
      end
  end.

(** [CategoryManager.load_categories] *)
Definition load_categories : M unit :=
  modify (fun w =>
    let info := fun row =>
      (category_name row, mkInfo (category_id row) (description row)) in
    set_categories
      (dict_of String.eqb (map info (select_role_categories (income_categories_tbl (db w)) (db w))))
      (dict_of String.eqb (map info (select_role_categories (expense_categories_tbl (db w)) (db w))))
      w).

(* ================================================================= *)
(** ** budget.py *)

Record BudgetInput : Type := mkBudgetInput {
  b_category_name : string;       (* "Enter category name for the budget: " *)
  b_monthly_limit : list string;  (* "Enter monthly limit: " *)
  b_now : datetime                (* datetime.now() *)
}.

(** [BudgetManager.load_budgets]: one entry per category, the last row of a
    category wins. *)
Definition load_budgets (w : World) : dict Z Budget :=
  dict_of Z.eqb (map (fun budget => (b_category_id budget, budget)) (budgets_tbl (db w))).

(** [self.budgets = self.load_budgets()] *)
Definition reload_budgets : M unit :=
  modify (fun w => set_budgets (load_budgets w) w).

(** [BudgetManager.check_budget_alerts(category_id, updated_spent)]: the
    alert printed.  The limit and the amount spent are converted to floats,
    and the threshold is the float product of the limit and the float 0.9.
    The question about suggestions that follows, and the advice itself, only
    read and print. *)
Definition check_budget_alerts (category : Z) (updated_spent : Q) (w : World) : Status :=
  match dict_get Z.eqb category (budgets w) with
  | Some budget =>
      let monthly_limit := float (monthly_limit budget) in
      if is_zero monthly_limit
      then ErrorCheckingAlerts          (* spent_percentage divides by the limit *)
      else
        let alert_threshold := fmul monthly_limit (float (9 # 10)) in
        if fle alert_threshold (float updated_spent) then NearingBudget
        else if flt monthly_limit (float updated_spent) then ExceededBudget
        else NoBudgetAlert
  | None => NothingReported
  end.

(** [BudgetManager.update_budget_after_transaction] *)
Definition update_budget_after_transaction (name : option string) (x : Q)
    : World -> Status * World :=
  method
    (category <- gets (get_category_id_by_name name) ;;
     cached <- gets budgets ;;
     match category with
     | None => return_ NoBudgetFound
     | Some category_id =>
         match dict_get Z.eqb category_id cached with
         | None => return_ NoBudgetFound
         | Some budget =>
             let updated_spent := spent budget + x in
             execute (update_budget_spent updated_spent (budget_id budget)) ;;
             reload_budgets ;;
             alert <- gets (check_budget_alerts category_id updated_spent) ;;
             ret alert
         end
     end)
    ErrorReported.

Section BudgetManager.
Context {rt : Runtime}.

(** [BudgetManager.add_budget] *)
Definition add_budget (inp : BudgetInput) : World -> Status * World :=
  method
    (let category_name := get_string (b_category_name inp) in
     expense <- gets expense_categories ;;
     return_if (negb (str_in (lower category_name)
                             (map (fun kv => lower (fst kv)) expense)))
               CategoryDoesNotExist ;;
     category <- gets (get_category_id_by_name (Some category_name)) ;;
     monthly_limit <- get_float (b_monthly_limit inp) (Some (1 # 100)) ;;
     let current_year := year (dt_date (b_now inp)) in
     let current_month := month (dt_date (b_now inp)) in
     seed <- gets (fun w => select_total_spent category current_year current_month (db w)) ;;
     limit <- not_none monthly_limit ;;          (* Decimal(None) raises *)
     category_id <- not_none category ;;         (* found above, among the expense names *)
     execute (insert_budget category_id limit seed) ;;
     reload_budgets ;;
     ret (BudgetAdded category_id seed))
    ErrorReported.
End BudgetManager.

(* ================================================================= *)
(** ** transactions.py *)

Record TransferInput : Type := mkTransferInput {
  x_source : string;              (* "Enter source account name: " *)
  x_dest : string;                (* "Enter destination account name: " *)
  x_source_choice : string;       (* number of the source account, if asked *)
  x_dest_choice : string;         (* number of the destination account, if asked *)
  x_amount : list string;         (* "Enter transfer amount: " *)
  x_date : option date;           (* InputUtils.get_valid_date() *)
  x_time : option time;           (* InputUtils.get_valid_date(is_time=True) *)
  x_notes : string;               (* "Enter transfer notes (optional): " *)
  x_now : datetime                (* datetime.now() *)
}.

Record AddInput : Type := mkAddInput {
  a_transaction_type : string;    (* "Enter transaction type (income/expense/transfer): " *)
  a_account_name : string;        (* "Enter account name: " *)
  a_choice : string;              (* number of the account, if asked *)
  a_category_name : string;       (* "Enter category name: " *)
  a_amount : list string;         (* "Enter amount: " *)
  a_date : option date;
  a_time : option time;
  a_notes : string;               (* "Enter notes (optional): " *)
  a_now : datetime;
  a_transfer : TransferInput      (* the prompts of transfer_funds *)
}.

Record DeleteInput : Type := mkDeleteInput {
  d_index : list string;          (* "Enter the index of the transaction to delete: " *)
  d_confirm : string;             (* "Are you sure ...? (yes/no): " *)
  d_confirm_again : string        (* the same question after the warning *)
}.

Record UpdateInput : Type := mkUpdateInput {
  u_index : list string;          (* "Enter the index of the transaction to update: " *)
  u_amount : string;              (* "Enter new amount (current: ...): " *)
  u_category : string;            (* "Enter new category (current: ...): " *)
  u_notes : string;               (* "Enter new notes (current: ...): " *)
  u_date : option date;
  u_time : option time
}.

(** [TransactionsManager.load_transactions] *)
Definition load_transactions : M unit :=
  modify (fun w => set_transactions (select_transactions (db w)) w).

(** The two-way parse of a transfer row's notes shared by
    [delete_transaction] and [update_transfer_funds]: the source id, the
    destination id and the destination name. *)
Definition transfer_parties (transaction : TransactionView) (w : World)
    : option Z * option Z * option string :=
  let note_part := split_head ":" (notes (v_row transaction)) in
  if contains "Transfer to" note_part then
    let source_id := t_account_id (v_row transaction) in
    let dest_name := strip (replace_with_empty "Transfer to " note_part) in
    let dest_id := dict_get String.eqb (casefold dest_name) (account_name_to_id w) in
    (Some source_id, dest_id, Some dest_name)
  else
    let dest_id := t_account_id (v_row transaction) in
    let dest_name := dict_get Z.eqb dest_id (account_id_to_name w) in
    let source_name := strip (replace_with_empty "Transfer from " note_part) in
    let source_id := dict_get String.eqb (casefold source_name) (account_name_to_id w) in
    (source_id, Some dest_id, dest_name).

Section TransactionsManager.
Context {rt : Runtime}.

(** The account a name stands for: the only match, or the one picked from
    the numbered list. *)
Definition pick_account (typed : string) (matching : list Account) : M Account :=
  choice <- get_choice typed ;;
  return_if ((choice <? 1)%Z || (Z.of_nat (List.length matching) <? choice)%Z)
            InvalidSelection ;;
  not_none (nth_error matching (Z.to_nat (choice - 1))).

(** [TransactionsManager.transfer_funds] *)
Definition transfer_funds (inp : TransferInput) : World -> Status * World :=
  method
    (let source := casefold (get_string (x_source inp)) in
     let dest := casefold (get_string (x_dest inp)) in
     names <- gets known_account_names ;;
     return_if (negb (str_in source names)) SourceAccountNotFound ;;
     return_if (negb (str_in dest names)) DestinationAccountNotFound ;;
     matching_source_accounts <- gets (search_accounts source) ;;
     source_id <-
       match matching_source_accounts with
       | [only] => ret (account_id only)
       | _ =>
           selected_account <- pick_account (x_source_choice inp) matching_source_accounts ;;
           return_if (Qleb (initial_balance selected_account) 0) SourceInsufficientFunds ;;
           ret (account_id selected_account)
       end ;;
     matching_dest_accounts <- gets (search_accounts dest) ;;
     dest_id <-
       match matching_dest_accounts with
       | [only] => ret (account_id only)
       | _ =>
           selected_account <- pick_account (x_dest_choice inp) matching_dest_accounts ;;
           ret (account_id selected_account)
       end ;;
     return_if (source_id =? dest_id)%Z SameAccount ;;
     typed_amount <- get_float (x_amount inp) None ;;
     x <- match typed_amount with
          | None => return_ InvalidAmount
          | Some x => if Qeq_bool x 0 then return_ InvalidAmount else ret x
          end ;;
     let t_date := or_else (x_date inp) (dt_date (x_now inp)) in
     let t_time := or_else (x_time inp) (dt_time (x_now inp)) in
     let note := get_string (x_notes inp) in
     src_balance <- gets (fun w => select_balance source_id (db w)) ;;
     return_if match src_balance with
               | None => true
               | Some balance => Qltb balance x
               end
               InsufficientFunds ;;
     (* debit entry: negative amount *)
     execute (insert_transaction source_id None Transfer (- x)
                ("Transfer to " ++ dest ++ ": " ++ note) t_date t_time) ;;
     (* credit entry: positive amount *)
     execute (insert_transaction dest_id None Transfer x
                ("Transfer from " ++ source ++ ": " ++ note) t_date t_time) ;;
     execute (update_balance (fun b => b - x) source_id) ;;
     execute (update_balance (fun b => b + x) dest_id) ;;
     load_transactions ;;
     ret (FundsTransferred source_id dest_id x))
    ErrorReported.

(** [TransactionsManager.add_transaction] *)
Definition add_transaction (inp : AddInput) : World -> Status * World :=
  method
    (let transaction_type := lower (get_string (a_transaction_type inp)) in
     return_if (negb (str_in transaction_type ["income"; "expense"; "transfer"]%string))
               InvalidTransactionType ;;
     (if String.eqb transaction_type "transfer"
      then s <- call (transfer_funds (a_transfer inp)) ;; return_ s
      else ret tt) ;;
     let is_expense := String.eqb transaction_type "expense" in
     let account_name := casefold (get_string (a_account_name inp)) in
     names <- gets known_account_names ;;
     return_if (negb (str_in account_name names)) AccountNotFound ;;
     matching_accounts <- gets (search_accounts account_name) ;;
     account <-
       match matching_accounts with
       | [only] => ret only
       | _ => pick_account (a_choice inp) matching_accounts
       end ;;
     let account_id := account_id account in
     let old_amount := initial_balance account in
     return_if (Qleb old_amount 0 && is_expense) BalanceZeroOrNegative ;;
     let category_name := casefold (get_string (a_category_name inp)) in
     role <- gets (if is_expense then expense_categories else income_categories) ;;
     let matching_categories :=
       dict_of String.eqb (map (fun kv => (casefold (fst kv), snd kv)) role) in
     category_id <-
       match dict_get String.eqb category_name matching_categories with
       | None => return_ CategoryDoesNotExist
       | Some category => ret (i_category_id category)
       end ;;
     typed_amount <- get_float (a_amount inp) (Some (1 # 100)) ;;
     x <- not_none typed_amount ;;            (* old_amount < None raises *)
     return_if (Qltb old_amount x && is_expense) InsufficientFunds ;;
     let t_date := or_else (a_date inp) (dt_date (a_now inp)) in
     let t_time := or_else (a_time inp) (dt_time (a_now inp)) in
     let note := get_string (a_notes inp) in
     let ty := if is_expense then Expense else Income in
     execute (insert_transaction account_id (Some category_id) ty x note t_date t_time) ;;
     load_transactions ;;
     (if is_expense
      then
        execute (update_balance (fun b => b - x) account_id) ;;
        (* self.budget_manager.load_budgets() drops its result *)
        _ <- call (update_budget_after_transaction (Some category_name) x) ;;
        ret tt
      else
        execute (update_balance (fun b => b + x) account_id)) ;;
     ret (TransactionAdded account_id category_id ty x))
    ErrorReported.

(** The index typed for [update_transaction] and [delete_transaction]:
    [int(choice) - 1], checked against the loaded rows. *)
Definition pick_transaction (typed : list string) : M TransactionView :=
  choice <- get_float typed None ;;
  choice <- not_none choice ;;                (* int(None) raises *)
  let index := (int_of_float choice - 1)%Z in
  loaded <- gets transactions ;;
  return_if ((index <? 0)%Z || (Z.of_nat (List.length loaded) <=? index)%Z)
            InvalidSelection ;;
  not_none (nth_error loaded (Z.to_nat index)).

(** The warning before a deletion that takes money out of an account:
    a second confirmation is asked for. *)
Definition confirm_overdraw (current_balance : option Q) (x : Q) (typed : string)
    : M unit :=
  balance <- not_none current_balance ;;      (* None <= 0 raises *)
  if Qleb balance 0 || Qltb balance x
  then return_if (negb (String.eqb (lower (get_string typed)) "yes")) DeletionCancelled
  else ret tt.

(** [TransactionsManager.delete_transaction] *)
Definition delete_transaction (inp : DeleteInput) : World -> Status * World :=
  method
    (load_transactions ;;
     loaded <- gets transactions ;;
     return_if (match loaded with [] => true | _ => false end) NoTransactions ;;
     load_transactions ;;                     (* view_transactions *)
     transaction <- pick_transaction (d_index inp) ;;
     return_if (negb (String.eqb (lower (get_string (d_confirm inp))) "yes"))
               DeletionCancelled ;;
     let row := v_row transaction in
     match transaction_type row with
     | Income =>
         balances <- gets account_balances ;;
         confirm_overdraw (dict_get Z.eqb (t_account_id row) balances) (amount row)
                          (d_confirm_again inp) ;;
         execute (update_balance (fun b => b - amount row) (t_account_id row))
     | Expense =>
         execute (update_balance (fun b => b + amount row) (t_account_id row)) ;;
         _ <- call (update_budget_after_transaction (v_category_name transaction)
                                                    (- amount row)) ;;
         ret tt
     | Transfer =>
         parties <- gets (transfer_parties transaction) ;;
         let '(source, dest, dest_name) := parties in
         return_if (falsy dest || falsy source) TransferAccountsUnidentified ;;
         source_id <- not_none source ;;
         dest_id <- not_none dest ;;
         balances <- gets account_balances ;;
         confirm_overdraw (dict_get Z.eqb dest_id balances) (amount row)
                          (d_confirm_again inp) ;;
         execute (update_balance (fun b => b - amount row) source_id) ;;
         execute (update_balance (fun b => b + amount row) dest_id) ;;
         (* delete both transfer transactions (debit & credit) *)
         execute (delete_transactions_like source_id
                    ("Transfer to " ++ fstr dest_name ++ "%")) ;;
         execute (delete_transactions_like dest_id
                    ("Transfer from " ++ fstr (v_account_name transaction) ++ "%"))
     end ;;
     load_accounts ;;
     (* self.budget_manager.load_budgets() drops its result *)
     execute (delete_transaction_row (transaction_id row)) ;;
     load_transactions ;;
     ret (TransactionDeleted transaction))
    ErrorReported.

(** [TransactionsManager.update_transfer_funds] *)
Definition update_transfer_funds (inp : UpdateInput) (transaction : TransactionView)
    : World -> Status * World :=
  method
    (load_transactions ;;
     load_accounts ;;
     let row := v_row transaction in
     let old_amount := Qabs (amount row) in
     parties <- gets (transfer_parties transaction) ;;
     let '(source, dest, dest_name) := parties in
     return_if (falsy dest) DestinationAccountNotFound ;;
     return_if (falsy source) SourceAccountNotFound ;;
     source_id <- not_none source ;;
     dest_id <- not_none dest ;;
     (* new_amount = get_string(...) or old_amount: a typed amount is a str *)
     return_if (negb (String.eqb (get_string (u_amount inp)) "")) InvalidAmount ;;
     let new_amount := old_amount in
     let new_date := or_else (u_date inp) (transaction_date row) in
     let new_time := or_else (u_time inp) (transaction_time row) in
     let new_notes := strip (get_string (u_notes inp)) in
     let old_notes := notes row in
     src_balance <- gets (fun w => select_balance source_id (db w)) ;;
     return_if match src_balance with
               | None => true
               | Some balance => Qltb (balance + Qabs old_amount) new_amount
               end
               InsufficientFunds ;;
     let to_dest := ("Transfer to " ++ fstr dest_name)%string in
     let from_this := ("Transfer from " ++ fstr (v_account_name transaction))%string in
     (if negb (String.eqb new_notes old_notes)
      then
        execute (update_transfer_rows_notes (- new_amount)
                   (to_dest ++ ": " ++ new_notes) new_date new_time
                   source_id (to_dest ++ "%")) ;;
        execute (update_transfer_rows_notes new_amount
                   (from_this ++ ": " ++ new_notes) new_date new_time
                   dest_id (from_this ++ "%"))
      else
        execute (update_transfer_rows (- new_amount) new_date new_time
                   source_id (to_dest ++ "%")) ;;
        execute (update_transfer_rows new_amount new_date new_time
                   dest_id (from_this ++ "%"))) ;;
     execute (update_balance (fun b => b + old_amount - new_amount) source_id) ;;
     execute (update_balance (fun b => b - old_amount + new_amount) dest_id) ;;
     load_transactions ;;
     ret TransferUpdated)
    ErrorReported.

(** [TransactionsManager.update_transaction] *)
Definition update_transaction (inp : UpdateInput) : World -> Status * World :=
  method
    (load_transactions ;;
     load_accounts ;;
     load_categories ;;
     loaded <- gets transactions ;;
     return_if (match loaded with [] => true | _ => false end) NoTransactions ;;
     load_transactions ;;                     (* view_transactions *)
     transaction <- pick_transaction (u_index inp) ;;
     let row := v_row transaction in
     match transaction_type row with
     | Transfer =>
         s <- call (update_transfer_funds inp transaction) ;;
         ret s
     | _ =>
         let old_amount := amount row in
         let old_category_id := t_category_id row in
         (* new_amount = input(...).strip() or amount: a typed amount is a str *)
         return_if (negb (String.eqb (strip (u_amount inp)) "")) InvalidAmount ;;
         let new_amount := old_amount in
         new_category <-
           (if String.eqb (strip (u_category inp)) ""
            then not_none (v_category_name transaction)   (* None.lower() raises *)
            else ret (strip (u_category inp))) ;;
         let new_notes := or_current (strip (u_notes inp)) (notes row) in
         let new_date := or_else (u_date inp) (transaction_date row) in
         let new_time := or_else (u_time inp) (transaction_time row) in
         let new_category_lower := lower new_category in
         income <- gets income_categories ;;
         expense <- gets expense_categories ;;
         let in_income := find_category new_category_lower income in
         let new_category_id :=
           if falsy in_income
           then match find_category new_category_lower expense with
                | Some id => Some id
                | None => in_income
                end
           else in_income in
         return_if (falsy new_category_id) CategoryDoesNotExist ;;
         execute (update_transaction_row new_category_id new_amount new_notes
                    new_date new_time (transaction_id row)) ;;
         load_transactions ;;
         match transaction_type row with
         | Expense =>
             execute (update_balance (fun b => b + old_amount - new_amount)
                                     (t_account_id row)) ;;
             load_accounts ;;
             (if negb match old_category_id, new_category_id with
                      | Some a, Some b => (a =? b)%Z
                      | None, None => true
                      | _, _ => false
                      end
              then
                (* roll back the old category, charge the new one *)
                execute (update_category_spent (fun s => s - old_amount) old_category_id) ;;
                execute (update_category_spent (fun s => s + new_amount) new_category_id)
              else
                execute (update_category_spent (fun s => s - old_amount + new_amount)
                                               new_category_id)) ;;
             reload_budgets
         | _ =>
             execute (update_balance (fun b => b - old_amount + new_amount)
                                     (t_account_id row)) ;;
             load_accounts
         end ;;
         load_categories ;;
         ret TransactionUpdated
     end)
    ErrorReported.
End TransactionsManager.

(* ================================================================= *)
(** ** main.py *)

(** [MainMenu.__init__]: every manager loads its cache from the store. *)
Definition main_menu_init (s : Store) : World :=
  let w := mkWorld s [] [] [] [] [] [] [] in
  let w := snd (load_accounts w) in
  let w := snd (load_categories w) in
  let w := snd (reload_budgets w) in
  snd (load_transactions w).

(* ================================================================= *)
(** ** A console for the worked examples

    [float] and [int] restricted to plain decimal literals: an optional
    minus sign, digits, and for [float] an optional fractional part. *)

Definition digit_of (c : ascii) : option Z :=
  let n := nat_of_ascii c in
  if ((48 <=? n) && (n <=? 57))%nat then Some (Z.of_nat (n - 48)) else None.

Fixpoint read_digits (s : string) (acc : Z) (count : nat) : Z * nat * string :=
  match s with
  | EmptyString => (acc, count, EmptyString)
  | String c s' =>
      match digit_of c with
      | Some d => read_digits s' (10 * acc + d)%Z (S count)
      | None => (acc, count, s)
      end
  end.

Definition read_sign (s : string) : bool * string :=
  match s with
  | String c s' => if Ascii.eqb c "-" then (true, s') else (false, s)
  | EmptyString => (false, s)
  end.

Definition decimal_int (s : string) : option Z :=
  let (negative, body) := read_sign s in
  let '(n, count, rest) := read_digits body 0%Z 0%nat in
  match rest, count with
  | EmptyString, S _ => Some (if negative then (- n)%Z else n)
  | _, _ => None
  end.

Definition decimal_float (s : string) : option Q :=
  let (negative, body) := read_sign s in
  let signed := fun n : Z => if negative then (- n)%Z else n in
  let '(n, count, rest) := read_digits body 0%Z 0%nat in
  match rest with
  | EmptyString =>
      match count with
      | O => None
      | S _ => Some (signed n # 1)
      end
  | String c fraction =>
      if Ascii.eqb c "."
      then
        let '(f, places, rest') := read_digits fraction 0%Z 0%nat in
        match rest', (count + places)%nat with
        | EmptyString, S _ =>
            Some (signed (n * 10 ^ Z.of_nat places + f)%Z # Z.to_pos (10 ^ Z.of_nat places))
        | _, _ => None
        end
      else None
  end.

Definition decimal_console : Runtime :=
  {| float_of_string := decimal_float; int_of_string := decimal_int |}.

(* ================================================================= *)
(** ** Worked data: a store with two accounts and two categories *)

Definition march_10 : datetime := mkDatetime (mkDate 2025 3 10) (mkTime 12 0 0).

Definition household : Store :=
  mkStore
    [mkAccount 1 "Wallet" 200 "cash"; mkAccount 2 "Bank" 1000 "savings"]
    [mkCategory 1 "Salary" None; mkCategory 2 "Groceries" None]
    [1%Z] [2%Z] [] [] 1 1.

Definition no_transfer : TransferInput :=
  mkTransferInput "" "" "" "" [] None None "" march_10.

(** An expense, and an income, typed at the prompts of [add_transaction]. *)
Definition spend (typed_amount : string) : AddInput :=
  mkAddInput "expense" "wallet" "" "groceries" [typed_amount] None None ""
             march_10 no_transfer.

Definition earn (typed_amount : string) : AddInput :=
  mkAddInput "income" "wallet" "" "salary" [typed_amount] None None ""
             march_10 no_transfer.

(** A transfer from Bank to Wallet typed at the prompts of [transfer_funds]. *)
Definition bank_to_wallet (typed_amount note : string) : TransferInput :=
  mkTransferInput "Bank" "Wallet" "" "" [typed_amount] None None note march_10.

(** Deleting the row shown at an index, confirming every question. *)
Definition delete_at (typed_index : string) : DeleteInput :=
  mkDeleteInput [typed_index] "yes" "yes".

(** Updating the row shown at an index, leaving every answer blank. *)
Definition keep_all_at (typed_index : string) : UpdateInput :=
  mkUpdateInput [typed_index] "" "" "" None None.

(** A budget of 100 for Groceries. *)
Definition groceries_100 : BudgetInput :=
  mkBudgetInput "Groceries" ["100"%string] march_10.

(* ================================================================= *)
(** ** Specification vocabulary *)

(** The statuses that end an operation which went through. *)
Definition committed (s : Status) : bool :=
  match s with
  | BudgetAdded _ _ | TransactionAdded _ _ _ _ | TransactionUpdated | TransferUpdated
  | TransactionDeleted _ | FundsTransferred _ _ _ => true
  | _ => false
  end.

(** Weakest precondition of a block: the postcondition holds of the way the
    block is left and of the state it leaves. *)
Definition wp {A} (m : M A) (Q : A + Exit -> World -> Prop) (w : World) : Prop :=
  Q (fst (m w)) (snd (m w)).

(** The status a method reports for the way its body was left. *)
Definition reported (on_error : Status) (r : Status + Exit) : Status :=
  match r with
  | inl s | inr (Return s) => s
  | inr Raise => on_error
  end.

(** The total of the amounts of one type booked on an account. *)
Definition booked (ty : TransactionType) (account : Z) (t : Transaction) : bool :=
  (t_account_id t =? account)%Z && TransactionType_eqb (transaction_type t) ty.

Definition total (l : list Q) : Q := fold_right Qplus 0 l.

Definition amounts_of (ty : TransactionType) (account : Z) (l : list Transaction) : Q :=
  total (map amount (filter (booked ty account) l)).

(** The stored balance of an account is its opening balance plus its income
    minus its expenses on record. *)
Definition balance_matches (account : Z) (opening : Q) (s : Store) : Prop :=
  exists b,
    select_balance account s = Some b /\
    b == opening + amounts_of Income account (transactions_tbl s)
                 - amounts_of Expense account (transactions_tbl s).

(** Primary keys of the transactions table. *)
Definition keyed (s : Store) : Prop :=
  NoDup (map transaction_id (transactions_tbl s)) /\
  Forall (fun t => (transaction_id t < next_transaction_id s)%Z) (transactions_tbl s).

Definition no_transfer_rows (s : Store) : Prop :=
  Forall (fun t => transaction_type t <> Transfer) (transactions_tbl s).

(** What one row adds to the total of a type on an account. *)
Definition contribution (ty : TransactionType) (account : Z) (t : Transaction) : Q :=
  if booked ty account t then amount t else 0.

Definition ledger_ok (account : Z) (opening : Q) (s : Store) : Prop :=
  keyed s /\ no_transfer_rows s /\ balance_matches account opening s.

(** The budget cache agrees with the store. *)
Definition budgets_loaded (w : World) : Prop := budgets w = load_budgets w.

(** The row the budget cache holds for a category: the last one of the
    table. *)
Definition last_budget (category : Z) (l : list Budget) : option Budget :=
  fold_left (fun found b => if (category =? b_category_id b)%Z then Some b else found)
            l None.

(** Rows that agree up to the value of the rational they hold. *)
Definition same_account (a b : Account) : Prop :=
  account_id a = account_id b /\ account_name a = account_name b /\
  account_type a = account_type b /\ initial_balance a == initial_balance b.


(** What [update_budget_after_transaction] does to the store. *)
Definition budget_delta (name : option string) (x : Q) (w : World) (s : Store) : Store :=
  match get_category_id_by_name name w with
  | Some category =>
      match dict_get Z.eqb category (budgets w) with
      | Some budget => update_budget_spent (spent budget + x) (budget_id budget) s
      | None => s
      end
  | None => s
  end.

(** The two rows a transfer inserts. *)
Definition transfer_rows (inp : TransferInput) (source dest : Z) (x : Q) (s : Store) : Store :=
  let note := get_string (x_notes inp) in
  let d := or_else (x_date inp) (dt_date (x_now inp)) in
  let t := or_else (x_time inp) (dt_time (x_now inp)) in
  insert_transaction dest None Transfer x
    ("Transfer from " ++ casefold (get_string (x_source inp)) ++ ": " ++ note) d t
    (insert_transaction source None Transfer (- x)
       ("Transfer to " ++ casefold (get_string (x_dest inp)) ++ ": " ++ note) d t s).

(** The budget seed in the words of the specification: the sum of the amounts
    of the category's expense transactions dated in the current month. *)
Definition in_current_month (now : datetime) (t : Transaction) : bool :=
  (year (transaction_date t) =? year (dt_date now))%Z &&
  (month (transaction_date t) =? month (dt_date now))%Z.

Definition expense_of (category : Z) (t : Transaction) : bool :=
  TransactionType_eqb (transaction_type t) Expense &&
  match t_category_id t with
  | Some c => (c =? category)%Z
  | None => false
  end.

Fixpoint seed_by_spec (category : Z) (now : datetime) (l : list Transaction) : Q :=
  match l with
  | [] => 0
  | t :: l' =>
      (if expense_of category t && in_current_month now t then amount t else 0)
      + seed_by_spec category now l'
  end.

(** The statuses with which an update stops before it asks for the amount. *)
Definition stops_before_amount (s : Status) : Prop :=
  s = NoTransactions \/ s = InvalidSelection \/ s = ErrorReported \/
  s = DestinationAccountNotFound \/ s = SourceAccountNotFound.

Section Sessions.
Context {rt : Runtime}.

(** Creations and deletions of transactions, run one after the other. *)
Inductive LedgerOp : Type :=
  | Create (inp : AddInput)
  | Delete (inp : DeleteInput).

Definition run_op (w : World) (op : LedgerOp) : World :=
  match op with
  | Create inp => snd (add_transaction inp w)
  | Delete inp => snd (delete_transaction inp w)
  end.

Definition run_ops (ops : list LedgerOp) (w : World) : World :=
  fold_left run_op ops w.

Definition asks_transfer (op : LedgerOp) : bool :=
  match op with
  | Create inp => String.eqb (lower (get_string (a_transaction_type inp))) "transfer"
  | Delete _ => false
  end.
End Sessions.

(** *** What each method leaves behind *)

(** A transfer either reports a refusal and leaves the whole state as it
    was, or inserts its two rows and moves the amount. *)
Definition transfer_post (inp : TransferInput) (w : World) (out : Status) (w' : World)
    : Prop :=
  (committed out = false /\ w' = w) \/
  exists source dest x balance,
    out = FundsTransferred source dest x /\
    source <> dest /\ ~ x == 0 /\
    select_balance source (db w) = Some balance /\ x <= balance /\
    db w' = update_balance (fun b => b + x) dest
              (update_balance (fun b => b - x) source
                 (transfer_rows inp source dest x (db w))).

(** The state [update_budget_after_transaction] leaves. *)
Definition budget_update_post (name : option string) (x : Q) (w w' : World) : Prop :=
  db w' = budget_delta name x w (db w) /\
  accounts w' = accounts w /\
  account_id_to_name w' = account_id_to_name w /\
  account_name_to_id w' = account_name_to_id w /\
  income_categories w' = income_categories w /\
  expense_categories w' = expense_categories w /\
  transactions w' = transactions w /\
  (budgets_loaded w -> budgets_loaded w').

(** [add_transaction], when no transfer is asked for: a refusal leaves the
    whole state as it was; otherwise one row is inserted, the balance moves
    and, for an expense, the budget is charged. *)
Definition add_post (inp : AddInput) (w : World) (out : Status) (w' : World) : Prop :=
  (committed out = false /\ w' = w) \/
  exists account category x note d t,
    let is_expense := String.eqb (lower (get_string (a_transaction_type inp))) "expense" in
    let ty := if is_expense then Expense else Income in
    let inserted :=
      insert_transaction (account_id account) (Some category) ty x note d t (db w) in
    out = TransactionAdded (account_id account) category ty x /\
    In account (accounts w) /\
    (is_expense = true -> 0 < initial_balance account /\ x <= initial_balance account) /\
    db w' = (if is_expense
             then budget_delta (Some (casefold (get_string (a_category_name inp)))) x w
                    (update_balance (fun b => b - x) (account_id account) inserted)
             else update_balance (fun b => b + x) (account_id account) inserted) /\
    income_categories w' = income_categories w /\
    expense_categories w' = expense_categories w /\
    (budgets_loaded w -> budgets_loaded w').

(** [delete_transaction]: the category caches stay, and either nothing in
    the store changes or the row goes after its effect was taken back. *)
Definition delete_post (inp : DeleteInput) (w : World) (out : Status) (w' : World)
    : Prop :=
  income_categories w' = income_categories w /\
  expense_categories w' = expense_categories w /\
  (budgets_loaded w -> budgets_loaded w') /\
  ((committed out = false /\ db w' = db w) \/
   exists t,
     out = TransactionDeleted t /\ In t (select_transactions (db w)) /\
     let row := v_row t in
     match transaction_type row with
     | Income =>
         db w' = delete_transaction_row (transaction_id row)
                   (update_balance (fun b => b - amount row) (t_account_id row) (db w))
     | Expense =>
         db w' = delete_transaction_row (transaction_id row)
                   (budget_delta (v_category_name t) (- amount row) w
                      (update_balance (fun b => b + amount row) (t_account_id row)
                                      (db w)))
     | Transfer => True
     end).

(** [add_budget] *)
Definition add_budget_post (inp : BudgetInput) (w : World) (out : Status) (w' : World)
    : Prop :=
  (committed out = false /\ w' = w) \/
  exists category limit,
    let seed := select_total_spent (Some category) (year (dt_date (b_now inp)))
                                   (month (dt_date (b_now inp))) (db w) in
    out = BudgetAdded category seed /\
    (1 # 100) <= limit /\
    get_category_id_by_name (Some (get_string (b_category_name inp))) w = Some category /\
    db w' = insert_budget category limit seed (db w).

(** [update_transfer_funds] and [update_transaction] *)
Definition transfer_update_post (inp : UpdateInput) (w : World) (out : Status)
    (w' : World) : Prop :=
  out <> TransactionUpdated /\
  (String.eqb (strip (u_amount inp)) "" = false ->
   db w' = db w /\ (out = InvalidAmount \/ stops_before_amount out)).

Definition update_post (inp : UpdateInput) (w : World) (out : Status) (w' : World)
    : Prop :=
  (String.eqb (strip (u_amount inp)) "" = false ->
   db w' = db w /\ (out = InvalidAmount \/ stops_before_amount out)) /\
  (out = TransactionUpdated ->
   String.eqb (strip (u_amount inp)) "" = true /\
   exists t category note d tm,
     In t (select_transactions (db w)) /\
     transactions_tbl (db w')
     = transactions_tbl
         (update_transaction_row category (amount (v_row t)) note d tm
            (transaction_id (v_row t)) (db w))).

(* ================================================================= *)
(** ** Worked sessions on the decimal console *)

(** The program started on the household store. *)
Definition opened : World := main_menu_init household.

(** Groceries has a budget of 100. *)
Definition budgeted : World :=
  snd (add_budget (rt := decimal_console) groceries_100 opened).

(** The Wallet holds 200; 150 are spent from it, three times. *)
Definition spent_once : World :=
  snd (add_transaction (rt := decimal_console) (spend "150") opened).

Definition spent_twice : World :=
  snd (add_transaction (rt := decimal_console) (spend "150") spent_once).

Definition spent_thrice : World :=
  snd (add_transaction (rt := decimal_console) (spend "150") spent_twice).

(** 300 are transferred from the Bank (1000) to the Wallet (200). *)
Definition transferred : World :=
  snd (transfer_funds (rt := decimal_console) (bank_to_wallet "300" "rent") opened).

(** Two transfers from the Bank to the Wallet, of 50 and of 30. *)
Definition transferred_twice : World :=
  snd (transfer_funds (rt := decimal_console) (bank_to_wallet "30" "b")
         (snd (transfer_funds (rt := decimal_console) (bank_to_wallet "50" "a") opened))).

(** A transfer typed with the amount -50. *)
Definition transferred_back : World :=
  snd (transfer_funds (rt := decimal_console) (bank_to_wallet "-50" "") opened).

(** A budget of 100 for Groceries and an expense of 60 booked under it. *)
Definition charged : World :=
  snd (add_transaction (rt := decimal_console) (spend "60") budgeted).


(** An expense of 40 dated in February next to one of 60 dated in March. *)
Definition spend_in_february : AddInput :=
  mkAddInput "expense" "wallet" "" "groceries" ["40"%string]
             (Some (mkDate 2025 2 20)) None "" march_10 no_transfer.

Definition two_months : World :=
  snd (add_transaction (rt := decimal_console) spend_in_february
         (snd (add_transaction (rt := decimal_console) (spend "60") opened))).

(** The scenario of the specification: a budget of 150 for Groceries, an
    expense of 60, an expense of 80, and the deletion of the second. *)
Definition groceries_150 : BudgetInput :=
  mkBudgetInput "Groceries" ["150"%string] march_10.

Definition scenario_60 : World :=
  snd (add_transaction (rt := decimal_console) (spend "60")
         (snd (add_budget (rt := decimal_console) groceries_150 opened))).

Definition scenario_80 : World :=
  snd (add_transaction (rt := decimal_console) (spend "80") scenario_60).

Definition scenario_deleted : World :=
  snd (delete_transaction (rt := decimal_console) (delete_at "2") scenario_80).

(** An update that types the new amount 75. *)
Definition retype_amount_at (typed_index : string) : UpdateInput :=
  mkUpdateInput [typed_index] "75" "" "" None None.

(** A short run: an income of 50, an expense of 60, then the first row is
    deleted. *)
Definition short_run : list LedgerOp :=
  [Create (earn "50"); Create (spend "60"); Delete (delete_at "1")].

(* ================================================================= *)
(** ** The account, category and budget menus

    The methods behind the menus of [main.py] that maintain accounts,
    categories and budgets, and the input loops of [utils.py] they use. *)

(** [str.capitalize] *)
Definition upper_char (c : ascii) : ascii :=
  let n := nat_of_ascii c in
  if ((97 <=? n) && (n <=? 122))%nat then ascii_of_nat (n - 32) else c.

Definition capitalize (s : string) : string :=
  match s with
  | EmptyString => EmptyString
  | String c s' => String (upper_char c) (lower s')
  end.

(** A typed line that Python treats as true: neither [None] nor empty. *)
Definition truthy (x : option string) : option string :=
  match x with
  | Some s => if String.eqb s "" then None else Some s
  | None => None
  end.

(** The line such a method reports last: one of the lines above, or one of
    its own.  The lines of a completed operation carry the key it worked on. *)
Inductive Notice : Type :=
  | Line (s : Status)
  (* accounts.py *)
  | InvalidAccountData
  | NegativeInitialBalance
  | AccountAdded (id : Z)
  | NoMatchingAccounts
  | AccountUpdated (id : Z)
  | AccountDeleted (id : Z)
  (* categories.py *)
  | CategoryExists
  | CategoryIdNotRetrieved
  | InvalidCategoryType
  | CategoryAdded (id : Z)
  | CategoryNotFound
  | NoUpdatesProvided
  | CategoryUpdated (id : Z)
  | CategoryDeleted (id : Z)
  (* budget.py *)
  | BudgetUpdated (id : Z) (limit : Q)
  | BudgetDeleted (id : Z).

(** A method of these menus whose body is one [try] block. *)
Definition procedure (body : M Notice) (w : World) : Notice * World :=
  match body w with
  | (inl n, w') => (n, w')
  | (inr (Return s), w') => (Line s, w')
  | (inr Raise, w') => (Line ErrorReported, w')
  end.

(** Calling such a method from a block. *)
Definition invoke {A} (f : World -> A * World) : M A :=
  fun w => let (a, w') := f w in (inl a, w').

(** *** utils.py: the remaining input loops *)

Section InputLoops.
Context {rt : Runtime}.

(** [InputUtils.get_valid_date]: [strptime] stands for
    [datetime.strptime(date_str, format).date()] (or [.time()]).  A blank
    line ends the loop at once; a line in another format counts as an
    attempt.  Reading past the typed lines raises. *)
Fixpoint get_valid_date {A} (strptime : string -> option A) (attempts : nat)
    (typed : list string) : M (option A) :=
  match attempts with
  | O => ret None                           (* "Maximum attempts reached." *)
  | S attempts' =>
      match typed with
      | [] => raise
      | line :: typed' =>
          let date_str := strip line in
          if String.eqb date_str "" then ret None
          else
            match strptime date_str with
            | Some d => ret (Some d)
            | None => get_valid_date strptime attempts' typed'
            end
      end
  end.

(** [InputUtils.get_valid_menu_choice]: lines are read until one is among
    the valid choices. *)
Fixpoint get_valid_menu_choice (typed : list string) (valid_choices : list string)
    : M Z :=
  match typed with
  | [] => raise
  | line :: typed' =>
      let choice := strip line in
      if str_in choice valid_choices
      then not_none (int_of_string choice)
      else get_valid_menu_choice typed' valid_choices
  end.

Definition account_types : list string := ["card"; "cash"; "savings"; "online"]%string.

(** [InputUtils.get_account_type]: at most three typed lines; a blank line
    answers [None] at once. *)
Fixpoint get_account_type_loop (attempts : nat) (typed : list string)
    : M (option string) :=
  match attempts with
  | O => ret None
  | S attempts' =>
      match typed with
      | [] => raise
      | line :: typed' =>
          let account_type := lower (strip line) in
          if String.eqb account_type "" then ret None
          else if negb (str_in (lower account_type) account_types)
               then get_account_type_loop attempts' typed'
               else ret (Some account_type)
      end
  end.

Definition get_account_type (typed : list string) : M (option string) :=
  get_account_type_loop 3 typed.
End InputLoops.

(** *** Statements of these menus *)

Definition set_categories_tbl (l : list Category) (s : Store) : Store :=
  mkStore (accounts_tbl s) l (income_categories_tbl s) (expense_categories_tbl s)
          (budgets_tbl s) (transactions_tbl s) (next_budget_id s) (next_transaction_id s).

(** The two tables that give a category its role. *)
Inductive RoleTable : Type := IncomeCategories | ExpenseCategories.

Definition role_tbl (table : RoleTable) (s : Store) : list Z :=
  match table with
  | IncomeCategories => income_categories_tbl s
  | ExpenseCategories => expense_categories_tbl s
  end.

Definition set_role_tbl (table : RoleTable) (l : list Z) (s : Store) : Store :=
  match table with
  | IncomeCategories =>
      mkStore (accounts_tbl s) (categories_tbl s) l (expense_categories_tbl s)
              (budgets_tbl s) (transactions_tbl s)
              (next_budget_id s) (next_transaction_id s)
  | ExpenseCategories =>
      mkStore (accounts_tbl s) (categories_tbl s) (income_categories_tbl s) l
              (budgets_tbl s) (transactions_tbl s)
              (next_budget_id s) (next_transaction_id s)
  end.

(** [INSERT INTO accounts (account_name, initial_balance, account_type)
     VALUES (%s, %s, %s)]; [key] is the AUTO_INCREMENT key the store gives
    the row, which [SELECT LAST_INSERT_ID()] then answers. *)
Definition insert_account (key : Z) (name : string) (balance : Q) (ty : string)
    (s : Store) : Store :=
  set_accounts_tbl (accounts_tbl s ++ [mkAccount key name balance ty]) s.

(** [UPDATE accounts SET account_name = %s WHERE account_id = %s] *)
Definition update_account_name (name : string) (id : Z) (s : Store) : Store :=
  set_accounts_tbl
    (map (fun a => if (account_id a =? id)%Z
                   then mkAccount (account_id a) name (initial_balance a) (account_type a)
                   else a)
         (accounts_tbl s)) s.

(** [UPDATE accounts SET account_type = %s WHERE account_id = %s] *)
Definition update_account_type (ty : string) (id : Z) (s : Store) : Store :=
  set_accounts_tbl
    (map (fun a => if (account_id a =? id)%Z
                   then mkAccount (account_id a) (account_name a) (initial_balance a) ty
                   else a)
         (accounts_tbl s)) s.

(** [DELETE FROM transactions WHERE account_id = %s] *)
Definition delete_transactions_of_account (id : Z) (s : Store) : Store :=
  set_transactions_tbl
    (filter (fun t => negb (t_account_id t =? id)%Z) (transactions_tbl s)) s.

(** [DELETE FROM accounts WHERE account_id = %s] *)
Definition delete_account_row (id : Z) (s : Store) : Store :=
  set_accounts_tbl (filter (fun a => negb (account_id a =? id)%Z) (accounts_tbl s)) s.

(** [INSERT INTO categories (category_name, description) VALUES (%s, %s)];
    [key] is the AUTO_INCREMENT key the store gives the row. *)
Definition insert_category (key : Z) (name : string) (descr : option string)
    (s : Store) : Store :=
  set_categories_tbl (categories_tbl s ++ [mkCategory key name descr]) s.

(** [SELECT category_id FROM categories WHERE category_name = %s], first
    row; the comparison is the collation's, which ignores case. *)
Definition select_category_id (name : string) (s : Store) : option Z :=
  option_map category_id
    (find (fun c => String.eqb (lower (category_name c)) (lower name))
          (categories_tbl s)).

(** [INSERT INTO income_categories (category_id) VALUES (%s)], and the same
    for [expense_categories]. *)
Definition insert_role (table : RoleTable) (id : Z) (s : Store) : Store :=
  set_role_tbl table (role_tbl table s ++ [id]) s.

(** [DELETE FROM {table} WHERE category_id = %s] *)
Definition delete_role (table : RoleTable) (id : Z) (s : Store) : Store :=
  set_role_tbl table (filter (fun c => negb (c =? id)%Z) (role_tbl table s)) s.

(** [UPDATE categories SET category_name = %s, description = %s
     WHERE category_id = %s], with the columns that were given. *)
Definition update_category_row (new_name new_description : option string) (id : Z)
    (s : Store) : Store :=
  set_categories_tbl
    (map (fun c => if (category_id c =? id)%Z
                   then mkCategory (category_id c)
                          (or_else new_name (category_name c))
                          (match new_description with
                           | Some d => Some d
                           | None => description c
                           end)
                   else c)
         (categories_tbl s)) s.

(** [DELETE FROM budgets WHERE category_id = %s] *)
Definition delete_budgets_of_category (id : Z) (s : Store) : Store :=
  set_budgets_tbl (filter (fun b => negb (b_category_id b =? id)%Z) (budgets_tbl s)) s.

(** [DELETE FROM transactions WHERE category_id = %s] *)
Definition delete_transactions_of_category (id : Z) (s : Store) : Store :=
  set_transactions_tbl
    (filter (fun t => negb match t_category_id t with
                           | Some c => (c =? id)%Z
                           | None => false
                           end)
            (transactions_tbl s)) s.

(** [DELETE FROM categories WHERE category_id = %s] *)
Definition delete_category_row (id : Z) (s : Store) : Store :=
  set_categories_tbl
    (filter (fun c => negb (category_id c =? id)%Z) (categories_tbl s)) s.

(** [UPDATE budgets SET monthly_limit = %s WHERE budget_id = %s] *)
Definition update_budget_limit (limit : Q) (id : Z) (s : Store) : Store :=
  set_budgets_tbl
    (map (fun b => if (budget_id b =? id)%Z
                   then mkBudget (budget_id b) (b_category_id b) limit (spent b)
                   else b)
         (budgets_tbl s)) s.

(** [DELETE FROM budgets WHERE budget_id = %s] *)
Definition delete_budget_row (id : Z) (s : Store) : Store :=
  set_budgets_tbl (filter (fun b => negb (budget_id b =? id)%Z) (budgets_tbl s)) s.

(** *** accounts.py: add, update, delete *)

Record AccountInput : Type := mkAccountInput {
  n_name : string;                (* "Enter account name: " *)
  n_balance : list string;        (* "Enter initial balance: " *)
  n_type : string;                (* "Enter account type (card/cash/savings/online): " *)
  n_key : Z                       (* the key the store gives the new row *)
}.

Record AccountUpdateInput : Type := mkAccountUpdateInput {
  ua_name : string;               (* "Enter the account name to update: " *)
  ua_choice : string;             (* number of the account, if asked *)
  ua_new_name : string;           (* "Enter new account name (leave blank to keep same): " *)
  ua_new_balance : string;        (* "Enter new balance (leave blank to keep same): " *)
  ua_new_type : list string       (* "Enter new account type ... (leave blank to keep same): " *)
}.

Record AccountDeleteInput : Type := mkAccountDeleteInput {
  da_name : string;               (* "Enter the account name to delete: " *)
  da_choice : string;             (* number of the account, if asked *)
  da_confirm : string             (* "Are you sure you want to delete ...? (yes/no): " *)
}.

Section AccountsManager.
Context {rt : Runtime}.

(** [AccountsManager.add_account]: the caches are extended in place, the
    name as it was given. *)
Definition add_account (account_name : string) (initial_balance : option Q)
    (account_type : string) (key : Z) : World -> Notice * World :=
  procedure
    (match initial_balance with
     | None => ret InvalidAccountData
     | Some balance =>
         if String.eqb account_name "" || String.eqb account_type ""
            || negb (str_in account_type account_types)
         then ret InvalidAccountData
         else if Qltb balance 0 then ret NegativeInitialBalance
         else
           execute (insert_account key account_name balance account_type) ;;
           let new_id := key in               (* SELECT LAST_INSERT_ID() *)
           modify (fun w =>
             set_accounts
               (accounts w ++ [mkAccount new_id account_name balance account_type])
               (dict_set Z.eqb new_id account_name (account_id_to_name w))
               (dict_set String.eqb account_name new_id (account_name_to_id w))
               w) ;;
           ret (AccountAdded new_id)
     end).

(** Choice 1 of [MainMenu.accounts_menu_flow]; an exception here is not
    caught by the menu. *)
Definition accounts_menu_add (inp : AccountInput) : M Notice :=
  let name := get_string (n_name inp) in
  balance <- get_float (n_balance inp) (Some 0) ;;
  let acc_type := get_string (n_type inp) in
  invoke (add_account name balance acc_type (n_key inp)).

(** [AccountsManager.update_account] *)
Definition update_account (inp : AccountUpdateInput) : World -> Notice * World :=
  procedure
    (load_accounts ;;
     let account_name := lower (get_string (ua_name inp)) in
     names <- gets known_account_names ;;
     return_if (negb (str_in account_name names)) AccountNotFound ;;
     matching_accounts <- gets (search_accounts account_name) ;;
     account_id <-
       match matching_accounts with
       | [only] => ret (account_id only)
       | _ =>
           selected_account <- pick_account (ua_choice inp) matching_accounts ;;
           ret (account_id selected_account)
       end ;;
     let new_name := get_string (ua_new_name inp) in
     let new_balance := get_string (ua_new_balance inp) in
     new_type <- get_account_type (ua_new_type inp) ;;
     (if negb (String.eqb new_name "")
      then execute (update_account_name new_name account_id)
      else ret tt) ;;
     (if negb (String.eqb new_balance "")
      then
        match float_of_string new_balance with
        | Some balance => execute (update_balance (fun _ => balance) account_id)
        | None => ret tt                      (* "Invalid balance entered." *)
        end
      else ret tt) ;;
     match new_type with
     | Some ty => execute (update_account_type ty account_id)
     | None => ret tt
     end ;;
     load_accounts ;;
     ret (AccountUpdated account_id)).

(** [AccountsManager.delete_account]: the typed name is looked up among the
    keys as it was typed. *)
Definition delete_account (inp : AccountDeleteInput) : World -> Notice * World :=
  procedure
    (load_accounts ;;
     let account_name := get_string (da_name inp) in
     name_to_id <- gets account_name_to_id ;;
     return_if (negb (dict_mem String.eqb account_name name_to_id)) AccountNotFound ;;
     matching_accounts <- gets (search_accounts account_name) ;;
     match matching_accounts with
     | [] => ret NoMatchingAccounts
     | _ =>
         account_id <-
           match matching_accounts with
           | [only] => ret (account_id only)
           | _ =>
               selected_account <- pick_account (da_choice inp) matching_accounts ;;
               ret (account_id selected_account)
           end ;;
         return_if (negb (String.eqb (lower (get_string (da_confirm inp))) "yes"))
                   DeletionCancelled ;;
         (* delete associated transactions first *)
         execute (delete_transactions_of_account account_id) ;;
         execute (delete_account_row account_id) ;;
         load_accounts ;;
         ret (AccountDeleted account_id)
     end).
End AccountsManager.

(** *** categories.py: names of keys, add, update, delete *)

Definition find_name (id : Z) (d : dict string CategoryInfo) : option string :=
  option_map fst (find (fun kv => (i_category_id (snd kv) =? id)%Z) d).

(** [CategoryManager.get_category_name_by_id] *)
Definition get_category_name_by_id (id : Z) (w : World) : option string :=
  match find_name id (income_categories w) with
  | Some name => Some name
  | None => find_name id (expense_categories w)
  end.

(** The search loop of [update_category] and [delete_category]: the entry
    and the role it was found in. *)
Definition find_info (name_lower : string) (d : dict string CategoryInfo)
    : option CategoryInfo :=
  option_map snd (find (fun kv => String.eqb (lower (fst kv)) name_lower) d).

Definition find_cat_data (name_lower : string) (w : World)
    : option (CategoryInfo * RoleTable) :=
  match find_info name_lower (income_categories w) with
  | Some data => Some (data, IncomeCategories)
  | None =>
      match find_info name_lower (expense_categories w) with
      | Some data => Some (data, ExpenseCategories)
      | None => None
      end
  end.

(** [CategoryManager.add_category]; [key] is the key the store gives the
    new row of [categories]. *)
Definition add_category (category_name category_type : string)
    (descr : option string) (key : Z) : World -> Notice * World :=
  procedure
    (load_categories ;;
     let category_name_lower := lower category_name in
     income <- gets income_categories ;;
     expense <- gets expense_categories ;;
     if str_in category_name_lower (map (fun kv => lower (fst kv)) income)
        || str_in category_name_lower (map (fun kv => lower (fst kv)) expense)
     then ret CategoryExists
     else
       execute (insert_category key category_name descr) ;;
       row <- gets (fun w => select_category_id category_name (db w)) ;;
       match row with
       | None => ret CategoryIdNotRetrieved
       | Some category_id =>
           if String.eqb (lower category_type) "income" then
             execute (insert_role IncomeCategories category_id) ;;
             modify (fun w =>
               set_categories
                 (dict_set String.eqb category_name (mkInfo category_id descr)
                           (income_categories w))
                 (expense_categories w) w) ;;
             ret (CategoryAdded category_id)
           else if String.eqb (lower category_type) "expense" then
             execute (insert_role ExpenseCategories category_id) ;;
             modify (fun w =>
               set_categories
                 (income_categories w)
                 (dict_set String.eqb category_name (mkInfo category_id descr)
                           (expense_categories w)) w) ;;
             ret (CategoryAdded category_id)
           else ret InvalidCategoryType
       end).

(** [CategoryManager.update_category] *)
Definition update_category (category_name : string)
    (new_name new_description : option string) : World -> Notice * World :=
  procedure
    (load_categories ;;
     let category_name_lower := lower category_name in
     found <- gets (find_cat_data category_name_lower) ;;
     match found with
     | None => ret CategoryNotFound
     | Some (cat_data, _) =>
         match truthy new_name, truthy new_description with
         | None, None => ret NoUpdatesProvided
         | name, descr =>
             execute (update_category_row name descr (i_category_id cat_data)) ;;
             load_categories ;;
             ret (CategoryUpdated (i_category_id cat_data))
         end
     end).

(** [CategoryManager.delete_category] *)
Definition delete_category (category_name : string) : World -> Notice * World :=
  procedure
    (load_categories ;;
     let category_name_lower := lower category_name in
     found <- gets (find_cat_data category_name_lower) ;;
     match found with
     | None => ret CategoryNotFound
     | Some (cat_data, table) =>
         let id := i_category_id cat_data in
         match table with
         | ExpenseCategories => execute (delete_budgets_of_category id)
         | IncomeCategories => ret tt
         end ;;
         execute (delete_role table id) ;;
         execute (delete_transactions_of_category id) ;;
         execute (delete_category_row id) ;;
         load_categories ;;
         ret (CategoryDeleted id)
     end).

(** *** budget.py: view, update, delete, alerts asked from the menu *)

Record BudgetUpdateInput : Type := mkBudgetUpdateInput {
  ub_category_name : string;      (* "Enter the category name to update the budget: " *)
  ub_monthly_limit : list string  (* "Enter new monthly limit (current: ...): " *)
}.

Record BudgetDeleteInput : Type := mkBudgetDeleteInput {
  rb_category_name : string;      (* "Enter the category name to delete the budget: " *)
  rb_confirm : string             (* "Are you sure ...? (yes/no): " *)
}.

(** [BudgetManager.view_budgets]: the cache is loaded, then printed. *)
Definition view_budgets : M unit := reload_budgets.

Section BudgetMenu.
Context {rt : Runtime}.

(** [BudgetManager.update_budget] *)
Definition update_budget (inp : BudgetUpdateInput) : World -> Notice * World :=
  procedure
    (view_budgets ;;
     let category_name := capitalize (get_string (ub_category_name inp)) in
     category <- gets (get_category_id_by_name (Some category_name)) ;;
     cached <- gets budgets ;;
     match category with
     | None => return_ NoBudgetFound
     | Some category_id =>
         match dict_get Z.eqb category_id cached with
         | None => return_ NoBudgetFound
         | Some budget =>
             new_monthly_limit <- get_float (ub_monthly_limit inp) (Some (1 # 100)) ;;
             limit <- not_none new_monthly_limit ;;   (* Decimal(None) raises *)
             execute (update_budget_limit limit (budget_id budget)) ;;
             reload_budgets ;;
             ret (BudgetUpdated (budget_id budget) limit)
         end
     end).

(** [BudgetManager.delete_budget] *)
Definition delete_budget (inp : BudgetDeleteInput) : World -> Notice * World :=
  procedure
    (view_budgets ;;
     let category_name := get_string (rb_category_name inp) in
     category <- gets (get_category_id_by_name (Some category_name)) ;;
     cached <- gets budgets ;;
     match category with
     | None => return_ NoBudgetFound
     | Some category_id =>
         match dict_get Z.eqb category_id cached with
         | None => return_ NoBudgetFound
         | Some budget =>
             return_if (negb (String.eqb (lower (get_string (rb_confirm inp))) "yes"))
                       DeletionCancelled ;;
             execute (delete_budget_row (budget_id budget)) ;;
             reload_budgets ;;
             ret (BudgetDeleted (budget_id budget))
         end
     end).
End BudgetMenu.

(** [BudgetManager.check_budget_alerts()] as the budgets menu calls it,
    without arguments: the category is asked for and the spent value is read
    from the cache, [self.budgets[category_id]], which raises for a missing
    key. *)
Definition check_budget_alerts_asked (typed : string) (w : World) : Status :=
  let category_name := get_string typed in
  match get_category_id_by_name (Some category_name) w with
  | None => ErrorCheckingAlerts
  | Some category_id =>
      match dict_get Z.eqb category_id (budgets w) with
      | None => ErrorCheckingAlerts
      | Some budget => check_budget_alerts category_id (spent budget) w
      end
  end.

(** *** Vocabulary for these menus *)

(** The line a method of these menus reports for the way its body was left. *)
Definition noticed (r : Notice + Exit) : Notice :=
  match r with
  | inl n => n
  | inr (Return s) => Line s
  | inr Raise => Line ErrorReported
  end.

(** The money held on all accounts. *)
Definition balances_total (s : Store) : Q := total (map initial_balance (accounts_tbl s)).

(** A typed line that [get_float] refuses. *)
Definition refused {rt : Runtime} (min_value : option Q) (line : string) : Prop :=
  match float_of_string (strip line) with
  | None => True
  | Some x =>
      match min_value with
      | Some m => x < m
      | None => False
      end
  end.

(** What identifies a row of the transactions table and is never edited. *)
Definition row_key (t : Transaction) : Z * Z * TransactionType :=
  (transaction_id t, t_account_id t, transaction_type t).

(** *** Worked data for these menus *)

(** A console on which one date can be typed. *)
Definition read_march_10 (s : string) : option date :=
  if String.eqb s "2025-03-10" then Some (dt_date march_10) else None.

(** A cash account typed at the accounts menu; the balance typed first is
    refused. *)
Definition cash_account : AccountInput :=
  mkAccountInput "Cash" ["-5"; "10"]%string "cash" 3.

(** The Wallet, named with a capital letter, and in lower case. *)
Definition delete_Wallet : AccountDeleteInput := mkAccountDeleteInput "Wallet" "" "yes".
Definition delete_wallet : AccountDeleteInput := mkAccountDeleteInput "wallet" "" "yes".

Definition groceries_row : Category := mkCategory 2 "Groceries" None.

(** The budget of 100 for Groceries, as it is created. *)
Definition groceries_budget : Budget := mkBudget 1 2 100 0.

(* ================================================================= *)
(** ** Reasoning about blocks *)

Lemma wp_method body on_error (P : Status -> World -> Prop) w :
  wp body (fun r w' => P (reported on_error r) w') w ->
  P (fst (method body on_error w)) (snd (method body on_error w)).
Proof.
  unfold wp, method, reported. destruct (body w) as [[s|[s|]] w']; auto.
Qed.

Lemma wp_bind {A B} (m : M A) (k : A -> M B) Q w :
  wp m (fun r w1 => match r with
                    | inl a => wp (k a) Q w1
                    | inr e => Q (inr e) w1
                    end) w ->
  wp (bind m k) Q w.
Proof. unfold wp, bind. destruct (m w) as [[a|e] w1]; auto. Qed.

Lemma wp_ret {A} (a : A) (Q : A + Exit -> World -> Prop) w :
  Q (inl a) w -> wp (ret a) Q w.
Proof. auto. Qed.

Lemma wp_return {A} s (Q : A + Exit -> World -> Prop) w :
  Q (inr (Return s)) w -> wp (return_ s) Q w.
Proof. auto. Qed.

Lemma wp_raise {A} (Q : A + Exit -> World -> Prop) w :
  Q (inr Raise) w -> wp raise Q w.
Proof. auto. Qed.

Lemma wp_gets {A} (f : World -> A) (Q : A + Exit -> World -> Prop) w :
  Q (inl (f w)) w -> wp (gets f) Q w.
Proof. auto. Qed.

Lemma wp_modify f (Q : unit + Exit -> World -> Prop) w :
  Q (inl tt) (f w) -> wp (modify f) Q w.
Proof. auto. Qed.

Lemma wp_execute f (Q : unit + Exit -> World -> Prop) w :
  Q (inl tt) (set_db (f (db w)) w) -> wp (execute f) Q w.
Proof. auto. Qed.

Lemma wp_return_if c s (Q : unit + Exit -> World -> Prop) w :
  (c = true -> Q (inr (Return s)) w) -> (c = false -> Q (inl tt) w) ->
  wp (return_if c s) Q w.
Proof. destruct c; unfold wp; simpl; auto. Qed.

Lemma wp_not_none {A} (x : option A) (Q : A + Exit -> World -> Prop) w :
  (x = None -> Q (inr Raise) w) -> (forall a, x = Some a -> Q (inl a) w) ->
  wp (not_none x) Q w.
Proof. destruct x; unfold wp; simpl; auto. Qed.

Lemma wp_call f (Q : Status + Exit -> World -> Prop) w :
  Q (inl (fst (f w))) (snd (f w)) -> wp (call f) Q w.
Proof. unfold wp, call. destruct (f w); auto. Qed.

Lemma wp_get_float {rt : Runtime} typed lo (Q : option Q + Exit -> World -> Prop) w :
  Q (inl None) w -> Q (inr Raise) w ->
  (forall x, match lo with Some m => m <= x | None => True end -> Q (inl (Some x)) w) ->
  wp (get_float typed lo) Q w.
Proof.
  intros HN HR HS. unfold get_float. generalize 3%nat as n.
  intros n; revert typed. induction n as [|n IH]; intros typed; simpl.
  - exact HN.
  - destruct typed as [|line typed]; [exact HR|].
    destruct (float_of_string (strip line)) as [x|]; [|apply IH].
    destruct lo as [m|].
    + unfold Qltb. destruct (Qle_bool m x) eqn:E; simpl; [|apply IH].
      apply HS. apply Qle_bool_iff; exact E.
    + apply HS. exact I.
Qed.

Lemma wp_pick_account {rt : Runtime} typed l (Q : Account + Exit -> World -> Prop) w :
  Q (inr (Return InvalidNumber)) w -> Q (inr (Return InvalidSelection)) w ->
  Q (inr Raise) w ->
  (forall a, In a l -> Q (inl a) w) ->
  wp (pick_account typed l) Q w.
Proof.
  intros H1 H2 H3 H4. unfold pick_account, get_choice.
  apply wp_bind. destruct (int_of_string typed) as [n|];
    [apply wp_ret | apply wp_return; exact H1].
  apply wp_bind. apply wp_return_if; intros _; [exact H2|].
  apply wp_not_none; intros; [exact H3|]. apply H4. eapply nth_error_In; eauto.
Qed.

Lemma wp_pick_transaction {rt : Runtime} typed (Q : TransactionView + Exit -> World -> Prop) w :
  Q (inr (Return InvalidSelection)) w -> Q (inr Raise) w ->
  (forall t, In t (transactions w) -> Q (inl t) w) ->
  wp (pick_transaction typed) Q w.
Proof.
  intros H1 H2 H3. unfold pick_transaction.
  apply wp_bind. apply wp_get_float; [ | exact H2 | intros x _ ].
  - apply wp_bind. apply wp_raise. exact H2.
  - apply wp_bind. apply wp_ret. apply wp_bind. apply wp_gets.
    apply wp_bind. apply wp_return_if; intros _; [exact H1|].
    apply wp_not_none; intros; [exact H2|]. apply H3. eapply nth_error_In; eauto.
Qed.

Lemma wp_confirm_overdraw {rt : Runtime} balance x typed (Q : unit + Exit -> World -> Prop) w :
  Q (inr (Return DeletionCancelled)) w -> Q (inr Raise) w -> Q (inl tt) w ->
  wp (confirm_overdraw balance x typed) Q w.
Proof.
  intros H1 H2 H3. unfold confirm_overdraw.
  apply wp_bind. apply wp_not_none; intros; [exact H2|].
  destruct (Qleb a 0 || Qltb a x); [|exact H3].
  apply wp_return_if; intros _; assumption.
Qed.

Ltac simpl_world :=
  cbv beta iota zeta;
  cbn [db accounts account_id_to_name account_name_to_id income_categories
       expense_categories budgets transactions
       set_db set_accounts set_categories set_budgets set_transactions].

Ltac wp_step :=
  lazymatch goal with
  | |- wp (bind _ _) _ _ => apply wp_bind
  | |- wp (ret _) _ _ => apply wp_ret
  | |- wp (return_ _) _ _ => apply wp_return
  | |- wp raise _ _ => apply wp_raise
  | |- wp (gets _) _ _ => apply wp_gets
  | |- wp (modify _) _ _ => apply wp_modify
  | |- wp (execute _) _ _ => apply wp_execute
  | |- wp load_transactions _ _ => apply wp_modify
  | |- wp load_accounts _ _ => apply wp_modify
  | |- wp load_categories _ _ => apply wp_modify
  | |- wp reload_budgets _ _ => apply wp_modify
  | |- wp (return_if _ _) _ _ => apply wp_return_if; intros ?
  | |- wp (not_none _) _ _ => apply wp_not_none; [intros ? | intros ? ?]
  | |- wp (call _) _ _ => apply wp_call
  | |- wp (get_float _ _) _ _ => apply wp_get_float; [ | | intros ? ?]
  | |- wp (pick_account _ _) _ _ => apply wp_pick_account; [ | | | intros ? ?]
  | |- wp (pick_transaction _) _ _ => apply wp_pick_transaction; [ | | intros ? ?]
  | |- wp (confirm_overdraw _ _ _) _ _ => apply wp_confirm_overdraw
  | |- wp (if ?c then _ else _) _ _ => destruct c eqn:?
  | |- wp (match ?x with _ => _ end) _ _ => destruct x eqn:?
  end; simpl_world.

(* ================================================================= *)
(** ** Numbers, strings and rows *)

Lemma Qltb_false x y : Qltb x y = false -> y <= x.
Proof.
  unfold Qltb. intros H. apply Qle_bool_iff.
  destruct (Qle_bool y x); [reflexivity | discriminate].
Qed.

Lemma Qltb_true x y : Qltb x y = true -> x < y.
Proof.
  unfold Qltb. intros H. apply Qnot_le_lt. intros Hle.
  apply Qle_bool_iff in Hle. rewrite Hle in H. discriminate.
Qed.

Lemma Qleb_true x y : Qleb x y = true -> x <= y.
Proof. unfold Qleb. apply Qle_bool_iff. Qed.

Lemma Qleb_false x y : Qleb x y = false -> y < x.
Proof.
  unfold Qleb. intros H. apply Qnot_le_lt. intros Hle.
  apply Qle_bool_iff in Hle. rewrite Hle in H. discriminate.
Qed.

Lemma find_account_map (g : Account -> Account) id l :
  (forall a, account_id (g a) = account_id a) ->
  find (fun a => (account_id a =? id)%Z) (map g l)
  = option_map g (find (fun a => (account_id a =? id)%Z) l).
Proof.
  intros Hg. induction l as [|a l IH]; simpl; [reflexivity|].
  rewrite Hg. destruct (account_id a =? id)%Z; [reflexivity | exact IH].
Qed.

Lemma select_balance_update_balance f id id' s :
  select_balance id (update_balance f id' s)
  = if (id =? id')%Z then option_map f (select_balance id s) else select_balance id s.
Proof.
  unfold select_balance, update_balance. cbn [accounts_tbl set_accounts_tbl].
  rewrite find_account_map by (intros a; destruct (account_id a =? id')%Z; reflexivity).
  destruct (find (fun a => (account_id a =? id)%Z) (accounts_tbl s)) as [a|] eqn:E; simpl.
  - apply find_some in E. destruct E as [_ E]. apply Z.eqb_eq in E. rewrite E.
    destruct (id =? id')%Z; reflexivity.
  - destruct (id =? id')%Z; reflexivity.
Qed.

(* ================================================================= *)
(** ** Transfers *)

Section Transfers.
Context {rt : Runtime}.

Lemma transfer_funds_spec inp w :
  transfer_post inp w (fst (transfer_funds inp w)) (snd (transfer_funds inp w)).
Proof.
  unfold transfer_funds. apply wp_method. unfold transfer_post. simpl_world.
  repeat (wp_step; try solve [left; split; reflexivity]).
  all: right; cbn [reported].
  all: match goal with
       | H : match select_balance ?s _ with _ => _ end = false |- _ =>
           destruct (select_balance s (db w)) as [balance|] eqn:Hb; [|discriminate];
           apply Qltb_false in H
       end.
  all: match goal with
       | H : (_ =? _)%Z = false |- _ => apply Z.eqb_neq in H
       end.
  all: match goal with
       | H : Qeq_bool _ _ = false |- _ => apply Qeq_bool_neq in H
       end.
  all: do 4 eexists; repeat split; eauto.
Qed.
End Transfers.

(* ================================================================= *)
(** ** Budget updates *)

Lemma budget_delta_tables name x w s :
  accounts_tbl (budget_delta name x w s) = accounts_tbl s /\
  transactions_tbl (budget_delta name x w s) = transactions_tbl s /\
  next_transaction_id (budget_delta name x w s) = next_transaction_id s /\
  categories_tbl (budget_delta name x w s) = categories_tbl s.
Proof.
  unfold budget_delta.
  destruct (get_category_id_by_name name w) as [c|]; [|repeat split].
  destruct (dict_get Z.eqb c (budgets w)); repeat split.
Qed.

Lemma update_budget_after_transaction_spec name x w :
  budget_update_post name x w (snd (update_budget_after_transaction name x w)).
Proof.
  unfold update_budget_after_transaction.
  apply (wp_method _ _ (fun _ w' => budget_update_post name x w w')).
  unfold budget_update_post, budget_delta. simpl_world.
  repeat wp_step; repeat split; auto.
Qed.

(* ================================================================= *)
(** ** Creating and deleting transactions *)

Section Ledger.
Context {rt : Runtime}.

Lemma search_accounts_In name w a : In a (search_accounts name w) -> In a (accounts w).
Proof. unfold search_accounts. intros H. apply filter_In in H. tauto. Qed.

Lemma add_transaction_spec inp w :
  String.eqb (lower (get_string (a_transaction_type inp))) "transfer" = false ->
  add_post inp w (fst (add_transaction inp w)) (snd (add_transaction inp w)).
Proof.
  intros Hnt. unfold add_transaction. apply wp_method. unfold add_post. simpl_world.
  repeat (wp_step; try congruence; try solve [left; split; reflexivity]).
  all: try match goal with H : In _ [] |- _ => destruct H end.
  all: right; cbn [reported].
  all: match goal with
       | H : Some _ = Some _ |- _ => injection H as <-
       end.
  all: match goal with
       | |- context [TransactionAdded (account_id ?a) (i_category_id ?c) _ ?x] =>
           exists a, (i_category_id c), x, (get_string (a_notes inp)),
                  (or_else (a_date inp) (dt_date (a_now inp))),
                  (or_else (a_time inp) (dt_time (a_now inp)))
       end.
  all: cbv zeta; split; [reflexivity|].
  all: split;
    [ match goal with
      | H : search_accounts _ _ = [_] |- _ =>
          eapply search_accounts_In; rewrite H; left; reflexivity
      | H : search_accounts _ _ = _, H' : In _ _ |- _ =>
          eapply search_accounts_In; rewrite H; exact H'
      end | ].
  all: split;
    [ intros He;
      first [ discriminate He
            | repeat match goal with
                     | H : _ && true = false |- _ => rewrite andb_true_r in H
                     end;
              split; [apply Qleb_false | apply Qltb_false]; assumption ] | ].
  all: try match goal with
       | |- context [update_budget_after_transaction ?n ?x ?W] =>
           pose proof (update_budget_after_transaction_spec n x W)
             as (Hdb & _ & _ & _ & Hi & He & _ & Hl);
           revert Hdb Hi He Hl; simpl_world; intros Hdb Hi He Hl;
           rewrite Hdb, Hi, He; repeat split; try reflexivity;
           intros Hw; apply Hl; exact Hw
       end.
  all: repeat split; try reflexivity.
  all: intros Hw; exact Hw.
Qed.

Lemma delete_transaction_spec inp w :
  delete_post inp w (fst (delete_transaction inp w)) (snd (delete_transaction inp w)).
Proof.
  unfold delete_transaction. apply wp_method. unfold delete_post. simpl_world.
  repeat (wp_step; try solve [repeat split; auto]).
  all: match goal with
       | Hin : In ?t _, Hty : transaction_type (v_row ?t) = _ |- _ =>
           rename Hin into Hpicked; rename Hty into Htype
       end.
  - (* an income row *)
    repeat split; try reflexivity; [intros Hw; exact Hw|].
    right. exists t. repeat split; [exact Hpicked|]. cbv zeta. rewrite Htype. reflexivity.
  - (* an expense row *)
    match goal with
    | |- context [update_budget_after_transaction ?n ?x ?W] =>
        pose proof (update_budget_after_transaction_spec n x W)
          as (Hdb & _ & _ & _ & Hi & He & _ & Hl);
        revert Hdb Hi He Hl; simpl_world; intros Hdb Hi He Hl
    end.
    rewrite Hdb, Hi, He.
    repeat split; try reflexivity.
    + intros Hw. unfold budgets_loaded in *. simpl_world.
      specialize (Hl Hw). rewrite Hl. unfold load_budgets. simpl_world. rewrite Hdb.
      reflexivity.
    + right. exists t. repeat split; [exact Hpicked|]. cbv zeta. rewrite Htype. reflexivity.
  - (* a transfer row *)
    repeat split; try reflexivity; [intros Hw; exact Hw|].
    right. exists t. repeat split; [exact Hpicked|]. cbv zeta. rewrite Htype. exact I.
Qed.
End Ledger.

(* ================================================================= *)
(** ** Totals over the ledger *)

Lemma total_app l1 l2 : total (l1 ++ l2) == total l1 + total l2.
Proof.
  unfold total. induction l1 as [|x l1 IH]; cbn [app fold_right]; [ring | rewrite IH; ring].
Qed.

Lemma amounts_of_cons ty a t l :
  amounts_of ty a (t :: l) == contribution ty a t + amounts_of ty a l.
Proof.
  unfold amounts_of, contribution. cbn [filter].
  destruct (booked ty a t); cbn [map total fold_right]; [reflexivity | ring].
Qed.

Lemma amounts_of_app ty a l1 l2 :
  amounts_of ty a (l1 ++ l2) == amounts_of ty a l1 + amounts_of ty a l2.
Proof.
  unfold amounts_of. rewrite filter_app, map_app. apply total_app.
Qed.

Lemma amounts_of_snoc ty a t l :
  amounts_of ty a (l ++ [t]) == amounts_of ty a l + contribution ty a t.
Proof.
  rewrite amounts_of_app, amounts_of_cons.
  change (amounts_of ty a []) with 0. ring.
Qed.

Lemma filter_other_ids id l :
  ~ In id (map transaction_id l) ->
  filter (fun r => negb (transaction_id r =? id)%Z) l = l.
Proof.
  induction l as [|r l IH]; simpl; intros H; [reflexivity|].
  destruct (transaction_id r =? id)%Z eqn:E.
  - apply Z.eqb_eq in E. tauto.
  - simpl. rewrite IH by tauto. reflexivity.
Qed.

Lemma amounts_of_remove ty a t l :
  NoDup (map transaction_id l) -> In t l ->
  amounts_of ty a (filter (fun r => negb (transaction_id r =? transaction_id t)%Z) l)
  == amounts_of ty a l - contribution ty a t.
Proof.
  induction l as [|r l IH]; cbn [map filter In]; intros Hnd Hin; [contradiction|].
  inversion Hnd as [|? ? Hnotin Hnd']; subst.
  destruct Hin as [-> | Hin].
  - rewrite Z.eqb_refl. cbn [negb]. rewrite filter_other_ids by exact Hnotin.
    rewrite amounts_of_cons. ring.
  - destruct (transaction_id r =? transaction_id t)%Z eqn:E.
    + apply Z.eqb_eq in E. exfalso. apply Hnotin. rewrite E.
      apply in_map. exact Hin.
    + cbn [negb]. rewrite !amounts_of_cons, IH by assumption. ring.
Qed.

(* ================================================================= *)
(** ** The ledger invariant *)

Lemma ledger_ok_tables a o s1 s2 :
  accounts_tbl s1 = accounts_tbl s2 ->
  transactions_tbl s1 = transactions_tbl s2 ->
  next_transaction_id s1 = next_transaction_id s2 ->
  ledger_ok a o s2 -> ledger_ok a o s1.
Proof.
  unfold ledger_ok, keyed, no_transfer_rows, balance_matches, select_balance.
  intros -> -> ->. tauto.
Qed.

Lemma booked_other ty ty' a t :
  transaction_type t = ty' -> ty' <> ty -> contribution ty a t = 0.
Proof.
  unfold contribution, booked. intros -> H.
  destruct ty', ty; simpl; try congruence; rewrite ?andb_false_r; reflexivity.
Qed.

Lemma fresh_key_NoDup l next :
  NoDup (map transaction_id l) ->
  Forall (fun t => (transaction_id t < next)%Z) l ->
  NoDup (map transaction_id l ++ [next]).
Proof.
  intros Hnd Hlt. apply NoDup_app; [exact Hnd | repeat constructor; intros [] |].
  intros id Hin [<- | []]. apply in_map_iff in Hin. destruct Hin as (t & Ht & Hin).
  rewrite Forall_forall in Hlt. specialize (Hlt t Hin). lia.
Qed.

(** Booking a new income or expense row keeps the invariant. *)
Lemma ledger_ok_book a o s account category (expense : bool) x note d t :
  ledger_ok a o s ->
  ledger_ok a o
    (update_balance (fun b => if expense then b - x else b + x) account
       (insert_transaction account category (if expense then Expense else Income)
          x note d t s)).
Proof.
  intros ((Hnd & Hlt) & Hnt & (b & Hb & Hsum)).
  split; [|split].
  - unfold keyed. cbn [transactions_tbl next_transaction_id update_balance
                       set_accounts_tbl insert_transaction].
    split.
    + rewrite map_app. apply fresh_key_NoDup; assumption.
    + apply Forall_app. split.
      * eapply Forall_impl; [|exact Hlt]. cbv beta. intros; lia.
      * repeat constructor. cbn [transaction_id]. lia.
  - unfold no_transfer_rows. cbn [transactions_tbl update_balance set_accounts_tbl
                                  insert_transaction].
    apply Forall_app. split; [exact Hnt|]. repeat constructor.
    cbn [transaction_type]. destruct expense; discriminate.
  - unfold balance_matches. rewrite select_balance_update_balance.
    change (select_balance a (insert_transaction account category
              (if expense then Expense else Income) x note d t s))
      with (select_balance a s).
    cbn [transactions_tbl update_balance set_accounts_tbl insert_transaction].
    rewrite Hb.
    pose proof (amounts_of_snoc Income a
                  (mkTransaction (next_transaction_id s) account category
                     (if expense then Expense else Income) x note d t)
                  (transactions_tbl s)) as HI.
    pose proof (amounts_of_snoc Expense a
                  (mkTransaction (next_transaction_id s) account category
                     (if expense then Expense else Income) x note d t)
                  (transactions_tbl s)) as HE.
    unfold contribution, booked in HI, HE.
    cbn [t_account_id transaction_type amount] in HI, HE.
    rewrite (Z.eqb_sym account a) in HI, HE.
    destruct (a =? account)%Z; cbn [option_map andb] in *;
      (eexists; split; [reflexivity|]);
      destruct expense; cbn [TransactionType_eqb] in HI, HE; lra.
Qed.

(** Removing an income or expense row, with the balance put back, keeps the
    invariant. *)
Lemma ledger_ok_unbook a o s t :
  ledger_ok a o s -> In t (transactions_tbl s) ->
  ledger_ok a o
    (delete_transaction_row (transaction_id t)
       (update_balance
          (fun b => match transaction_type t with
                    | Expense => b + amount t
                    | _ => b - amount t
                    end)
          (t_account_id t) s)).
Proof.
  intros ((Hnd & Hlt) & Hnt & (b & Hb & Hsum)) Hin.
  assert (Hty : transaction_type t <> Transfer)
    by (unfold no_transfer_rows in Hnt; rewrite Forall_forall in Hnt; auto).
  split; [|split].
  - unfold keyed. cbn [transactions_tbl next_transaction_id update_balance
                       set_accounts_tbl set_transactions_tbl delete_transaction_row].
    split.
    + clear - Hnd. induction (transactions_tbl s) as [|r l IH]; cbn [filter map];
        [constructor|].
      inversion Hnd as [|? ? Hnotin Hnd']; subst.
      destruct (negb (transaction_id r =? transaction_id t)%Z); [|auto].
      cbn [map]. constructor; [|auto].
      intros Hin. apply Hnotin. apply in_map_iff in Hin. destruct Hin as (r' & <- & Hin).
      apply in_map. apply filter_In in Hin. tauto.
    + apply Forall_forall. intros r Hr. apply filter_In in Hr.
      rewrite Forall_forall in Hlt. apply Hlt. tauto.
  - unfold no_transfer_rows. cbn [transactions_tbl update_balance set_accounts_tbl
                                  set_transactions_tbl delete_transaction_row].
    apply Forall_forall. intros r Hr. apply filter_In in Hr.
    unfold no_transfer_rows in Hnt. rewrite Forall_forall in Hnt. apply Hnt. tauto.
  - unfold balance_matches.
    change (select_balance a (delete_transaction_row (transaction_id t) ?s))
      with (select_balance a s).
    rewrite select_balance_update_balance.
    cbn [transactions_tbl update_balance set_accounts_tbl set_transactions_tbl
         delete_transaction_row].
    rewrite Hb.
    pose proof (amounts_of_remove Income a t (transactions_tbl s) Hnd Hin) as HI.
    pose proof (amounts_of_remove Expense a t (transactions_tbl s) Hnd Hin) as HE.
    unfold contribution, booked in HI, HE.
    rewrite (Z.eqb_sym (t_account_id t) a) in HI, HE.
    destruct (a =? t_account_id t)%Z; cbn [option_map andb] in *;
      (eexists; split; [reflexivity|]);
      destruct (transaction_type t); cbn [TransactionType_eqb] in HI, HE;
      try lra; congruence.
Qed.

Section LedgerInvariant.
Context {rt : Runtime}.

Lemma select_transactions_row t s :
  In t (select_transactions s) -> In (v_row t) (transactions_tbl s).
Proof.
  unfold select_transactions. intros H. apply in_map_iff in H.
  destruct H as (r & <- & Hr). exact Hr.
Qed.

Lemma run_op_ledger_ok a o op w :
  asks_transfer op = false ->
  ledger_ok a o (db w) -> ledger_ok a o (db (run_op w op)).
Proof.
  destruct op as [inp|inp]; cbn [asks_transfer run_op]; intros Hnt Hok.
  - destruct (add_transaction_spec inp w Hnt)
      as [[_ ->] | (account & category & x & note & d & t & H)]; [exact Hok|].
    cbv zeta in H. destruct H as (_ & _ & _ & Hdb & _). rewrite Hdb.
    destruct (String.eqb (lower (get_string (a_transaction_type inp))) "expense").
    + eapply ledger_ok_tables;
        [apply budget_delta_tables | apply budget_delta_tables
        | apply budget_delta_tables |].
      exact (ledger_ok_book a o (db w) (account_id account) (Some category) true
               x note d t Hok).
    + exact (ledger_ok_book a o (db w) (account_id account) (Some category) false
               x note d t Hok).
  - destruct (delete_transaction_spec inp w)
      as (_ & _ & _ & [[_ ->] | (t & _ & Hin & Hcase)]); [exact Hok|].
    apply select_transactions_row in Hin. cbv zeta in Hcase.
    pose proof (ledger_ok_unbook a o (db w) (v_row t) Hok Hin) as Hun.
    destruct (transaction_type (v_row t)) eqn:Hty.
    + rewrite Hcase. exact Hun.
    + rewrite Hcase. unfold delete_transaction_row in *.
      destruct (budget_delta_tables (v_category_name t) (- amount (v_row t)) w
                  (update_balance (fun b => b + amount (v_row t))
                                  (t_account_id (v_row t)) (db w)))
        as (Ha & Ht & Hn & _).
      eapply ledger_ok_tables; [| | | exact Hun];
        cbn [accounts_tbl transactions_tbl next_transaction_id set_transactions_tbl];
        rewrite ?Ht; auto.
    + destruct Hok as (_ & Hnt' & _). unfold no_transfer_rows in Hnt'.
      rewrite Forall_forall in Hnt'. elim (Hnt' _ Hin Hty).
Qed.

(** C3. Over any run of income and expense creations and deletions (no
    transfer is asked for, no transfer row is on record, transaction keys
    are unique), an account whose stored balance was its opening balance
    plus income minus expenses on record still has that property: the
    stored balance equals the opening balance plus the income amounts
    minus the expense amounts of the rows on record after the run. *)
Theorem ledger_balance_invariant ops w account opening :
  Forall (fun op => asks_transfer op = false) ops ->
  keyed (db w) ->
  no_transfer_rows (db w) ->
  balance_matches account opening (db w) ->
  balance_matches account opening (db (run_ops ops w)).
Proof.
  intros Hops Hk Hnt Hb.
  assert (Hok : ledger_ok account opening (db w)) by (split; [|split]; assumption).
  clear Hk Hnt Hb. revert w Hok.
  induction Hops as [|op ops Hop Hops IH]; intros w Hok; cbn [run_ops fold_left].
  - apply Hok.
  - apply IH. apply run_op_ledger_ok; assumption.
Qed.

(** An account with nothing on record: its stored balance is the opening
    balance of the invariant. *)
Lemma fresh_account_balance_matches account b s :
  select_balance account s = Some b ->
  Forall (fun t => t_account_id t <> account) (transactions_tbl s) ->
  balance_matches account b s.
Proof.
  intros Hb Hnone. exists b. split; [exact Hb|].
  assert (H0 : forall ty, amounts_of ty account (transactions_tbl s) == 0).
  { intros ty. induction Hnone as [|t l Ht _ IH]; [reflexivity|].
    rewrite amounts_of_cons, IH. unfold contribution, booked.
    apply Z.eqb_neq in Ht. rewrite Ht. cbn [andb]. ring. }
  rewrite !H0. ring.
Qed.

(** C4. A transfer that goes through is between two different accounts,
    the source held at least the amount, the stored balance of the source
    goes down by the amount and that of the destination goes up by it, and
    exactly two rows are appended: a debit of type Transfer without category
    on the source carrying the negated amount and a credit of type Transfer
    without category on the destination carrying the amount; the two
    amounts add up to zero. *)
Theorem transfer_funds_moves_amount inp w X Y A w' bY :
  transfer_funds inp w = (FundsTransferred X Y A, w') ->
  select_balance Y (db w) = Some bY ->
  X <> Y /\
  exists bX,
    select_balance X (db w) = Some bX /\ A <= bX /\
    select_balance X (db w') = Some (bX - A) /\
    select_balance Y (db w') = Some (bY + A) /\
    exists debit credit,
      transactions_tbl (db w') = transactions_tbl (db w) ++ [debit; credit] /\
      transaction_type debit = Transfer /\ t_category_id debit = None /\
      t_account_id debit = X /\ amount debit = - A /\
      transaction_type credit = Transfer /\ t_category_id credit = None /\
      t_account_id credit = Y /\ amount credit = A /\
      amount debit + amount credit == 0.
Proof.
  intros Hrun HY. pose proof (transfer_funds_spec inp w) as Hpost.
  rewrite Hrun in Hpost. cbn [fst snd] in Hpost.
  destruct Hpost as [[Hc _] | (s & d & x & bX & Hout & Hne & _ & HX & Hle & Hdb)];
    [discriminate Hc|].
  injection Hout as -> -> ->. split; [exact Hne|].
  exists bX. rewrite Hdb. rewrite !select_balance_update_balance.
  change (select_balance ?i (transfer_rows inp s d x (db w)))
    with (select_balance i (db w)).
  assert (Hsd : (s =? d)%Z = false) by (apply Z.eqb_neq; exact Hne).
  assert (Hds : (d =? s)%Z = false) by (rewrite Z.eqb_sym; exact Hsd).
  rewrite HX, HY, !Z.eqb_refl, Hsd, Hds. cbn [option_map].
  repeat split; try assumption.
  do 2 eexists. split.
  - unfold transfer_rows, update_balance, insert_transaction.
    cbn [transactions_tbl set_accounts_tbl]. rewrite <- app_assoc. reflexivity.
  - cbn [transaction_type t_category_id t_account_id amount].
    repeat split. ring.
Qed.
End LedgerInvariant.

(* ================================================================= *)
(** ** The budget cache *)

Lemma dict_get_set (k k' : Z) (v : Budget) d :
  dict_get Z.eqb k (dict_set Z.eqb k' v d)
  = if (k =? k')%Z then Some v else dict_get Z.eqb k d.
Proof.
  induction d as [|[k0 v0] d IH]; cbn [dict_set dict_get]; [reflexivity|].
  destruct (k' =? k0)%Z eqn:E'; cbn [dict_get].
  - apply Z.eqb_eq in E'. subst k0. destruct (k =? k')%Z; reflexivity.
  - rewrite IH. destruct (k =? k0)%Z eqn:E; [|reflexivity].
    apply Z.eqb_eq in E. subst k0. rewrite Z.eqb_sym, E'. reflexivity.
Qed.

Lemma dict_get_load c l d :
  dict_get Z.eqb c
    (fold_left (fun d kv => dict_set Z.eqb (fst kv) (snd kv) d)
               (map (fun b => (b_category_id b, b)) l) d)
  = fold_left (fun found b => if (c =? b_category_id b)%Z then Some b else found)
              l (dict_get Z.eqb c d).
Proof.
  revert d. induction l as [|b l IH]; intros d; cbn [map fold_left fst snd];
    [reflexivity|].
  rewrite IH, dict_get_set. reflexivity.
Qed.

Lemma load_budgets_get c w :
  dict_get Z.eqb c (load_budgets w) = last_budget c (budgets_tbl (db w)).
Proof. unfold load_budgets, dict_of, last_budget. apply dict_get_load. Qed.




Lemma Forall2_map_self {A} (R : A -> A -> Prop) (f : A -> A) l :
  (forall a, In a l -> R (f a) a) -> Forall2 R (map f l) l.
Proof.
  induction l as [|a l IH]; cbn [map]; intros H; constructor.
  - apply H. left; reflexivity.
  - apply IH. intros; apply H. right; assumption.
Qed.

Lemma same_account_refl a : same_account a a.
Proof. repeat split; reflexivity. Qed.





Lemma lower_char_idem c : lower_char (lower_char c) = lower_char c.
Proof. destruct c as [[] [] [] [] [] [] [] []]; reflexivity. Qed.

Lemma lower_idem s : lower (lower s) = lower s.
Proof.
  induction s as [|c s IH]; cbn [lower]; [reflexivity|].
  rewrite lower_char_idem, IH. reflexivity.
Qed.

Section RoundTrip.
Context {rt : Runtime}.

Lemma add_transaction_transfer inp w :
  String.eqb (lower (get_string (a_transaction_type inp))) "transfer" = true ->
  add_transaction inp w = transfer_funds (a_transfer inp) w.
Proof.
  intros H. apply String.eqb_eq in H. unfold add_transaction. rewrite H.
  unfold method at 1. unfold bind at 1. cbn [return_if str_in existsb negb String.eqb
    Ascii.eqb Bool.eqb orb ret].
  unfold bind at 1. unfold bind at 1. unfold call, return_.
  destruct (transfer_funds (a_transfer inp) w) as [s w']. reflexivity.
Qed.

Lemma add_transaction_added inp w account category ty x w' :
  add_transaction inp w = (TransactionAdded account category ty x, w') ->
  String.eqb (lower (get_string (a_transaction_type inp))) "transfer" = false.
Proof.
  intros Hadd.
  destruct (String.eqb (lower (get_string (a_transaction_type inp))) "transfer") eqn:E;
    [|reflexivity].
  rewrite add_transaction_transfer in Hadd by exact E.
  pose proof (transfer_funds_spec (a_transfer inp) w) as Hpost.
  rewrite Hadd in Hpost.
  destruct Hpost as [[Hc _] | (? & ? & ? & ? & Hout & _)]; discriminate.
Qed.

End RoundTrip.

(* ================================================================= *)
(** ** Budget creation *)

Lemma fold_left_Qplus l acc : fold_left Qplus l acc == acc + total l.
Proof.
  revert acc. induction l as [|x l IH]; intros acc; cbn [fold_left total fold_right].
  - ring.
  - rewrite IH. unfold total. ring.
Qed.

Lemma sql_sum_total l : coalesce (sql_sum l) 0 == total l.
Proof.
  destruct l as [|x l]; cbn [sql_sum coalesce]; [reflexivity|].
  rewrite fold_left_Qplus. reflexivity.
Qed.

Lemma month_expense_spec c now t :
  month_expense (Some c) (year (dt_date now)) (month (dt_date now)) t
  = expense_of c t && in_current_month now t.
Proof.
  unfold month_expense, expense_of, in_current_month.
  destruct (t_category_id t) as [c'|];
    destruct (TransactionType_eqb (transaction_type t) Expense);
    cbn [andb]; try reflexivity.
  - destruct (c' =? c)%Z; reflexivity.
  - destruct (c' =? c)%Z; reflexivity.
Qed.

Lemma select_total_spent_spec c now s :
  select_total_spent (Some c) (year (dt_date now)) (month (dt_date now)) s
  == seed_by_spec c now (transactions_tbl s).
Proof.
  unfold select_total_spent. rewrite sql_sum_total.
  induction (transactions_tbl s) as [|t l IH]; cbn [filter seed_by_spec]; [reflexivity|].
  rewrite month_expense_spec.
  destruct (expense_of c t && in_current_month now t); cbn [map total fold_right].
  - fold (total (map amount
            (filter (month_expense (Some c) (year (dt_date now)) (month (dt_date now))) l))).
    rewrite IH. reflexivity.
  - rewrite IH. ring.
Qed.

Lemma select_total_spent_none c now s :
  Forall (fun t => expense_of c t && in_current_month now t = false) (transactions_tbl s) ->
  select_total_spent (Some c) (year (dt_date now)) (month (dt_date now)) s = 0.
Proof.
  unfold select_total_spent. intros H.
  induction H as [|t l Ht _ IH]; cbn [filter]; [reflexivity|].
  rewrite month_expense_spec, Ht. exact IH.
Qed.

Lemma seed_by_spec_app c now l1 l2 :
  seed_by_spec c now (l1 ++ l2) == seed_by_spec c now l1 + seed_by_spec c now l2.
Proof.
  induction l1 as [|t l1 IH]; cbn [app seed_by_spec]; [ring | rewrite IH; ring].
Qed.

Section Budgets.
Context {rt : Runtime}.

Lemma add_budget_spec inp w :
  add_budget_post inp w (fst (add_budget inp w)) (snd (add_budget inp w)).
Proof.
  unfold add_budget. apply wp_method. unfold add_budget_post. simpl_world.
  repeat (wp_step; try solve [left; split; reflexivity]).
  right. cbn [reported].
  match goal with H : Some _ = Some _ |- _ => injection H as <- end.
  match goal with H : get_category_id_by_name _ _ = Some _ |- _ => rewrite H end.
  do 2 eexists. cbv zeta. repeat split; eauto.
Qed.

(** C9. A budget that is created is stored with a spent value equal to the
    sum of the amounts of its category's expense transactions dated in the
    year and month of the creation; a transaction dated in another month or
    year can be taken off the record without changing that value, and the
    value is 0 when the category has no expense transaction in that month. *)
Theorem add_budget_seed inp w category seed w' :
  add_budget inp w = (BudgetAdded category seed, w') ->
  (exists limit,
     0 < limit /\
     budgets_tbl (db w')
     = budgets_tbl (db w) ++ [mkBudget (next_budget_id (db w)) category limit seed]) /\
  seed == seed_by_spec category (b_now inp) (transactions_tbl (db w)) /\
  (forall l1 t l2,
     transactions_tbl (db w) = l1 ++ t :: l2 ->
     in_current_month (b_now inp) t = false ->
     seed == seed_by_spec category (b_now inp) (l1 ++ l2)) /\
  (Forall (fun t => expense_of category t && in_current_month (b_now inp) t = false)
          (transactions_tbl (db w)) ->
   seed = 0).
Proof.
  intros Hrun. pose proof (add_budget_spec inp w) as Hpost.
  rewrite Hrun in Hpost. cbn [fst snd] in Hpost.
  destruct Hpost as [[Hc _] | (c & limit & Hout & Hlimit & _ & Hdb)];
    [discriminate Hc|].
  cbv zeta in Hout, Hdb. injection Hout as -> ->.
  split; [|split; [|split]].
  - exists limit. split; [lra|]. rewrite Hdb. reflexivity.
  - apply select_total_spent_spec.
  - intros l1 t l2 Hl Ht. rewrite select_total_spent_spec, Hl.
    rewrite !seed_by_spec_app. cbn [seed_by_spec]. rewrite Ht, andb_false_r. ring.
  - apply select_total_spent_none.
Qed.
End Budgets.

(* ================================================================= *)
(** ** Updates *)

Section Updates.
Context {rt : Runtime}.

Lemma update_transfer_funds_spec inp t w :
  transfer_update_post inp w (fst (update_transfer_funds inp t w))
                       (snd (update_transfer_funds inp t w)).
Proof.
  unfold update_transfer_funds. apply wp_method.
  unfold transfer_update_post, stops_before_amount, get_string. simpl_world.
  repeat (wp_step;
          try solve [split; [discriminate | intros _; split; [reflexivity | tauto]]]).
  all: cbn [reported]; (split; [discriminate | intros He]).
  all: match goal with
       | H : negb _ = false |- _ => rewrite He in H; discriminate H
       end.
Qed.

Lemma update_transaction_spec inp w :
  update_post inp w (fst (update_transaction inp w)) (snd (update_transaction inp w)).
Proof.
  unfold update_transaction. apply wp_method.
  unfold update_post, stops_before_amount. simpl_world.
  repeat (wp_step;
          try solve [split; [intros _; split; [reflexivity | tauto] | discriminate]]).
  all: cbn [reported].
  all: try match goal with
       | |- context [update_transfer_funds ?i ?t ?W] =>
           destruct (update_transfer_funds_spec i t W) as (Hne & Himp);
           split;
           [ intros He; destruct (Himp He) as (Hdb & Hs);
             split; [rewrite Hdb; reflexivity | exact Hs]
           | intros Hout; contradiction ]
       end.
  all: split;
    [ intros He;
      match goal with
      | H : negb _ = false |- _ => rewrite He in H; discriminate H
      end
    | intros Hout; try discriminate Hout ].
  all: split;
    [ match goal with
      | H : negb _ = false |- _ => apply negb_false_iff in H; exact H
      end | ].
  all: match goal with
       | H : In ?t _ |- _ => exists t; do 4 eexists; split; [exact H | reflexivity]
       end.
Qed.

Lemma amounts_unchanged category note d tm t l :
  NoDup (map transaction_id l) -> In t l ->
  map amount
    (map (fun r => if (transaction_id r =? transaction_id t)%Z
                   then mkTransaction (transaction_id r) (t_account_id r) category
                                      (transaction_type r) (amount t) note d tm
                   else r) l)
  = map amount l.
Proof.
  intros Hnd Hin. rewrite map_map. apply map_ext_in. intros r Hr.
  destruct (transaction_id r =? transaction_id t)%Z eqn:E; [|reflexivity].
  cbn [amount]. apply Z.eqb_eq in E.
  assert (Hrt : r = t); [|rewrite Hrt; reflexivity].
  clear - Hnd Hin Hr E. induction l as [|r0 l IH]; [contradiction|].
  cbn [map] in Hnd. inversion Hnd as [|? ? Hnotin Hnd']; subst.
  destruct Hr as [<-|Hr], Hin as [<-|Hin]; auto.
  - elim Hnotin. rewrite E. apply in_map. exact Hin.
  - elim Hnotin. rewrite <- E. apply in_map. exact Hr.
Qed.

(** What holds of amounts under an update.  A typed, non-blank new amount
    stops the update: nothing in the store changes, and the status is
    "invalid amount" unless the update had already stopped before asking
    for the amount.  An update of
    an income or expense transaction that completes was given a blank
    amount and leaves the amount of every transaction on record as it was
    (transaction keys being unique). *)
Theorem update_transaction_keeps_amounts inp w :
  (strip (u_amount inp) <> EmptyString ->
   db (snd (update_transaction inp w)) = db w /\
   (fst (update_transaction inp w) = InvalidAmount \/
    stops_before_amount (fst (update_transaction inp w)))) /\
  (NoDup (map transaction_id (transactions_tbl (db w))) ->
   fst (update_transaction inp w) = TransactionUpdated ->
   strip (u_amount inp) = EmptyString /\
   map amount (transactions_tbl (db (snd (update_transaction inp w))))
   = map amount (transactions_tbl (db w))).
Proof.
  destruct (update_transaction_spec inp w) as (Hrej & Hupd). split.
  - intros Hne. apply Hrej. apply String.eqb_neq. exact Hne.
  - intros Hnd Hout. destruct (Hupd Hout) as (Hblank & t & c & note & d & tm & Hin & Htbl).
    split; [apply String.eqb_eq; exact Hblank|].
    rewrite Htbl. cbn [transactions_tbl update_transaction_row set_transactions_tbl].
    apply amounts_unchanged; [exact Hnd | apply select_transactions_row; exact Hin].
Qed.
End Updates.

(* ================================================================= *)
(** ** Budget alerts *)

(** *** Floats *)

Lemma pow2_pos k : 0 < 2 ^ k.
Proof. apply Qpower_0_lt. reflexivity. Qed.

Lemma pow2_succ k : 2 ^ (k + 1) == 2 * 2 ^ k.
Proof. rewrite Qpower_plus by discriminate. rewrite Qpower_1_r. ring. Qed.

Lemma pow2_pred k : 2 ^ (k - 1) == 2 ^ k * (1 # 2).
Proof.
  assert (H : 2 ^ k == 2 * 2 ^ (k - 1)).
  { rewrite <- pow2_succ. replace (k - 1 + 1)%Z with k by lia. reflexivity. }
  rewrite H. ring.
Qed.

Lemma pow2_le a b : (a <= b)%Z -> 2 ^ a <= 2 ^ b.
Proof. intros H. apply Qpower_le_compat_l; [exact H | discriminate]. Qed.

Lemma log2_bounds n : (0 < n)%Z -> 2 ^ Z.log2 n <= inject_Z n /\ inject_Z n < 2 ^ (Z.log2 n + 1).
Proof.
  intros Hn. destruct (Z.log2_spec n Hn) as [Hlo Hhi].
  pose proof (Z.log2_nonneg n) as H0. split.
  - change 2 with (inject_Z 2). rewrite <- Zpower_Qpower by exact H0.
    rewrite <- Zle_Qle. exact Hlo.
  - change 2 with (inject_Z 2). rewrite <- Zpower_Qpower by lia.
    rewrite <- Zlt_Qlt. exact Hhi.
Qed.

Lemma ilog2_spec x : 0 < x -> 2 ^ ilog2 x <= x /\ x < 2 ^ (ilog2 x + 1).
Proof.
  intros Hx. unfold ilog2.
  set (a := Z.log2 (Qnum x)). set (b := Z.log2 (Zpos (Qden x))).
  assert (Hn : (0 < Qnum x)%Z).
  { destruct x as [n d]. unfold Qlt in Hx. cbn in *. lia. }
  destruct (log2_bounds (Qnum x) Hn) as [Hna Hnb]. fold a in Hna, Hnb.
  destruct (log2_bounds (Zpos (Qden x)) eq_refl) as [Hda Hdb]. fold b in Hda, Hdb.
  assert (Hxd : x * inject_Z (Zpos (Qden x)) == inject_Z (Qnum x)).
  { destruct x as [n d]. unfold Qeq, Qmult, inject_Z. cbn. lia. }
  assert (Hd : 0 < inject_Z (Zpos (Qden x))) by reflexivity.
  pose proof (pow2_pos a) as Ha. pose proof (pow2_pos b) as Hb.
  pose proof (pow2_pos (a - b)) as Hk.
  assert (Eab : 2 ^ a == 2 ^ (a - b) * 2 ^ b).
  { rewrite <- Qpower_plus by discriminate. replace (a - b + b)%Z with a by lia. reflexivity. }
  (* 2^(a-b-1) < x < 2^(a-b+1) *)
  assert (Hlo : 2 ^ (a - b - 1) < x).
  { rewrite pow2_pred. rewrite pow2_succ in Hdb.
    set (D := inject_Z (Zpos (Qden x))) in *. set (N := inject_Z (Qnum x)) in *.
    set (P := 2 ^ (a - b)) in *. set (B := 2 ^ b) in *. set (A := 2 ^ a) in *.
    apply Qnot_le_lt. intros Hc.
    assert (H1 : x * D <= P * (1 # 2) * D) by (apply Qmult_le_compat_r; [exact Hc | lra]).
    assert (H2 : P * D < P * (2 * B)) by (apply Qmult_lt_l; assumption).
    lra. }
  assert (Hhi : x < 2 ^ (a - b + 1)).
  { rewrite pow2_succ. rewrite pow2_succ in Hnb.
    set (D := inject_Z (Zpos (Qden x))) in *. set (N := inject_Z (Qnum x)) in *.
    set (P := 2 ^ (a - b)) in *. set (B := 2 ^ b) in *. set (A := 2 ^ a) in *.
    apply Qnot_le_lt. intros Hc.
    assert (H1 : 2 * P * D <= x * D) by (apply Qmult_le_compat_r; [exact Hc | lra]).
    assert (H2 : P * B <= P * D) by (apply Qmult_le_l; assumption).
    lra. }
  destruct (Qltb x (2 ^ (a - b))) eqn:E.
  - apply Qltb_true in E. split; [apply Qlt_le_weak, Hlo|].
    replace (a - b - 1 + 1)%Z with (a - b)%Z by lia. exact E.
  - apply Qltb_false in E. split; assumption.
Qed.

Lemma round_half_even_bounds y :
  y - (1 # 2) <= inject_Z (round_half_even y) /\ inject_Z (round_half_even y) <= y + (1 # 2).
Proof.
  unfold round_half_even.
  pose proof (Qfloor_le y) as Hlo. pose proof (Qlt_floor y) as Hhi.
  rewrite inject_Z_plus in Hhi. change (inject_Z 1) with 1 in Hhi.
  destruct (Qltb (y - inject_Z (Qfloor y)) (1 # 2)) eqn:E1.
  { apply Qltb_true in E1. split; lra. }
  apply Qltb_false in E1.
  destruct (Qltb (1 # 2) (y - inject_Z (Qfloor y))) eqn:E2.
  { rewrite inject_Z_plus. change (inject_Z 1) with 1. split; lra. }
  apply Qltb_false in E2.
  destruct (Z.even (Qfloor y));
    rewrite ?inject_Z_plus; change (inject_Z 1) with 1; split; lra.
Qed.


Lemma ulp_exponent_bound x :
  0 < x -> 2 ^ ulp_exponent x * (1 # 2) <= x * half_ulp + tiny.
Proof.
  intros Hx. destruct (ilog2_spec x Hx) as [He _]. unfold ulp_exponent, half_ulp, tiny.
  pose proof (pow2_pos (-1075)) as Ht. pose proof (pow2_pos (-53)) as Hu.
  destruct (Z.max_spec (ilog2 x - 52) (-1074)) as [[_ ->]|[_ ->]].
  - assert (E : 2 ^ (-1074) * (1 # 2) == 2 ^ (-1075)) by reflexivity.
    rewrite E. assert (0 <= x * 2 ^ (-53)) by (apply Qmult_le_0_compat; lra). lra.
  - assert (E : 2 ^ (ilog2 x - 52) * (1 # 2) == 2 ^ ilog2 x * 2 ^ (-53)).
    { replace (ilog2 x - 52)%Z with (ilog2 x + -52)%Z by lia.
      rewrite Qpower_plus by discriminate.
      assert (E' : 2 ^ (-52) * (1 # 2) == 2 ^ (-53)) by reflexivity.
      rewrite <- E'. ring. }
    rewrite E.
    assert (2 ^ ilog2 x * 2 ^ (-53) <= x * 2 ^ (-53))
      by (apply Qmult_le_compat_r; [exact He | lra]).
    lra.
Qed.

Lemma ulp_exponent_normal x :
  2 ^ (-1022) <= x -> 2 ^ ulp_exponent x * (1 # 2) <= x * half_ulp.
Proof.
  intros Hx. assert (H0 : 0 < x) by (pose proof (pow2_pos (-1022)); lra).
  destruct (ilog2_spec x H0) as [He Hlt]. unfold ulp_exponent, half_ulp.
  assert (Hge : (-1022 <= ilog2 x)%Z).
  { assert (Hlt' : 2 ^ (-1022) < 2 ^ (ilog2 x + 1)) by lra.
    apply Qpower_lt_compat_l_inv in Hlt'; [lia | reflexivity]. }
  rewrite Z.max_l by lia.
  assert (E : 2 ^ (ilog2 x - 52) * (1 # 2) == 2 ^ ilog2 x * 2 ^ (-53)).
  { replace (ilog2 x - 52)%Z with (ilog2 x + -52)%Z by lia.
    rewrite Qpower_plus by discriminate.
    assert (E' : 2 ^ (-52) * (1 # 2) == 2 ^ (-53)) by reflexivity.
    rewrite <- E'. ring. }
  rewrite E. pose proof (pow2_pos (-53)).
  apply Qmult_le_compat_r; [exact He | lra].
Qed.

Lemma round_magnitude_error x :
  0 < x ->
  x - 2 ^ ulp_exponent x * (1 # 2) <= round_magnitude x /\
  round_magnitude x <= x + 2 ^ ulp_exponent x * (1 # 2).
Proof.
  intros Hx. unfold round_magnitude.
  set (q := ulp_exponent x). pose proof (pow2_pos q) as Hq.
  destruct (round_half_even_bounds (x / 2 ^ q)) as [Hlo Hhi].
  set (m := inject_Z (round_half_even (x / 2 ^ q))) in *.
  assert (E : x / 2 ^ q * 2 ^ q == x) by (field; lra).
  assert (H1 : (x / 2 ^ q - (1 # 2)) * 2 ^ q <= m * 2 ^ q)
    by (apply Qmult_le_compat_r; [exact Hlo | lra]).
  assert (H2 : m * 2 ^ q <= (x / 2 ^ q + (1 # 2)) * 2 ^ q)
    by (apply Qmult_le_compat_r; [exact Hhi | lra]).
  split; lra.
Qed.

Lemma round_magnitude_nonneg x : 0 <= x -> 0 <= round_magnitude x.
Proof.
  intros Hx. unfold round_magnitude.
  set (q := ulp_exponent x). pose proof (pow2_pos q) as Hq.
  destruct (round_half_even_bounds (x / 2 ^ q)) as [Hlo _].
  assert (Hy : 0 <= x / 2 ^ q).
  { unfold Qdiv. apply Qmult_le_0_compat; [exact Hx|]. apply Qinv_le_0_compat. lra. }
  assert (Hm : (0 <= round_half_even (x / 2 ^ q))%Z).
  { destruct (Z_lt_le_dec (round_half_even (x / 2 ^ q)) 0) as [Hneg|]; [|assumption].
    assert (H1 : inject_Z (round_half_even (x / 2 ^ q)) <= inject_Z (-1))
      by (rewrite <- Zle_Qle; lia).
    change (inject_Z (-1)) with (-1 # 1) in H1. lra. }
  apply Qmult_le_0_compat; [|lra].
  change 0 with (inject_Z 0). rewrite <- Zle_Qle. exact Hm.
Qed.

Lemma float_positive x :
  0 < x ->
  float x = if Qleb (2 ^ 1024) (round_magnitude x) then Infinite false
            else Finite (round_magnitude x).
Proof.
  destruct x as [[|p|p] d]; intros Hx; try (exfalso; revert Hx; compute; congruence).
  reflexivity.
Qed.

Lemma float_not_positive x :
  x <= 0 ->
  match float x with
  | Finite r => r <= 0
  | Infinite negative => negative = true
  | NaN => False
  end.
Proof.
  destruct x as [[|p|p] d]; intros Hx.
  - unfold float. cbn. lra.
  - exfalso. revert Hx. compute. congruence.
  - unfold float.
    change (Qeq_bool (Z.neg p # d) 0) with false.
    change (Qltb (Z.neg p # d) 0) with true.
    cbv iota. destruct (Qleb _ _); [reflexivity|].
    assert (H0 : 0 <= round_magnitude (Qabs (Z.neg p # d))).
    { apply round_magnitude_nonneg. apply Qabs_nonneg. }
    lra.
Qed.

Lemma half_ulp_value : half_ulp == 1 # 9007199254740992.
Proof. reflexivity. Qed.

Lemma tiny_small : 0 < tiny /\ tiny <= 1 # 1267650600228229401496703205376.
Proof.
  split; [apply pow2_pos|]. apply Qle_bool_imp_le. vm_compute. reflexivity.
Qed.

Lemma least_normal_small : 2 ^ (-1022) <= 1 # 1000.
Proof. apply Qle_bool_imp_le. vm_compute. reflexivity. Qed.

(** A positive number in the normal range that stays finite is rounded with a relative
    error of at most 2^-53. *)
Lemma float_normal x :
  (1 # 1000) <= x -> x <= 2 ^ 1023 ->
  exists r, float x = Finite r /\
            x * (1 - half_ulp) <= r /\ r <= x * (1 + half_ulp).
Proof.
  intros Hlo Hhi. pose proof least_normal_small as Hn.
  assert (H0 : 0 < x) by lra.
  assert (Hnorm : 2 ^ (-1022) <= x) by lra.
  pose proof (ulp_exponent_normal x Hnorm) as He.
  destruct (round_magnitude_error x H0) as [Hr1 Hr2].
  rewrite (float_positive x H0).
  destruct (Qleb (2 ^ 1024) (round_magnitude x)) eqn:E.
  - exfalso. apply Qleb_true in E. pose proof half_ulp_value as Hu.
    assert (E2 : 2 ^ 1024 == 2 * 2 ^ 1023) by reflexivity.
    pose proof (pow2_pos 1023) as Hp.
    set (P := 2 ^ 1023) in *. set (P' := 2 ^ 1024) in *.
    assert (Hxu : x * half_ulp <= P * half_ulp)
      by (apply Qmult_le_compat_r; [exact Hhi | rewrite Hu; lra]).
    rewrite Hu in Hxu, He. lra.
  - rewrite half_ulp_value in He.
    exists (round_magnitude x). split; [reflexivity|].
    split; rewrite half_ulp_value; lra.
Qed.

(** A positive number is rounded to a float that is at most a little larger. *)
Lemma float_above x :
  0 < x ->
  match float x with
  | Finite r => 0 <= r /\ r <= x * (1 + half_ulp) + tiny
  | Infinite negative => negative = false /\ 2 ^ 1024 <= x * (1 + half_ulp) + tiny
  | NaN => False
  end.
Proof.
  intros H0. pose proof (ulp_exponent_bound x H0) as He.
  destruct (round_magnitude_error x H0) as [Hr1 Hr2].
  rewrite (float_positive x H0). rewrite half_ulp_value in He.
  destruct (Qleb (2 ^ 1024) (round_magnitude x)) eqn:E.
  - apply Qleb_true in E. split; [reflexivity|]. rewrite half_ulp_value. lra.
  - split; [apply round_magnitude_nonneg; lra | rewrite half_ulp_value; lra].
Qed.

(** A number at least 1/1000 is rounded to a float that is at most a little smaller. *)
Lemma float_below x :
  (1 # 1000) <= x ->
  match float x with
  | Finite r => x * (1 - half_ulp) <= r
  | Infinite negative => negative = false
  | NaN => False
  end.
Proof.
  intros Hlo. pose proof least_normal_small as Hn.
  assert (H0 : 0 < x) by lra.
  assert (Hnorm : 2 ^ (-1022) <= x) by lra.
  pose proof (ulp_exponent_normal x Hnorm) as He.
  destruct (round_magnitude_error x H0) as [Hr1 Hr2].
  rewrite (float_positive x H0). rewrite half_ulp_value in He.
  destruct (Qleb (2 ^ 1024) (round_magnitude x));
    [reflexivity | rewrite half_ulp_value; lra].
Qed.

(** The threshold of 90% as the floats give it: the product of the rounded limit and the
    rounded 0.9, rounded again. *)
Lemma alert_threshold_bounds limit :
  (1 # 100) <= limit -> limit <= 2 ^ 1023 ->
  exists l t,
    float limit = Finite l /\ fmul (Finite l) (float (9 # 10)) = Finite t /\
    0 < l /\ t <= l /\
    limit * (9 # 10) * (1 - 2 ^ (-51)) <= t /\
    t <= limit * (9 # 10) * (1 + 2 ^ (-51)).
Proof.
  intros Hlo Hhi.
  destruct (float_normal limit) as (l & El & Hl1 & Hl2); [lra | exact Hhi |].
  destruct (float_normal (9 # 10)) as (c & Ec & Hc1 & Hc2).
  { lra. } { apply Qle_bool_imp_le. vm_compute. reflexivity. }
  pose proof half_ulp_value as Hu.
  assert (E51 : 2 ^ (-51) == 1 # 2251799813685248) by reflexivity.
  rewrite Hu in Hl1, Hl2, Hc1, Hc2.
  assert (Hl0 : 0 < l) by lra.
  assert (Hlc1 : l * ((9 # 10) * (1 - (1 # 9007199254740992))) <= l * c)
    by (apply Qmult_le_l; assumption).
  assert (Hlc2 : l * c <= l * ((9 # 10) * (1 + (1 # 9007199254740992))))
    by (apply Qmult_le_l; assumption).
  pose proof (pow2_pos 1023) as Hp.
  assert (E2 : 2 ^ 1023 == 2 ^ 1023) by reflexivity.
  destruct (float_normal (l * c)) as (t & Et & Ht1 & Ht2).
  { lra. }
  { set (P := 2 ^ 1023) in *. lra. }
  rewrite Hu in Ht1, Ht2.
  exists l, t. rewrite Ec. cbn [fmul]. rewrite E51.
  set (lc := l * c) in *.
  assert (Hlc0 : 0 < lc) by lra.
  repeat split; try assumption; lra.
Qed.

Lemma pow2_lt_inv a b : 2 ^ a < 2 ^ b -> (a < b)%Z.
Proof. intros H. apply (Qpower_lt_compat_l_inv 2); [exact H | reflexivity]. Qed.

Lemma pow2_le_inv a b : 2 ^ a <= 2 ^ b -> (a <= b)%Z.
Proof. intros H. apply (Qpower_le_compat_l_inv 2); [exact H | reflexivity]. Qed.

Lemma pow2_inject k : (0 <= k)%Z -> inject_Z (2 ^ k) == 2 ^ k.
Proof. intros Hk. rewrite Zpower_Qpower by exact Hk. reflexivity. Qed.

Lemma pow2_split a b : 2 ^ a == 2 ^ (a - b) * 2 ^ b.
Proof.
  rewrite <- Qpower_plus by discriminate. replace (a - b + b)%Z with a by lia. reflexivity.
Qed.

Lemma ilog2_le x y : 0 < x -> x <= y -> (ilog2 x <= ilog2 y)%Z.
Proof.
  intros Hx Hxy. destruct (ilog2_spec x Hx) as [Hlo _].
  destruct (ilog2_spec y) as [_ Hhi]; [lra|].
  assert (H : 2 ^ ilog2 x < 2 ^ (ilog2 y + 1)) by lra.
  apply pow2_lt_inv in H. lia.
Qed.

Lemma round_half_even_le y n : y <= inject_Z n -> (round_half_even y <= n)%Z.
Proof.
  intros Hy. unfold round_half_even.
  pose proof (Qfloor_le y) as Hf.
  assert (Hfn : (Qfloor y <= n)%Z) by (rewrite Zle_Qle; lra).
  destruct (Qltb (y - inject_Z (Qfloor y)) (1 # 2)) eqn:E1; [exact Hfn|].
  apply Qltb_false in E1.
  assert (Hlt : (Qfloor y < n)%Z) by (rewrite Zlt_Qlt; lra).
  destruct (Qltb (1 # 2) (y - inject_Z (Qfloor y))); [lia|].
  destruct (Z.even (Qfloor y)); lia.
Qed.

Lemma round_magnitude_le x n :
  x <= inject_Z n * 2 ^ ulp_exponent x ->
  round_magnitude x <= inject_Z n * 2 ^ ulp_exponent x.
Proof.
  intros Hx. unfold round_magnitude.
  set (q := ulp_exponent x) in *. pose proof (pow2_pos q) as Hq.
  apply Qmult_le_compat_r; [|lra].
  rewrite <- Zle_Qle. apply round_half_even_le.
  apply Qle_shift_div_r; assumption.
Qed.

(** Rounding does not go past a float: a positive number that is at most the rounding
    of [y] is rounded to at most that. *)
Lemma round_magnitude_below x y :
  0 < x -> 0 < y -> x <= round_magnitude y -> round_magnitude x <= round_magnitude y.
Proof.
  intros Hx Hy Hxl.
  assert (Hmul : exists n, round_magnitude y == inject_Z n * 2 ^ ulp_exponent x).
  { destruct (Z_le_gt_dec (ulp_exponent x) (ulp_exponent y)) as [Hq|Hq].
    - exists (round_half_even (y / 2 ^ ulp_exponent y)
              * 2 ^ (ulp_exponent y - ulp_exponent x))%Z.
      unfold round_magnitude at 1.
      set (m := round_half_even (y / 2 ^ ulp_exponent y)).
      rewrite inject_Z_mult, pow2_inject by lia.
      rewrite (pow2_split (ulp_exponent y) (ulp_exponent x)). ring.
    - exists (2 ^ 52)%Z. rewrite pow2_inject by lia.
      destruct (ilog2_spec x Hx) as [Hx1 Hx2]. destruct (ilog2_spec y Hy) as [Hy1 Hy2].
      unfold ulp_exponent in Hq |- *.
      set (ex := ilog2 x) in *. set (ey := ilog2 y) in *.
      assert (Hex : (ey + 1 <= ex)%Z) by lia.
      assert (Hqx : Z.max (ex - 52) (-1074) = (ex - 52)%Z) by lia.
      rewrite Hqx.
      set (qy := Z.max (ey - 52) (-1074)) in *.
      (* the rounding of y is at most 2^(ey+1) *)
      assert (Hl : round_magnitude y <= 2 ^ (ey + 1)).
      { pose proof (pow2_pos qy) as Hqy.
        destruct (Z_le_gt_dec 0 (ey + 1 - qy)) as [Hd|Hd].
        - assert (E : 2 ^ (ey + 1) == inject_Z (2 ^ (ey + 1 - qy)) * 2 ^ ulp_exponent y).
          { rewrite pow2_inject by exact Hd. apply pow2_split. }
          rewrite E. apply round_magnitude_le. rewrite <- E. lra.
        - exfalso.
          change (round_magnitude y)
            with (inject_Z (round_half_even (y / 2 ^ qy)) * 2 ^ qy) in Hxl.
          destruct (round_half_even_bounds (y / 2 ^ qy)) as [_ Hb].
          assert (Hp : 2 ^ (ey + 1) <= 2 ^ (qy - 1)) by (apply pow2_le; lia).
          rewrite pow2_pred in Hp.
          assert (Hy' : y / 2 ^ qy < 1 # 2) by (apply Qlt_shift_div_r; [exact Hqy | lra]).
          set (m := round_half_even (y / 2 ^ qy)) in *.
          assert (Hm : (m < 1)%Z) by (rewrite Zlt_Qlt; change (inject_Z 1) with 1; lra).
          assert (Hm0 : inject_Z m <= 0) by (change 0 with (inject_Z 0); rewrite <- Zle_Qle; lia).
          assert (H0 : inject_Z m * 2 ^ qy <= 0 * 2 ^ qy)
            by (apply Qmult_le_compat_r; [exact Hm0 | lra]).
          lra. }
      assert (Hp : 2 ^ (ey + 1) <= 2 ^ ex) by (apply pow2_le; exact Hex).
      assert (Hxe : x == 2 ^ ex) by lra.
      assert (Hle : round_magnitude y == 2 ^ ex) by lra.
      rewrite Hle. rewrite (pow2_split ex (ex - 52)).
      replace (ex - (ex - 52))%Z with 52%Z by lia. reflexivity. }
  destruct Hmul as [n Hn]. rewrite Hn. apply round_magnitude_le. rewrite <- Hn. exact Hxl.
Qed.

(** The threshold as the floats give it is at most the limit as a float. *)
Lemma alert_threshold_below limit l :
  0 < limit -> float limit = Finite l -> 0 < l ->
  exists t, fmul (Finite l) (float (9 # 10)) = Finite t /\ t <= l.
Proof.
  intros Hpos El Hl.
  rewrite (float_positive limit Hpos) in El.
  destruct (Qleb (2 ^ 1024) (round_magnitude limit)) eqn:Efin; [discriminate|].
  injection El as El. apply Qleb_false in Efin.
  destruct (float_normal (9 # 10)) as (c & Ec & Hc1 & Hc2).
  { lra. } { apply Qle_bool_imp_le. vm_compute. reflexivity. }
  rewrite half_ulp_value in Hc1, Hc2.
  assert (Hx : 0 < l * c) by (apply Qmult_lt_0_compat; lra).
  assert (Hxl : l * c <= l * 1) by (apply Qmult_le_l; lra).
  assert (Hxr : l * c <= round_magnitude limit) by (rewrite El; lra).
  pose proof (round_magnitude_below (l * c) limit Hx Hpos Hxr) as Hmono.
  rewrite Ec. cbn [fmul]. rewrite (float_positive (l * c) Hx).
  destruct (Qleb (2 ^ 1024) (round_magnitude (l * c))) eqn:E.
  { apply Qleb_true in E. lra. }
  exists (round_magnitude (l * c)). split; [reflexivity|].
  apply Qle_trans with (round_magnitude limit); [exact Hmono|].
  rewrite El. apply Qle_refl.
Qed.


(** *** The alerts *)

(** X11 ([BudgetManager.check_budget_alerts]).  With a positive limit the
    branch that reports "exceeded" is never taken.  With a limit between 0.01
    and 2^1023 the check does not end in an error either, it reports
    "nearing" when the amount spent is at least nine tenths of the limit
    times 1 + 2^-50, and no alert when the amount spent is at most nine
    tenths of the limit times 1 - 2^-50; in between, the rounding of the
    floats decides. *)
Lemma check_budget_alerts_positive_limit category s w budget :
  dict_get Z.eqb category (budgets w) = Some budget ->
  0 < monthly_limit budget ->
  check_budget_alerts category s w <> ExceededBudget /\
  ((1 # 100) <= monthly_limit budget -> monthly_limit budget <= 2 ^ 1023 ->
   check_budget_alerts category s w <> ErrorCheckingAlerts /\
   (monthly_limit budget * (9 # 10) * (1 + 2 ^ (-50)) <= s ->
    check_budget_alerts category s w = NearingBudget) /\
   (s <= monthly_limit budget * (9 # 10) * (1 - 2 ^ (-50)) ->
    check_budget_alerts category s w = NoBudgetAlert)).
Proof.
  intros Hget Hpos. unfold check_budget_alerts. rewrite Hget. cbv zeta.
  set (limit := monthly_limit budget) in *. split.
  - pose proof (float_above limit Hpos) as Hl.
    destruct (float limit) as [l|n|] eqn:El; [| |contradiction].
    + destruct Hl as [Hl0 _]. cbn [is_zero].
      destruct (Qeq_bool l 0) eqn:Ez; [discriminate|].
      assert (Hl : 0 < l).
      { destruct (Qlt_le_dec 0 l) as [H|H]; [exact H|].
        assert (E : l == 0) by lra. apply Qeq_bool_iff in E. congruence. }
      destruct (alert_threshold_below limit l Hpos El Hl) as (t & Et & Htl).
      rewrite Et.
      destruct (float s) as [r|[|]|]; cbn [fle flt]; try discriminate.
      destruct (Qleb t r) eqn:E1; [discriminate|].
      destruct (Qltb l r) eqn:E2; [|discriminate].
      apply Qleb_false in E1. apply Qltb_true in E2. lra.
    + destruct Hl as [-> _]. cbn [is_zero].
      destruct (float_normal (9 # 10)) as (c & Ec & Hc1 & _).
      { lra. } { apply Qle_bool_imp_le. vm_compute. reflexivity. }
      rewrite half_ulp_value in Hc1. rewrite Ec. cbn [fmul].
      destruct (Qeq_bool c 0) eqn:Ez; [apply Qeq_bool_iff in Ez; lra|].
      destruct (Qltb c 0) eqn:En; [apply Qltb_true in En; lra|].
      cbn [xorb].
      destruct (float s) as [r|[|]|]; cbn [fle flt]; discriminate.
  - intros Hlo Hhi.
    destruct (alert_threshold_bounds _ Hlo Hhi)
      as (l & t & El & Et & Hl0 & Htl & Ht1 & Ht2).
    rewrite El, Et.
    assert (Hz : is_zero (Finite l) = false).
    { cbn [is_zero]. destruct (Qeq_bool l 0) eqn:E; [|reflexivity].
      apply Qeq_bool_iff in E. lra. }
    rewrite Hz.
    assert (E50 : 2 ^ (-50) == 1 # 1125899906842624) by reflexivity.
    assert (E51 : 2 ^ (-51) == 1 # 2251799813685248) by reflexivity.
    rewrite E50. rewrite E51 in Ht1, Ht2.
    split; [|split].
    + destruct (fle _ _); [discriminate|]. destruct (flt _ _); discriminate.
    + intros Hs. assert (Hs0 : (1 # 1000) <= s) by lra.
      pose proof (float_below s Hs0) as Hf.
      destruct (float s) as [r|n|]; [| subst n; reflexivity | contradiction].
      rewrite half_ulp_value in Hf. cbn [fle].
      destruct (Qleb t r) eqn:E1; [reflexivity|].
      apply Qleb_false in E1. lra.
    + intros Hs. destruct tiny_small as [Hy0 Hy].
      destruct (Qlt_le_dec 0 s) as [Hs0|Hs0].
      * pose proof (float_above s Hs0) as Hf.
        destruct (float s) as [r|n|]; [| |contradiction].
        -- destruct Hf as [_ Hr]. rewrite half_ulp_value in Hr. cbn [fle flt].
           destruct (Qleb t r) eqn:E1; [apply Qleb_true in E1; lra|].
           destruct (Qltb l r) eqn:E2; [apply Qltb_true in E2; lra | reflexivity].
        -- destruct Hf as [_ Hinf]. exfalso. rewrite half_ulp_value in Hinf.
           assert (E2 : 2 ^ 1024 == 2 * 2 ^ 1023) by reflexivity.
           rewrite E2 in Hinf. pose proof (pow2_pos 1023) as Hp.
           set (P := 2 ^ 1023) in *. lra.
      * pose proof (float_not_positive s Hs0) as Hf.
        destruct (float s) as [r|n|]; [| subst n; reflexivity | contradiction].
        cbn [fle flt].
        destruct (Qleb t r) eqn:E1; [apply Qleb_true in E1; lra|].
        destruct (Qltb l r) eqn:E2; [apply Qltb_true in E2; lra | reflexivity].
Qed.

(** The rounding at work.  The floats of 0.9, 1.1 and 0.99 are the binary64
    numbers next to them; the float product of 1.1 and 0.9 is
    0.9900000000000001, one step above the float of 0.99, while that of 100
    and 0.9 is 90.  So with a limit of 1.10 an amount spent of 0.99, nine
    tenths of the limit, is not reported yet, and with a limit of 100 an
    amount spent of 90 is. *)
Example alert_threshold_rounding :
  float_value (float (9 # 10)) = Some (8106479329266893 # 9007199254740992) /\
  float_value (float (11 # 10)) = Some (2476979795053773 # 2251799813685248) /\
  float_value (float (99 # 100)) = Some (4458563631096791 # 4503599627370496) /\
  float_value (fmul (float (11 # 10)) (float (9 # 10)))
  = Some (8917127262193583 # 9007199254740992) /\
  float_value (fmul (float 100) (float (9 # 10))) = Some 90 /\
  check_budget_alerts 2 (99 # 100) (set_budgets [(2%Z, mkBudget 1 2 (11 # 10) 0)] budgeted)
  = NoBudgetAlert /\
  check_budget_alerts 2 90 budgeted = NearingBudget /\
  check_budget_alerts 2 (8999 # 100) budgeted = NoBudgetAlert.
Proof. vm_compute. repeat split; reflexivity. Qed.

(** C1 (the code departs from the claim). With a limit of 100, a spent
    value of 95 is reported as nearing and one of 50 is not reported, as
    claimed; a spent value of 101, over the limit, is reported as nearing
    too, not as exceeded. *)
Theorem check_budget_alerts_over_limit :
  option_map monthly_limit (dict_get Z.eqb 2%Z (budgets budgeted)) = Some 100 /\
  check_budget_alerts 2 95 budgeted = NearingBudget /\
  check_budget_alerts 2 50 budgeted = NoBudgetAlert /\
  check_budget_alerts 2 101 budgeted = NearingBudget.
Proof. vm_compute. repeat split; reflexivity. Qed.

(* ================================================================= *)
(** ** Worked sessions *)

(** The scenario of the specification runs as described there: balance 140
    and spent 60 without alert, then balance 60 and spent 140 with the
    nearing alert, then balance 140 and spent 60 again. *)
Example specification_scenario :
  (select_balance 1 (db scenario_60), map spent (budgets_tbl (db scenario_60)))
  = (Some 140, [60]) /\
  check_budget_alerts 2 60 scenario_60 = NoBudgetAlert /\
  (select_balance 1 (db scenario_80), map spent (budgets_tbl (db scenario_80)))
  = (Some 60, [140]) /\
  check_budget_alerts 2 140 scenario_80 = NearingBudget /\
  (select_balance 1 (db scenario_deleted), map spent (budgets_tbl (db scenario_deleted)))
  = (Some 140, [60]).
Proof. vm_compute. repeat split; reflexivity. Qed.

(** C2 (the code departs from the claim). The balance an expense is checked
    against is the one in the accounts cache, which [add_transaction] does
    not reload.  The Wallet holds 200: an expense of 150 is booked and leaves
    50 in the store; a second expense of 150, more than the 50 on the
    account, is booked all the same and leaves -100; a third one is booked
    although the stored balance is negative. *)
Theorem add_transaction_stale_balance :
  select_balance 1 (db opened) = Some 200 /\
  fst (add_transaction (rt := decimal_console) (spend "150") opened)
  = TransactionAdded 1 2 Expense 150 /\
  select_balance 1 (db spent_once) = Some 50 /\
  option_map initial_balance (find (fun a => (account_id a =? 1)%Z) (accounts spent_once))
  = Some 200 /\
  fst (add_transaction (rt := decimal_console) (spend "150") spent_once)
  = TransactionAdded 1 2 Expense 150 /\
  select_balance 1 (db spent_twice) = Some (-100) /\
  fst (add_transaction (rt := decimal_console) (spend "150") spent_twice)
  = TransactionAdded 1 2 Expense 150 /\
  select_balance 1 (db spent_thrice) = Some (-250) /\
  List.length (transactions_tbl (db spent_thrice)) = 3%nat.
Proof. vm_compute. repeat split; reflexivity. Qed.

(** C5 (the code departs from the claim). After a transfer of 300 from the
    Bank (1000) to the Wallet (200), deleting the debit row gives both
    accounts their balances back; deleting the credit row instead takes
    another 300 from the Bank and gives another 300 to the Wallet.  Both rows
    are removed either way. *)
Theorem delete_credit_leg_doubles_transfer :
  select_balance 2 (db transferred) = Some 700 /\
  select_balance 1 (db transferred) = Some 500 /\
  map (fun t => (t_account_id t, amount t)) (transactions_tbl (db transferred))
  = [(2%Z, -300); (1%Z, 300)] /\
  (let by_debit := delete_transaction (rt := decimal_console) (delete_at "1") transferred in
   committed (fst by_debit) = true /\
   select_balance 2 (db (snd by_debit)) = Some 1000 /\
   select_balance 1 (db (snd by_debit)) = Some 200 /\
   transactions_tbl (db (snd by_debit)) = []) /\
  (let by_credit := delete_transaction (rt := decimal_console) (delete_at "2") transferred in
   committed (fst by_credit) = true /\
   select_balance 2 (db (snd by_credit)) = Some 400 /\
   select_balance 1 (db (snd by_credit)) = Some 800 /\
   transactions_tbl (db (snd by_credit)) = []).
Proof. vm_compute. repeat split; reflexivity. Qed.

(** What [transfer_funds] does check: a transfer that goes through has a
    non-zero amount that the stored balance of the source covers. *)
Lemma transfer_funds_guards {rt : Runtime} inp w X Y A w' :
  transfer_funds inp w = (FundsTransferred X Y A, w') ->
  ~ A == 0 /\ exists balance, select_balance X (db w) = Some balance /\ A <= balance.
Proof.
  intros Hrun. pose proof (transfer_funds_spec inp w) as Hpost.
  rewrite Hrun in Hpost. cbn [fst snd] in Hpost.
  destruct Hpost as [[Hc _] | (s & d & x & b & Hout & _ & Hnz & Hb & Hle & _)];
    [discriminate Hc|].
  injection Hout as -> -> ->. split; [exact Hnz|]. exists b. split; assumption.
Qed.

(** C6 (the code departs from the claim). A transfer typed with the amount
    -50 from the Bank to the Wallet goes through: the row on the Bank carries
    +50, the row on the Wallet -50, the Bank ends with 1050 and the Wallet
    with 150. *)
Theorem transfer_funds_negative_amount :
  fst (transfer_funds (rt := decimal_console) (bank_to_wallet "-50" "") opened)
  = FundsTransferred 2 1 (-50) /\
  select_balance 2 (db transferred_back) = Some 1050 /\
  select_balance 1 (db transferred_back) = Some 150 /\
  map (fun t => (t_account_id t, amount t)) (transactions_tbl (db transferred_back))
  = [(2%Z, 50); (1%Z, -50)].
Proof. vm_compute. repeat split; reflexivity. Qed.

(** C8 (the code departs from the claim). Setting a budget for Groceries a
    second time inserts a second row for the same category; the cache keeps
    one entry, the later row. *)
Theorem add_budget_twice :
  map b_category_id (budgets_tbl (db budgeted)) = [2%Z] /\
  (let again := add_budget (rt := decimal_console) groceries_100 budgeted in
   fst again = BudgetAdded 2 0 /\
   map (fun b => (budget_id b, b_category_id b)) (budgets_tbl (db (snd again)))
   = [(1%Z, 2%Z); (2%Z, 2%Z)] /\
   map (fun kv => (fst kv, budget_id (snd kv))) (budgets (snd again)) = [(2%Z, 2%Z)]).
Proof. vm_compute. repeat split; reflexivity. Qed.

(** C10 (the code departs from the claim). After two transfers from the Bank
    to the Wallet, of 50 and of 30, an update of the first row with every
    answer left blank, the amount too, completes and overwrites the amounts
    of the second transfer with those of the first, while the stored
    balances stay: [update_transfer_funds] selects the rows to rewrite by
    account and prefix of the notes, not by their key. *)
Theorem update_transfer_overwrites_amounts :
  map amount (transactions_tbl (db transferred_twice)) = [-50; 50; -30; 30] /\
  (let updated := update_transaction (rt := decimal_console) (keep_all_at "1")
                    transferred_twice in
   fst updated = TransferUpdated /\
   map amount (transactions_tbl (db (snd updated))) = [-50; 50; -50; 50] /\
   select_balance 2 (db (snd updated)) = select_balance 2 (db transferred_twice) /\
   select_balance 1 (db (snd updated)) = select_balance 1 (db transferred_twice)).
Proof. vm_compute. repeat split; reflexivity. Qed.

(** The row that is updated can change as well: the debit row of a transfer
    typed with a negative amount carries a positive amount, and the update
    with a blank amount stores its negation. *)
Lemma update_transfer_flips_sign :
  map amount (transactions_tbl (db transferred_back)) = [50; -50] /\
  (let updated := update_transaction (rt := decimal_console) (keep_all_at "1")
                    transferred_back in
   fst updated = TransferUpdated /\
   map amount (transactions_tbl (db (snd updated))) = [-50; 50]).
Proof. vm_compute. repeat split; reflexivity. Qed.

(** What [add_transaction] does check for an expense: the amount is covered
    by the positive balance of the account as the accounts cache has it. *)
Lemma add_transaction_checks_cached_balance {rt : Runtime} inp w account category x w' :
  add_transaction inp w = (TransactionAdded account category Expense x, w') ->
  exists cached,
    In cached (accounts w) /\ account_id cached = account /\
    0 < initial_balance cached /\ x <= initial_balance cached.
Proof.
  intros Hadd.
  pose proof (add_transaction_spec inp w (add_transaction_added _ _ _ _ _ _ _ Hadd)) as Ha.
  rewrite Hadd in Ha. cbn [fst snd] in Ha.
  destruct Ha as [[Hc _] | (acct & cat & x' & note & d & tm & Ha)]; [discriminate Hc|].
  cbv zeta in Ha. destruct Ha as (Hout & Hin & Hbal & _).
  injection Hout as Hacct _ Hty <-.
  destruct (String.eqb (lower (get_string (a_transaction_type inp))) "expense");
    [|discriminate Hty].
  exists acct. destruct (Hbal eq_refl). repeat split; auto.
Qed.

(* ================================================================= *)
(** ** The theorems at work *)

(** The Wallet opens with 200; after an income of 50, an expense of 60 and
    the deletion of the income the stored balance still matches the rows on
    record. *)
Lemma ledger_balance_invariant_witness :
  balance_matches 1 200 (db opened) /\
  balance_matches 1 200 (db (run_ops (rt := decimal_console) short_run opened)).
Proof.
  assert (H : balance_matches 1 200 (db opened)).
  { exists 200. split; vm_compute; reflexivity. }
  split; [exact H|].
  apply (ledger_balance_invariant (rt := decimal_console) short_run opened 1 200).
  - repeat constructor.
  - split; vm_compute; constructor.
  - vm_compute. constructor.
  - exact H.
Defined.

(** The transfer of 300 from the Bank to the Wallet. *)
Lemma transfer_funds_moves_amount_witness :
  transfer_funds (rt := decimal_console) (bank_to_wallet "300" "rent") opened
  = (FundsTransferred 2 1 300, transferred) /\
  select_balance 1 (db opened) = Some 200 /\
  (2 <> 1)%Z /\
  exists bX,
    select_balance 2 (db opened) = Some bX /\ 300 <= bX /\
    select_balance 2 (db transferred) = Some (bX - 300) /\
    select_balance 1 (db transferred) = Some (200 + 300) /\
    exists debit credit,
      transactions_tbl (db transferred) = transactions_tbl (db opened) ++ [debit; credit] /\
      transaction_type debit = Transfer /\ t_category_id debit = None /\
      t_account_id debit = 2%Z /\ amount debit = - (300) /\
      transaction_type credit = Transfer /\ t_category_id credit = None /\
      t_account_id credit = 1%Z /\ amount credit = 300 /\
      amount debit + amount credit == 0.
Proof.
  assert (H1 : transfer_funds (rt := decimal_console) (bank_to_wallet "300" "rent") opened
               = (FundsTransferred 2 1 300, transferred)) by (vm_compute; reflexivity).
  assert (H2 : select_balance 1 (db opened) = Some 200) by (vm_compute; reflexivity).
  split; [exact H1|]. split; [exact H2|].
  exact (transfer_funds_moves_amount (rt := decimal_console)
           (bank_to_wallet "300" "rent") opened 2 1 300 transferred 200 H1 H2).
Defined.


(** With 60 spent in March and 40 in February, a budget created in March
    starts at 60. *)
Lemma add_budget_seed_witness :
  map (fun t => (month (transaction_date t), amount t)) (transactions_tbl (db two_months))
  = [(3%Z, 60); (2%Z, 40)] /\
  add_budget (rt := decimal_console) groceries_100 two_months
  = (BudgetAdded 2 60, snd (add_budget (rt := decimal_console) groceries_100 two_months)) /\
  60 == seed_by_spec 2 (b_now groceries_100) (transactions_tbl (db two_months)).
Proof.
  assert (H1 : add_budget (rt := decimal_console) groceries_100 two_months
               = (BudgetAdded 2 60,
                  snd (add_budget (rt := decimal_console) groceries_100 two_months)))
    by (vm_compute; reflexivity).
  split; [vm_compute; reflexivity|]. split; [exact H1|].
  exact (proj1 (proj2 (add_budget_seed (rt := decimal_console)
                         groceries_100 two_months 2 60
                         (snd (add_budget (rt := decimal_console) groceries_100 two_months))
                         H1))).
Defined.

(** On the expense of 60: the typed amount 75 changes nothing, the blank
    update completes and keeps the amount. *)
Lemma update_transaction_keeps_amounts_witness :
  (db (snd (update_transaction (rt := decimal_console) (retype_amount_at "1") charged))
   = db charged /\
   (fst (update_transaction (rt := decimal_console) (retype_amount_at "1") charged)
    = InvalidAmount \/
    stops_before_amount
      (fst (update_transaction (rt := decimal_console) (retype_amount_at "1") charged)))) /\
  fst (update_transaction (rt := decimal_console) (keep_all_at "1") charged)
  = TransactionUpdated /\
  map amount
    (transactions_tbl
       (db (snd (update_transaction (rt := decimal_console) (keep_all_at "1") charged))))
  = map amount (transactions_tbl (db charged)).
Proof.
  assert (H1 : fst (update_transaction (rt := decimal_console) (keep_all_at "1") charged)
               = TransactionUpdated) by (vm_compute; reflexivity).
  split; [|split; [exact H1|]].
  - apply (proj1 (update_transaction_keeps_amounts (rt := decimal_console)
                    (retype_amount_at "1") charged)).
    vm_compute. discriminate.
  - apply (proj2 (update_transaction_keeps_amounts (rt := decimal_console)
                    (keep_all_at "1") charged)); [|exact H1].
    vm_compute. constructor; [intros [] | constructor].
Defined.

(* ================================================================= *)
(** ** Dictionaries *)

Section DictFacts.
Context {K V : Type} (eqb : K -> K -> bool).
Hypothesis eqb_eq : forall a b, eqb a b = true <-> a = b.

Lemma dict_eqb_refl k : eqb k k = true.
Proof. apply eqb_eq. reflexivity. Qed.

Lemma dict_get_dict_set (k k' : K) (v : V) d :
  dict_get eqb k (dict_set eqb k' v d)
  = if eqb k k' then Some v else dict_get eqb k d.
Proof.
  induction d as [|[k0 v0] d IH]; cbn [dict_set dict_get].
  - reflexivity.
  - destruct (eqb k' k0) eqn:E0; cbn [dict_get].
    + apply eqb_eq in E0. subst k0. destruct (eqb k k'); reflexivity.
    + destruct (eqb k k0) eqn:E1.
      * destruct (eqb k k') eqn:E2; [|reflexivity].
        apply eqb_eq in E1, E2. subst. rewrite dict_eqb_refl in E0. discriminate.
      * exact IH.
Qed.

Lemma dict_get_In k v (d : dict K V) : dict_get eqb k d = Some v -> In (k, v) d.
Proof.
  induction d as [|[k0 v0] d IH]; cbn [dict_get]; [discriminate|].
  destruct (eqb k k0) eqn:E.
  - intros [= ->]. apply eqb_eq in E. subst. left. reflexivity.
  - intros H. right. apply IH, H.
Qed.

Lemma dict_set_In k v (d : dict K V) kv :
  In kv (dict_set eqb k v d) -> kv = (k, v) \/ In kv d.
Proof.
  induction d as [|[k0 v0] d IH]; cbn [dict_set].
  - intros [<-|[]]. left. reflexivity.
  - destruct (eqb k k0) eqn:E.
    + apply eqb_eq in E. subst k0. intros [<-|H]; [left; reflexivity | right; right; exact H].
    + intros [<-|H]; [right; left; reflexivity|].
      destruct (IH H) as [->|H']; [left; reflexivity | right; right; exact H'].
Qed.

Lemma dict_fold_In (items : list (K * V)) d kv :
  In kv (fold_left (fun d kv => dict_set eqb (fst kv) (snd kv) d) items d) ->
  In kv items \/ In kv d.
Proof.
  revert d. induction items as [|[k v] items IH]; intros d; cbn [fold_left fst snd].
  - right. assumption.
  - intros H. destruct (IH _ H) as [H'|H']; [left; right; exact H'|].
    apply dict_set_In in H'. destruct H' as [->|H']; [left; left; reflexivity | right; exact H'].
Qed.

Lemma dict_of_In (items : list (K * V)) kv : In kv (dict_of eqb items) -> In kv items.
Proof.
  unfold dict_of. intros H. apply dict_fold_In in H. destruct H as [H|[]]. exact H.
Qed.

Lemma dict_fold_get (items : list (K * V)) d k :
  In k (map fst items) \/ (exists v, dict_get eqb k d = Some v) ->
  exists v, dict_get eqb k
              (fold_left (fun d kv => dict_set eqb (fst kv) (snd kv) d) items d) = Some v.
Proof.
  revert d. induction items as [|[k0 v0] items IH]; intros d; cbn [fold_left fst snd map In].
  - intros [[]|H]. exact H.
  - intros H. apply IH. rewrite dict_get_dict_set.
    destruct (eqb k k0) eqn:E.
    + right. eauto.
    + destruct H as [[->|H]|H]; [rewrite dict_eqb_refl in E; discriminate | left; exact H
                                | right; exact H].
Qed.

Lemma dict_of_get (items : list (K * V)) k :
  In k (map fst items) -> exists v, dict_get eqb k (dict_of eqb items) = Some v.
Proof. intros H. apply dict_fold_get. left. exact H. Qed.

Lemma dict_of_keys (items : list (K * V)) k :
  In k (map fst items) -> In k (map fst (dict_of eqb items)).
Proof.
  intros H. destruct (dict_of_get items k H) as [v Hv].
  apply dict_get_In in Hv. apply (in_map fst) in Hv. exact Hv.
Qed.

End DictFacts.

Lemma str_in_In s l : str_in s l = true <-> In s l.
Proof.
  unfold str_in. rewrite existsb_exists. split.
  - intros (x & Hx & E). apply String.eqb_eq in E. subst. exact Hx.
  - intros H. exists s. split; [exact H | apply String.eqb_refl].
Qed.

Lemma lower_upper_char c : lower_char (upper_char c) = lower_char c.
Proof. destruct c as [[] [] [] [] [] [] [] []]; reflexivity. Qed.

Lemma lower_capitalize s : lower (capitalize s) = lower s.
Proof.
  destruct s as [|c s]; [reflexivity|].
  cbn [capitalize lower]. rewrite lower_upper_char, lower_idem. reflexivity.
Qed.

(* ================================================================= *)
(** ** The input loops of utils.py *)

Section InputFacts.
Context {rt : Runtime}.

Lemma get_float_loop_result n typed lo w :
  snd (get_float_loop n typed lo w) = w /\
  match fst (get_float_loop n typed lo w) with
  | inl (Some x) =>
      match lo with Some m => m <= x | None => True end /\
      exists line, In line (firstn n typed) /\ float_of_string (strip line) = Some x
  | _ => True
  end.
Proof.
  revert typed. induction n as [|n IH]; intros typed; cbn [get_float_loop].
  - split; [reflexivity | exact I].
  - destruct typed as [|line typed]; [split; [reflexivity | exact I]|].
    assert (Hnext :
      snd (get_float_loop n typed lo w) = w /\
      match fst (get_float_loop n typed lo w) with
      | inl (Some x) =>
          match lo with Some m => m <= x | None => True end /\
          exists l, In l (firstn (S n) (line :: typed)) /\
                    float_of_string (strip l) = Some x
      | _ => True
      end).
    { destruct (IH typed) as [Hw Hr]. split; [exact Hw|].
      destruct (fst (get_float_loop n typed lo w)) as [[x|]|]; try exact I.
      destruct Hr as (Hlo & l & Hin & Hl). split; [exact Hlo|].
      exists l. split; [right; exact Hin | exact Hl]. }
    destruct (float_of_string (strip line)) as [num|] eqn:Hnum; [|exact Hnext].
    destruct lo as [m|].
    + destruct (Qltb num m) eqn:Hlt; [exact Hnext|].
      split; [reflexivity|]. cbn [fst ret]. split; [apply Qltb_false, Hlt|].
      exists line. split; [left; reflexivity | exact Hnum].
    + split; [reflexivity|]. cbn [fst ret]. split; [exact I|].
      exists line. split; [left; reflexivity | exact Hnum].
Qed.

(** X1 ([InputUtils.get_float]).  A number answered by [get_float] is what
    [float] makes of one of the first three typed lines, stripped, and is
    not below [min_value]; reading it leaves the state alone. *)
Theorem get_float_accepted_line typed lo w x w' :
  get_float typed lo w = (inl (Some x), w') ->
  w' = w /\
  match lo with Some m => m <= x | None => True end /\
  exists line, In line (firstn 3 typed) /\ float_of_string (strip line) = Some x.
Proof.
  unfold get_float. intros H.
  destruct (get_float_loop_result 3 typed lo w) as [Hw Hr].
  rewrite H in Hw, Hr. cbn [fst snd] in Hw, Hr. split; [exact Hw | exact Hr].
Qed.

Lemma get_float_loop_refused n typed lo w :
  (n <= List.length typed)%nat ->
  Forall (refused lo) (firstn n typed) ->
  get_float_loop n typed lo w = (inl None, w).
Proof.
  revert typed. induction n as [|n IH]; intros typed Hlen Hall; cbn [get_float_loop].
  - reflexivity.
  - destruct typed as [|line typed]; [cbn in Hlen; lia|].
    cbn [firstn] in Hall. inversion Hall as [|? ? Hline Hrest]; subst.
    cbn [List.length] in Hlen. assert (Hlen' : (n <= List.length typed)%nat) by lia.
    unfold refused in Hline.
    destruct (float_of_string (strip line)) as [num|]; [|apply IH; assumption].
    destruct lo as [m|]; [|destruct Hline].
    assert (Hlt : Qltb num m = true).
    { unfold Qltb. destruct (Qle_bool m num) eqn:E; [|reflexivity].
      apply Qle_bool_iff in E. lra. }
    rewrite Hlt. apply IH; assumption.
Qed.

(** X2 ([InputUtils.get_float]).  After three refused lines, lines that are
    no number or are below [min_value], [get_float] answers [None]: it
    neither raises nor reads a fourth line. *)
Theorem get_float_gives_up l1 l2 l3 rest lo w :
  refused lo l1 -> refused lo l2 -> refused lo l3 ->
  get_float (l1 :: l2 :: l3 :: rest) lo w = (inl None, w).
Proof.
  intros H1 H2 H3. unfold get_float. apply get_float_loop_refused.
  - cbn. lia.
  - cbn [firstn]. repeat constructor; assumption.
Qed.

Lemma get_valid_menu_choice_result typed valid w :
  snd (get_valid_menu_choice typed valid w) = w /\
  match fst (get_valid_menu_choice typed valid w) with
  | inl n =>
      exists line, In line typed /\ In (strip line) valid /\
                   int_of_string (strip line) = Some n
  | inr e => e = Raise
  end.
Proof.
  induction typed as [|line typed IH]; cbn [get_valid_menu_choice].
  - split; reflexivity.
  - destruct (str_in (strip line) valid) eqn:Hin.
    + apply str_in_In in Hin. unfold not_none.
      destruct (int_of_string (strip line)) as [n|] eqn:Hn; cbn [fst snd ret raise].
      * split; [reflexivity|]. exists line. split; [left; reflexivity|]. split; assumption.
      * split; reflexivity.
    + destruct IH as [Hw Hr]. split; [exact Hw|].
      destruct (fst (get_valid_menu_choice typed valid w)) as [n|e]; [|exact Hr].
      destruct Hr as (l & Hl & Hv). exists l. split; [right; exact Hl | exact Hv].
Qed.

(** X3 ([InputUtils.get_valid_menu_choice]).  The number answered is what
    [int] makes of a typed line that, stripped, is one of the valid
    choices; lines that are not are skipped, and the state is left alone. *)
Theorem get_valid_menu_choice_valid typed valid w n w' :
  get_valid_menu_choice typed valid w = (inl n, w') ->
  w' = w /\
  exists line, In line typed /\ In (strip line) valid /\
               int_of_string (strip line) = Some n.
Proof.
  intros H. destruct (get_valid_menu_choice_result typed valid w) as [Hw Hr].
  rewrite H in Hw, Hr. cbn [fst snd] in Hw, Hr. split; [exact Hw | exact Hr].
Qed.

Lemma get_account_type_loop_result n typed w :
  snd (get_account_type_loop n typed w) = w /\
  match fst (get_account_type_loop n typed w) with
  | inl (Some ty) => In ty account_types
  | inl None => True
  | inr e => e = Raise
  end.
Proof.
  revert typed. induction n as [|n IH]; intros typed; cbn [get_account_type_loop].
  - split; [reflexivity | exact I].
  - destruct typed as [|line typed]; [split; reflexivity|].
    destruct (String.eqb (lower (strip line)) "") eqn:Hblank; [split; [reflexivity | exact I]|].
    rewrite lower_idem.
    destruct (str_in (lower (strip line)) account_types) eqn:Hin; cbn [negb].
    + split; [reflexivity|]. cbn [fst ret]. apply str_in_In, Hin.
    + apply IH.
Qed.

Lemma wp_get_account_type typed (Q : option string + Exit -> World -> Prop) w :
  Q (inl None) w -> Q (inr Raise) w ->
  (forall ty, In ty account_types -> Q (inl (Some ty)) w) ->
  wp (get_account_type typed) Q w.
Proof.
  intros Hn Hr Hs. unfold wp, get_account_type.
  destruct (get_account_type_loop_result 3 typed w) as [Hw Hres]. rewrite Hw.
  destruct (fst (get_account_type_loop 3 typed w)) as [[ty|]|e].
  - apply Hs, Hres.
  - exact Hn.
  - subst e. exact Hr.
Qed.

Lemma get_valid_date_result {A} (strptime : string -> option A) n typed w :
  snd (get_valid_date strptime n typed w) = w /\
  match fst (get_valid_date strptime n typed w) with
  | inl (Some d) =>
      exists line, In line (firstn n typed) /\ strip line <> EmptyString /\
                   strptime (strip line) = Some d
  | inl None => True
  | inr e => e = Raise
  end.
Proof.
  revert typed. induction n as [|n IH]; intros typed; cbn [get_valid_date].
  - split; [reflexivity | exact I].
  - destruct typed as [|line typed]; [split; reflexivity|].
    destruct (String.eqb (strip line) "") eqn:Hblank; [split; [reflexivity | exact I]|].
    apply String.eqb_neq in Hblank.
    destruct (strptime (strip line)) as [d|] eqn:Hd.
    + split; [reflexivity|]. cbn [fst ret]. exists line.
      split; [left; reflexivity|]. split; assumption.
    + destruct (IH typed) as [Hw Hr]. split; [exact Hw|].
      destruct (fst (get_valid_date strptime n typed w)) as [[d|]|e]; try exact Hr.
      destruct Hr as (l & Hl & Hv). exists l. split; [right; exact Hl | exact Hv].
Qed.

(** X4 ([InputUtils.get_valid_date]).  A blank first line answers [None] at
    once, whatever the parser would make of it and whatever follows; a date
    answered is the parse of one of the first [attempts] typed lines, which
    is not blank. *)
Theorem get_valid_date_blank_or_parsed {A} (strptime : string -> option A)
    attempts line typed w :
  (strip line = EmptyString ->
   get_valid_date strptime (S attempts) (line :: typed) w = (inl None, w)) /\
  (forall d w',
     get_valid_date strptime attempts (line :: typed) w = (inl (Some d), w') ->
     w' = w /\
     exists l, In l (firstn attempts (line :: typed)) /\ strip l <> EmptyString /\
               strptime (strip l) = Some d).
Proof.
  split.
  - intros Hblank. cbn [get_valid_date]. rewrite Hblank. reflexivity.
  - intros d w' H.
    destruct (get_valid_date_result strptime attempts (line :: typed) w) as [Hw Hr].
    rewrite H in Hw, Hr. cbn [fst snd] in Hw, Hr. split; [exact Hw | exact Hr].
Qed.

End InputFacts.

(* ================================================================= *)
(** ** More on transfers *)

Ltac found_account :=
  apply in_map;
  match goal with
  | H : search_accounts _ _ = [?a] |- In ?a _ =>
      eapply search_accounts_In; rewrite H; left; reflexivity
  | H : search_accounts _ _ = ?l, H' : In ?a ?l |- In ?a _ =>
      eapply search_accounts_In; rewrite H; exact H'
  end.

Lemma account_id_map_balance (g : Account -> Account) l :
  (forall a, account_id (g a) = account_id a) ->
  map account_id (map g l) = map account_id l.
Proof. intros Hg. rewrite map_map. apply map_ext. exact Hg. Qed.

Lemma select_balance_In id s :
  In id (map account_id (accounts_tbl s)) -> exists b, select_balance id s = Some b.
Proof.
  unfold select_balance. induction (accounts_tbl s) as [|a l IH]; cbn [map In find].
  - intros [].
  - destruct (account_id a =? id)%Z eqn:E; [cbn; eauto|].
    intros [H|H]; [apply Z.eqb_neq in E; contradiction | apply IH, H].
Qed.

Lemma update_other_accounts (f : Q -> Q) id l :
  ~ In id (map account_id l) ->
  map (fun a => if (account_id a =? id)%Z
                then with_balance a (f (initial_balance a)) else a) l = l.
Proof.
  induction l as [|a l IH]; cbn [map In]; [reflexivity|].
  intros H. destruct (account_id a =? id)%Z eqn:E.
  - apply Z.eqb_eq in E. tauto.
  - f_equal. apply IH. tauto.
Qed.

Lemma balances_total_update f id s b :
  NoDup (map account_id (accounts_tbl s)) ->
  select_balance id s = Some b ->
  balances_total (update_balance f id s) == balances_total s - b + f b.
Proof.
  unfold balances_total, select_balance, update_balance.
  cbn [accounts_tbl set_accounts_tbl].
  induction (accounts_tbl s) as [|a l IH]; cbn [map find]; [discriminate|].
  intros Hnd Hfind. inversion Hnd as [|? ? Hnotin Hnd']; subst.
  destruct (account_id a =? id)%Z eqn:E.
  - apply Z.eqb_eq in E. subst id. cbn [option_map] in Hfind. injection Hfind as <-.
    rewrite update_other_accounts by exact Hnotin.
    cbn [initial_balance with_balance].
    change (total (?x :: ?r)) with (x + total r). ring.
  - specialize (IH Hnd' Hfind).
    change (total (?x :: ?r)) with (x + total r). rewrite IH. ring.
Qed.

Section TransferFacts.
Context {rt : Runtime}.

Lemma transfer_funds_accounts inp w X Y A :
  fst (transfer_funds inp w) = FundsTransferred X Y A ->
  In X (map account_id (accounts w)) /\ In Y (map account_id (accounts w)).
Proof.
  revert X Y A. unfold transfer_funds.
  apply (wp_method _ _
           (fun out _ => forall X Y A, out = FundsTransferred X Y A ->
              In X (map account_id (accounts w)) /\ In Y (map account_id (accounts w)))).
  simpl_world.
  repeat (wp_step; try solve [cbn [reported]; intros; discriminate]).
  all: cbn [reported]; intros X Y A [= <- <- <-].
  all: try match goal with H : In _ [] |- _ => destruct H end.
  all: split; found_account.
Qed.

(** X5 ([TransactionsManager.transfer_funds]).  No call of [transfer_funds]
    creates or destroys money: whatever is typed, the sum of the stored
    balances is the same before and after, provided account keys are unique
    and every cached account is an account of the store. *)
Theorem transfer_funds_conserves_money inp w :
  NoDup (map account_id (accounts_tbl (db w))) ->
  incl (map account_id (accounts w)) (map account_id (accounts_tbl (db w))) ->
  balances_total (db (snd (transfer_funds inp w))) == balances_total (db w).
Proof.
  intros Hnd Hincl.
  destruct (transfer_funds_spec inp w)
    as [[_ ->]|(X & Y & x & bX & Hout & Hne & _ & HbX & _ & Hdb)]; [reflexivity|].
  destruct (transfer_funds_accounts inp w X Y x Hout) as [_ HY].
  apply Hincl, select_balance_In in HY. destruct HY as [bY HbY].
  rewrite Hdb.
  set (s0 := transfer_rows inp X Y x (db w)).
  assert (Ha : accounts_tbl s0 = accounts_tbl (db w)) by reflexivity.
  assert (HX0 : select_balance X s0 = Some bX) by exact HbX.
  assert (HY0 : select_balance Y s0 = Some bY) by exact HbY.
  assert (Hnd0 : NoDup (map account_id (accounts_tbl s0))) by (rewrite Ha; exact Hnd).
  rewrite (balances_total_update _ Y _ bY).
  - rewrite (balances_total_update _ X _ bX Hnd0 HX0).
    unfold balances_total. rewrite Ha. ring.
  - unfold update_balance. cbn [accounts_tbl set_accounts_tbl].
    rewrite account_id_map_balance; [exact Hnd0|].
    intros a. destruct (account_id a =? X)%Z; reflexivity.
  - rewrite select_balance_update_balance.
    destruct (Y =? X)%Z eqn:E; [|exact HY0].
    apply Z.eqb_eq in E. congruence.
Qed.

End TransferFacts.

(* ================================================================= *)
(** ** More on the ledger and the budget cache *)

Lemma role_entry name_lower (role : dict string CategoryInfo) c :
  dict_get String.eqb name_lower
    (dict_of String.eqb (map (fun kv => (casefold (fst kv), snd kv)) role)) = Some c ->
  exists name, In (name, c) role /\ lower name = name_lower.
Proof.
  intros H. apply (dict_get_In _ String.eqb_eq) in H.
  apply (dict_of_In String.eqb String.eqb_eq) in H. apply in_map_iff in H.
  destruct H as ([name info] & [= <- <-] & Hin). exists name. split; [exact Hin | reflexivity].
Qed.

Section LedgerFacts.
Context {rt : Runtime}.

Lemma add_transaction_validated inp w account category ty x :
  String.eqb (lower (get_string (a_transaction_type inp))) "transfer" = false ->
  fst (add_transaction inp w) = TransactionAdded account category ty x ->
  (1 # 100) <= x /\
  exists name info,
    In (name, info) (match ty with
                     | Expense => expense_categories w
                     | _ => income_categories w
                     end) /\
    i_category_id info = category /\
    lower name = lower (get_string (a_category_name inp)).
Proof.
  intros Hnt. revert account category ty x. unfold add_transaction.
  apply (wp_method _ _
           (fun out _ => forall account category ty x,
              out = TransactionAdded account category ty x -> _)).
  simpl_world.
  repeat (wp_step; try congruence; try solve [cbn [reported]; intros; discriminate]).
  all: cbn [reported]; intros account category ty x' [= <- <- <- <-].
  all: match goal with H : Some _ = Some _ |- _ => injection H as <- end.
  all: split; [assumption|].
  all: match goal with
       | H : dict_get _ _ _ = Some ?c |- _ =>
           apply role_entry in H; destruct H as (name & Hin & Hname);
           exists name, c; repeat split; [exact Hin | exact Hname]
       end.
Qed.

(** X6 ([TransactionsManager.add_transaction]).  A booked income or expense
    has an amount of at least 0.01 and a category of its own role: the id
    the category cache of that role holds under the typed name, compared
    without case.  Exactly one row is appended, with the next key, the
    account, the category, the type and the amount that are reported. *)
Theorem add_transaction_books_valid_row inp w account category ty x w' :
  add_transaction inp w = (TransactionAdded account category ty x, w') ->
  ty <> Transfer /\
  (1 # 100) <= x /\
  (exists name info,
     In (name, info) (match ty with
                      | Expense => expense_categories w
                      | _ => income_categories w
                      end) /\
     i_category_id info = category /\
     lower name = lower (get_string (a_category_name inp))) /\
  exists row,
    transactions_tbl (db w') = transactions_tbl (db w) ++ [row] /\
    transaction_id row = next_transaction_id (db w) /\
    t_account_id row = account /\ t_category_id row = Some category /\
    transaction_type row = ty /\ amount row = x.
Proof.
  intros H. pose proof (add_transaction_added _ _ _ _ _ _ _ H) as Hnt.
  assert (Hout : fst (add_transaction inp w) = TransactionAdded account category ty x)
    by (rewrite H; reflexivity).
  assert (Hw : snd (add_transaction inp w) = w') by (rewrite H; reflexivity).
  destruct (add_transaction_validated inp w account category ty x Hnt Hout) as [Hx Hcat].
  destruct (add_transaction_spec inp w Hnt)
    as [[Hc _]|(a & c & x0 & note & d & t & Hpost)].
  { rewrite Hout in Hc. discriminate. }
  cbv zeta in Hpost. destruct Hpost as (Ho & _ & _ & Hdb & _).
  rewrite Hout in Ho. rewrite Hw in Hdb. revert Ho Hdb.
  destruct (String.eqb (lower (get_string (a_transaction_type inp))) "expense");
    intros Ho Hdb; injection Ho as -> -> -> ->.
  - split; [discriminate|]. split; [exact Hx|]. split; [exact Hcat|].
    destruct (budget_delta_tables (Some (casefold (get_string (a_category_name inp)))) x0 w
                (update_balance (fun b => b - x0) (account_id a)
                   (insert_transaction (account_id a) (Some c) Expense x0 note d t (db w))))
      as (_ & Ht & _).
    eexists. rewrite Hdb, Ht. cbn. repeat split; reflexivity.
  - split; [discriminate|]. split; [exact Hx|]. split; [exact Hcat|].
    eexists. rewrite Hdb. cbn. repeat split; reflexivity.
Qed.

(** X7 ([TransactionsManager.add_transaction], [transfer_funds]).  Every
    check of the two methods comes before the first write, also when
    [add_transaction] is asked for a transfer and [transfer_funds] takes
    over: a call that does not report a completed operation leaves the store
    and every cache as they were. *)
Theorem refusal_changes_nothing add transfer w :
  (committed (fst (add_transaction add w)) = false -> snd (add_transaction add w) = w) /\
  (committed (fst (transfer_funds transfer w)) = false ->
   snd (transfer_funds transfer w) = w).
Proof.
  assert (Ht : forall inp,
             committed (fst (transfer_funds inp w)) = false ->
             snd (transfer_funds inp w) = w).
  { intros inp Hc.
    destruct (transfer_funds_spec inp w) as [[_ H]|(X & Y & x & b & Hout & _)]; [exact H|].
    rewrite Hout in Hc. discriminate. }
  split; [|apply Ht].
  intros Hc.
  destruct (String.eqb (lower (get_string (a_transaction_type add))) "transfer") eqn:Hty.
  - rewrite (add_transaction_transfer add w Hty) in *. apply Ht, Hc.
  - destruct (add_transaction_spec add w Hty)
      as [[_ H]|(a & c & x & note & d & t & Hpost)]; [exact H|].
    cbv zeta in Hpost. destruct Hpost as (Hout & _). rewrite Hout in Hc. discriminate.
Qed.

End LedgerFacts.

Lemma deleted_key_gone id l :
  ~ In id (map transaction_id (filter (fun r => negb (transaction_id r =? id)%Z) l)).
Proof.
  intros H. apply in_map_iff in H. destruct H as (r & <- & Hr).
  apply filter_In in Hr. destruct Hr as [_ Hr]. rewrite Z.eqb_refl in Hr. discriminate.
Qed.

Lemma incl_filter_trans {A} (f : A -> bool) l l' : incl l l' -> incl (filter f l) l'.
Proof. intros H a Ha. apply filter_In in Ha. apply H, Ha. Qed.

Section DeleteFacts.
Context {rt : Runtime}.

Lemma delete_transaction_deleted inp w t :
  fst (delete_transaction inp w) = TransactionDeleted t ->
  In (v_row t) (transactions_tbl (db w)) /\
  ~ In (transaction_id (v_row t))
       (map transaction_id (transactions_tbl (db (snd (delete_transaction inp w))))) /\
  incl (transactions_tbl (db (snd (delete_transaction inp w)))) (transactions_tbl (db w)) /\
  transactions (snd (delete_transaction inp w))
  = select_transactions (db (snd (delete_transaction inp w))).
Proof.
  revert t. unfold delete_transaction.
  apply (wp_method _ _
           (fun out w' => forall t, out = TransactionDeleted t ->
              In (v_row t) (transactions_tbl (db w)) /\
              ~ In (transaction_id (v_row t)) (map transaction_id (transactions_tbl (db w'))) /\
              incl (transactions_tbl (db w')) (transactions_tbl (db w)) /\
              transactions w' = select_transactions (db w'))).
  simpl_world.
  repeat (wp_step; try solve [cbn [reported]; intros; discriminate]).
  all: cbn [reported]; intros t' [= <-].
  all: match goal with
       | Hin : In ?t (transactions _) |- _ =>
           revert Hin; simpl_world; intros Hin; apply select_transactions_row in Hin
       end.
  all: split; [assumption|].
  all: split; [apply deleted_key_gone|].
  all: split; [|reflexivity].
  all: try match goal with
       | |- context [update_budget_after_transaction ?n ?x ?W] =>
           pose proof (update_budget_after_transaction_spec n x W) as (Hdb & _);
           revert Hdb; simpl_world; intros Hdb;
           unfold delete_transaction_row; cbn [transactions_tbl set_transactions_tbl];
           rewrite Hdb;
           match goal with
           | |- context [budget_delta ?a ?b ?c ?d] =>
               destruct (budget_delta_tables a b c d) as (_ & Ht & _); rewrite Ht
           end
       end.
  all: unfold delete_transaction_row, delete_transactions_like, update_balance;
       cbn [transactions_tbl set_transactions_tbl set_accounts_tbl].
  all: repeat apply incl_filter_trans; apply incl_refl.
Qed.

(** X8 ([TransactionsManager.delete_transaction]).  A completed deletion
    removes the selected row, which was on record: its key is on no row
    afterwards, no row is added, and the cached list is the reloaded one.  A
    call that ends with any other line leaves the store as it was. *)
Theorem delete_transaction_removes_row inp w :
  match fst (delete_transaction inp w) with
  | TransactionDeleted t =>
      In (v_row t) (transactions_tbl (db w)) /\
      ~ In (transaction_id (v_row t))
           (map transaction_id (transactions_tbl (db (snd (delete_transaction inp w))))) /\
      incl (transactions_tbl (db (snd (delete_transaction inp w))))
           (transactions_tbl (db w)) /\
      transactions (snd (delete_transaction inp w))
      = select_transactions (db (snd (delete_transaction inp w)))
  | _ => db (snd (delete_transaction inp w)) = db w
  end.
Proof.
  pose proof (delete_transaction_deleted inp w) as Hdel.
  destruct (delete_transaction_spec inp w) as (_ & _ & _ & [[Hc Hdb]|(t & Hout & _)]).
  - destruct (fst (delete_transaction inp w)); try exact Hdb; discriminate.
  - rewrite Hout in *. apply Hdel. reflexivity.
Qed.

End DeleteFacts.

Lemma last_budget_snoc c l b :
  last_budget c (l ++ [b])
  = if (c =? b_category_id b)%Z then Some b else last_budget c l.
Proof. unfold last_budget. rewrite fold_left_app. reflexivity. Qed.

Lemma last_budget_split c l :
  match last_budget c l with
  | Some b =>
      exists l1 l2, l = l1 ++ b :: l2 /\ b_category_id b = c /\
                    Forall (fun r => b_category_id r <> c) l2
  | None => Forall (fun r => b_category_id r <> c) l
  end.
Proof.
  induction l as [|x l IH] using rev_ind; [constructor|].
  rewrite last_budget_snoc. destruct (c =? b_category_id x)%Z eqn:E.
  - apply Z.eqb_eq in E. exists l, []. repeat split; [symmetry; exact E | constructor].
  - apply Z.eqb_neq in E.
    assert (Hx : Forall (fun r => b_category_id r <> c) [x])
      by (constructor; [congruence | constructor]).
    destruct (last_budget c l) as [b|].
    + destruct IH as (l1 & l2 & -> & Hc & Hl2). exists l1, (l2 ++ [x]).
      rewrite <- app_assoc. repeat split; [exact Hc|]. apply Forall_app. split; assumption.
    + apply Forall_app. split; assumption.
Qed.

(** X9 ([BudgetManager.load_budgets]).  The cache built from the table
    holds, for a category, the last row of that category and no other; it
    has no entry exactly when the table has no row of the category. *)
Theorem load_budgets_holds_last_row c w :
  match dict_get Z.eqb c (load_budgets w) with
  | Some b =>
      exists l1 l2, budgets_tbl (db w) = l1 ++ b :: l2 /\ b_category_id b = c /\
                    Forall (fun r => b_category_id r <> c) l2
  | None => Forall (fun r => b_category_id r <> c) (budgets_tbl (db w))
  end.
Proof. rewrite load_budgets_get. apply last_budget_split. Qed.


(* ================================================================= *)
(** ** Names and keys *)


Lemma find_first_app {A} (p : A -> bool) l1 l2 :
  find p (l1 ++ l2) = match find p l1 with Some a => Some a | None => find p l2 end.
Proof.
  induction l1 as [|a l1 IH]; cbn [app find]; [reflexivity|].
  destruct (p a); [reflexivity | exact IH].
Qed.

Lemma get_category_id_by_name_find name w :
  get_category_id_by_name (Some name) w
  = option_map (fun kv => i_category_id (snd kv))
      (find (fun kv => String.eqb (lower (fst kv)) (lower name))
            (income_categories w ++ expense_categories w)).
Proof.
  unfold get_category_id_by_name, find_category. rewrite find_first_app.
  destruct (find _ (income_categories w)); reflexivity.
Qed.

Lemma get_category_name_by_id_find id w :
  get_category_name_by_id id w
  = option_map fst
      (find (fun kv => (i_category_id (snd kv) =? id)%Z)
            (income_categories w ++ expense_categories w)).
Proof.
  unfold get_category_name_by_id, find_name. rewrite find_first_app.
  destruct (find _ (income_categories w)); reflexivity.
Qed.

(** X13 ([CategoryManager.get_category_id_by_name]).  The id answered for a
    name is the id of a cached category, of either role, whose name equals
    the given one up to letter case; [None] is answered exactly when no
    cached category has such a name. *)
Theorem get_category_id_by_name_spec name w :
  match get_category_id_by_name (Some name) w with
  | Some id =>
      exists key info,
        In (key, info) (income_categories w ++ expense_categories w) /\
        lower key = lower name /\ i_category_id info = id
  | None =>
      forall key info,
        In (key, info) (income_categories w ++ expense_categories w) ->
        lower key <> lower name
  end.
Proof.
  rewrite get_category_id_by_name_find.
  destruct (find _ _) as [[key info]|] eqn:E; cbn [option_map].
  - apply find_some in E. destruct E as [Hin E]. apply String.eqb_eq in E.
    exists key, info. repeat split; assumption.
  - intros key info Hin. apply (find_none _ _ E) in Hin. apply String.eqb_neq in Hin.
    exact Hin.
Qed.

Lemma key_inj {A} (key : A -> Z) l a b :
  NoDup (map key l) -> In a l -> In b l -> key a = key b -> a = b.
Proof.
  induction l as [|x l IH]; cbn [map In]; [intros _ []|].
  intros Hnd Ha Hb E. inversion Hnd as [|? ? Hnotin Hnd']; subst.
  destruct Ha as [->|Ha], Hb as [->|Hb].
  - reflexivity.
  - exfalso. apply Hnotin. rewrite E. apply in_map, Hb.
  - exfalso. apply Hnotin. rewrite <- E. apply in_map, Ha.
  - apply IH; assumption.
Qed.

(** X14 ([CategoryManager.get_category_name_by_id] after
    [get_category_id_by_name]).  With unique category ids in the caches,
    the name stored under the id a name resolves to is that name up to
    letter case, and resolves to the same id. *)
Theorem category_id_name_round_trip name w id :
  NoDup (map (fun kv => i_category_id (snd kv))
             (income_categories w ++ expense_categories w)) ->
  get_category_id_by_name (Some name) w = Some id ->
  exists key,
    get_category_name_by_id id w = Some key /\
    lower key = lower name /\
    get_category_id_by_name (Some key) w = Some id.
Proof.
  intros Hnd. rewrite get_category_id_by_name_find, get_category_name_by_id_find.
  destruct (find _ _) as [kv|] eqn:E; [|discriminate]. intros [= <-].
  pose proof (find_some _ _ E) as [Hin Hname]. apply String.eqb_eq in Hname.
  destruct (find (fun kv0 => (i_category_id (snd kv0) =? i_category_id (snd kv))%Z) _)
    as [kv'|] eqn:E'.
  - pose proof (find_some _ _ E') as [Hin' Hid]. apply Z.eqb_eq in Hid.
    assert (kv' = kv) as -> by (eapply key_inj; eassumption).
    exists (fst kv). repeat split; [exact Hname|].
    rewrite get_category_id_by_name_find, Hname, E. reflexivity.
  - apply (find_none _ _ E') in Hin. rewrite Z.eqb_refl in Hin. discriminate.
Qed.

(* ================================================================= *)
(** ** More on updates *)

Ltac same_row_keys :=
  unfold update_balance, update_transfer_rows_notes, update_transfer_rows,
         update_transaction_row, update_category_spent;
  cbn [transactions_tbl accounts_tbl set_transactions_tbl set_accounts_tbl set_budgets_tbl];
  rewrite ?map_map; apply map_ext; intros r; unfold row_key;
  repeat match goal with
         | |- context [if ?c then _ else _] => destruct c; cbn [transaction_id t_account_id transaction_type]
         end;
  reflexivity.

Section UpdateFacts.
Context {rt : Runtime}.

Lemma update_transfer_funds_keys inp t w :
  map row_key (transactions_tbl (db (snd (update_transfer_funds inp t w))))
  = map row_key (transactions_tbl (db w)).
Proof.
  unfold update_transfer_funds.
  apply (wp_method _ _
           (fun _ w' => map row_key (transactions_tbl (db w'))
                        = map row_key (transactions_tbl (db w)))).
  simpl_world.
  repeat (wp_step; try reflexivity).
  all: same_row_keys.
Qed.

(** X15 ([TransactionsManager.update_transaction],
    [update_transfer_funds]).  Whatever is typed and however the update
    ends, it neither adds nor removes a row, and no row changes its key, its
    account or its type. *)
Theorem update_transaction_keeps_row_keys inp w :
  map row_key (transactions_tbl (db (snd (update_transaction inp w))))
  = map row_key (transactions_tbl (db w)).
Proof.
  unfold update_transaction.
  apply (wp_method _ _
           (fun _ w' => map row_key (transactions_tbl (db w'))
                        = map row_key (transactions_tbl (db w)))).
  simpl_world.
  repeat (wp_step; try reflexivity).
  all: try match goal with
       | |- context [update_transfer_funds ?i ?t ?W] =>
           rewrite (update_transfer_funds_keys i t W); reflexivity
       end.
  all: same_row_keys.
Qed.

Lemma update_transaction_accounts inp w :
  fst (update_transaction inp w) = TransactionUpdated ->
  exists id a,
    accounts_tbl (db (snd (update_transaction inp w)))
    = accounts_tbl (update_balance (fun b => b + a - a) id (db w)) \/
    accounts_tbl (db (snd (update_transaction inp w)))
    = accounts_tbl (update_balance (fun b => b - a + a) id (db w)).
Proof.
  unfold update_transaction.
  apply (wp_method _ _
           (fun out w' => out = TransactionUpdated ->
              exists id a,
                accounts_tbl (db w')
                = accounts_tbl (update_balance (fun b => b + a - a) id (db w)) \/
                accounts_tbl (db w')
                = accounts_tbl (update_balance (fun b => b - a + a) id (db w)))).
  simpl_world.
  repeat (wp_step; try solve [cbn [reported]; intros; discriminate]).
  all: try match goal with
       | |- context [update_transfer_funds ?i ?t ?W] =>
           cbn [reported]; intros Hout;
           pose proof (update_transfer_funds_spec i t W) as [Hne _];
           rewrite Hout in Hne; contradiction
       end.
  all: intros _; do 2 eexists; first [left; reflexivity | right; reflexivity].
Qed.

(** X16 ([TransactionsManager.update_transaction]).  A completed update of
    an income or expense leaves the balance of every account at its value:
    the amount cannot be changed, so what is taken back is booked again. *)
Theorem update_transaction_keeps_balances inp w :
  fst (update_transaction inp w) = TransactionUpdated ->
  Forall2 same_account
    (accounts_tbl (db (snd (update_transaction inp w))))
    (accounts_tbl (db w)).
Proof.
  intros Hout. destruct (update_transaction_accounts inp w Hout) as (id & a & [H|H]).
  all: rewrite H; unfold update_balance; cbn [accounts_tbl set_accounts_tbl].
  all: apply Forall2_map_self; intros acc _.
  all: destruct (account_id acc =? id)%Z; [|apply same_account_refl].
  all: unfold same_account; cbn [account_id account_name account_type initial_balance
                                with_balance].
  all: repeat split; ring.
Qed.

End UpdateFacts.

(* ================================================================= *)
(** ** The account menu *)

Lemma wp_procedure body (P : Notice -> World -> Prop) w :
  wp body (fun r w' => P (noticed r) w') w ->
  P (fst (procedure body w)) (snd (procedure body w)).
Proof.
  unfold wp, procedure, noticed. destruct (body w) as [[n|[s|]] w']; auto.
Qed.

Lemma wp_invoke {A} (f : World -> A * World) (Q : A + Exit -> World -> Prop) w :
  Q (inl (fst (f w))) (snd (f w)) -> wp (invoke f) Q w.
Proof. unfold wp, invoke. destruct (f w). auto. Qed.

Ltac wp_go :=
  first
    [ lazymatch goal with
      | |- wp (get_account_type _) _ _ => apply wp_get_account_type; [ | | intros ? ?]
      | |- wp view_budgets _ _ => apply wp_modify
      | |- wp (invoke _) _ _ => apply wp_invoke
      end; simpl_world
    | wp_step ].


(** X17 ([AccountsManager.add_account]).  An account is added only with a
    name that is not empty, a balance that is not negative and one of the
    four types, spelled in lower case; the row is appended to the table and
    to the cached list with the key the store gave it.  Any other call
    leaves the store and the caches as they were. *)
Theorem add_account_validates name balance ty key w :
  match fst (add_account name balance ty key w) with
  | AccountAdded id =>
      id = key /\ name <> EmptyString /\ In ty account_types /\
      exists b,
        balance = Some b /\ 0 <= b /\
        accounts_tbl (db (snd (add_account name balance ty key w)))
        = accounts_tbl (db w) ++ [mkAccount key name b ty] /\
        accounts (snd (add_account name balance ty key w))
        = accounts w ++ [mkAccount key name b ty] /\
        transactions_tbl (db (snd (add_account name balance ty key w)))
        = transactions_tbl (db w)
  | _ => snd (add_account name balance ty key w) = w
  end.
Proof.
  unfold add_account, procedure. destruct balance as [b|]; [|reflexivity].
  destruct (String.eqb name "") eqn:Hname; [reflexivity|].
  destruct (String.eqb ty "") eqn:Hty; [reflexivity|].
  destruct (str_in ty account_types) eqn:Hin; [|reflexivity].
  cbn [orb negb]. destruct (Qltb b 0) eqn:Hb; [reflexivity|].
  cbn. apply String.eqb_neq in Hname. apply str_in_In in Hin. apply Qltb_false in Hb.
  split; [reflexivity|]. split; [exact Hname|]. split; [exact Hin|].
  exists b. repeat split. exact Hb.
Qed.


Lemma add_account_added name b ty key w id :
  fst (add_account name (Some b) ty key w) = AccountAdded id ->
  id = key /\
  accounts_tbl (db (snd (add_account name (Some b) ty key w)))
  = accounts_tbl (db w) ++ [mkAccount key name b ty].
Proof.
  unfold add_account, procedure.
  destruct (String.eqb name "" || String.eqb ty "" || negb (str_in ty account_types));
    [discriminate|].
  destruct (Qltb b 0); [discriminate|].
  cbn. intros [= <-]. split; reflexivity.
Qed.

Lemma add_account_negative name b ty key w :
  fst (add_account name (Some b) ty key w) = NegativeInitialBalance -> b < 0.
Proof.
  unfold add_account, procedure.
  destruct (String.eqb name "" || String.eqb ty "" || negb (str_in ty account_types));
    [discriminate|].
  destruct (Qltb b 0) eqn:Hb; [|discriminate].
  intros _. apply Qltb_true, Hb.
Qed.

Section AccountFacts.
Context {rt : Runtime}.

(** X19 ([MainMenu.accounts_menu_flow], choice 1).  Called from the menu,
    [add_account] never reports a negative initial balance: the balance it
    is given was read with [min_value = 0], so a negative number typed there
    is refused by [get_float] before; and an account that is added holds
    the number [get_float] answered, which is not negative. *)
Theorem accounts_menu_add_never_negative inp w :
  fst (accounts_menu_add inp w) <> inl NegativeInitialBalance /\
  (forall id, fst (accounts_menu_add inp w) = inl (AccountAdded id) ->
     exists b, fst (get_float (n_balance inp) (Some 0) w) = inl (Some b) /\ 0 <= b /\
               In (mkAccount id (get_string (n_name inp)) b (get_string (n_type inp)))
                  (accounts_tbl (db (snd (accounts_menu_add inp w))))).
Proof.
  unfold accounts_menu_add, bind, invoke.
  destruct (get_float_loop_result 3 (n_balance inp) (Some 0) w) as [Hw Hr].
  fold (get_float (n_balance inp) (Some 0)) in Hw, Hr.
  destruct (get_float (n_balance inp) (Some 0) w) as [[[b|]|e] w0] eqn:E;
    cbn [fst snd] in Hw, Hr; subst w0.
  - destruct Hr as [Hb _].
    pose proof (add_account_added (get_string (n_name inp)) b
                  (get_string (n_type inp)) (n_key inp) w) as Hv.
    pose proof (add_account_negative (get_string (n_name inp)) b
                  (get_string (n_type inp)) (n_key inp) w) as Hn.
    destruct (add_account _ _ _ _ w) as [n w1]. cbn [fst snd] in *. split.
    + intros [= ->]. specialize (Hn eq_refl). lra.
    + intros id [= ->]. destruct (Hv id eq_refl) as [-> Htbl].
      exists b. repeat split; [exact Hb|]. rewrite Htbl. apply in_or_app. right. left.
      reflexivity.
  - cbn. split; [discriminate | intros id H; discriminate H].
  - cbn. split; [discriminate | intros id H; discriminate H].
Qed.

End AccountFacts.

Lemma casefolded_key name (rows : list Account) :
  dict_mem String.eqb name
    (dict_of String.eqb (map (fun acc => (casefold (account_name acc), account_id acc)) rows))
  = true ->
  lower name = name.
Proof.
  unfold dict_mem. destruct (dict_get _ _ _) as [id|] eqn:E; [|discriminate]. intros _.
  apply (dict_get_In String.eqb String.eqb_eq) in E.
  apply (dict_of_In String.eqb String.eqb_eq) in E. apply in_map_iff in E.
  destruct E as (acc & [= <- _] & _). apply lower_idem.
Qed.

Lemma filter_gone {A} (key : A -> Z) id l :
  Forall (fun x => key x <> id) (filter (fun x => negb (key x =? id)%Z) l).
Proof.
  apply Forall_forall. intros x Hx. apply filter_In in Hx. destruct Hx as [_ Hx].
  intros E. rewrite E, Z.eqb_refl in Hx. discriminate.
Qed.

Section AccountMenuFacts.
Context {rt : Runtime}.

(** X20 ([AccountsManager.delete_account]).  Deleting an account cascades:
    the account row and every transaction booked on it are removed, so no
    transaction refers to the deleted key afterwards; the rows of the other
    accounts stay, in their order, and the accounts cache is the reloaded
    table.  The budgets are not touched.  A call that ends with any other
    line leaves the store as it was. *)
Theorem delete_account_cascades inp w :
  match fst (delete_account inp w) with
  | AccountDeleted id =>
      In id (map account_id (accounts_tbl (db w))) /\
      accounts_tbl (db (snd (delete_account inp w)))
      = filter (fun a => negb (account_id a =? id)%Z) (accounts_tbl (db w)) /\
      transactions_tbl (db (snd (delete_account inp w)))
      = filter (fun t => negb (t_account_id t =? id)%Z) (transactions_tbl (db w)) /\
      Forall (fun t => t_account_id t <> id)
             (transactions_tbl (db (snd (delete_account inp w)))) /\
      budgets_tbl (db (snd (delete_account inp w))) = budgets_tbl (db w) /\
      accounts (snd (delete_account inp w)) = accounts_tbl (db (snd (delete_account inp w)))
  | _ => db (snd (delete_account inp w)) = db w
  end.
Proof.
  unfold delete_account. apply wp_procedure. simpl_world.
  repeat (wp_go; try reflexivity).
  all: cbn [noticed].
  all: split;
    [ apply in_map;
      match goal with
      | H : search_accounts _ _ = [?a] |- In ?a _ =>
          assert (Hin : In a (search_accounts (get_string (da_name inp))
                                (snd (load_accounts w)))) by
            (unfold load_accounts, modify; cbn [snd]; rewrite H; left; reflexivity);
          apply search_accounts_In in Hin; exact Hin
      | H : search_accounts _ _ = ?l, H' : In ?a ?l |- In ?a _ =>
          assert (Hin : In a (search_accounts (get_string (da_name inp))
                                (snd (load_accounts w)))) by
            (unfold load_accounts, modify; cbn [snd]; rewrite H; exact H');
          apply search_accounts_In in Hin; exact Hin
      end | ].
  all: repeat split; apply filter_gone.
Qed.

(** X21 ([AccountsManager.delete_account]).  The typed name is looked up
    among the keys of the name cache as it was typed, and the keys are
    casefolded: a name typed with a capital letter is never found, and the
    store is left as it was. *)
Theorem delete_account_capital_letter inp w :
  lower (get_string (da_name inp)) <> get_string (da_name inp) ->
  fst (delete_account inp w) = Line AccountNotFound /\
  db (snd (delete_account inp w)) = db w.
Proof.
  intros Hcap. unfold delete_account, procedure, bind, load_accounts, modify, gets, return_if.
  simpl_world.
  destruct (dict_mem String.eqb (get_string (da_name inp)) _) eqn:E.
  - apply casefolded_key in E. contradiction.
  - cbn. split; reflexivity.
Qed.

End AccountMenuFacts.

Ltac one_account_edited :=
  unfold update_balance, update_account_name, update_account_type;
  cbn [accounts_tbl transactions_tbl budgets_tbl set_accounts_tbl];
  rewrite ?map_map;
  first [ apply Forall2_map_self
        | match goal with
          | |- Forall2 _ ?l ?l => rewrite <- (map_id l) at 1; apply Forall2_map_self
          end ];
  let acc := fresh "acc" in
  let E := fresh "E" in
  intros acc _;
  match goal with
  | |- (_ <> ?id -> _) /\ _ => destruct (account_id acc =? id)%Z eqn:E
  end;
  repeat (cbn [account_id account_name account_type initial_balance with_balance];
          rewrite ?E);
  [ apply Z.eqb_eq in E | ];
  (split; [intros; first [contradiction | reflexivity] | split; [reflexivity|]]);
  first [ left; reflexivity | right; assumption ].

Section AccountUpdateFacts.
Context {rt : Runtime}.

(** X22 ([AccountsManager.update_account]).  An update edits one account
    and nothing else: no transaction or budget row changes, no account is
    added or removed or changes its key, every account but the selected one
    keeps its row, and the type of the selected one is kept or becomes one
    of the four types.  A call that does not report an update leaves the
    store as it was. *)
Theorem update_account_touches_one_account inp w :
  transactions_tbl (db (snd (update_account inp w))) = transactions_tbl (db w) /\
  budgets_tbl (db (snd (update_account inp w))) = budgets_tbl (db w) /\
  match fst (update_account inp w) with
  | AccountUpdated id =>
      Forall2 (fun a' a =>
                 (account_id a <> id -> a' = a) /\
                 account_id a' = account_id a /\
                 (account_type a' = account_type a \/ In (account_type a') account_types))
              (accounts_tbl (db (snd (update_account inp w)))) (accounts_tbl (db w))
  | _ => db (snd (update_account inp w)) = db w
  end.
Proof.
  unfold update_account. apply wp_procedure. simpl_world.
  repeat (wp_go; try solve [repeat split; reflexivity]).
  all: cbn [noticed].
  all: split; [reflexivity|]; split; [reflexivity|].
  all: one_account_edited.
Qed.

End AccountUpdateFacts.

Lemma role_category_cached role c s :
  In c (categories_tbl s) -> In (category_id c) role ->
  In (category_name c)
     (map fst (dict_of String.eqb
                 (map (fun row => (category_name row,
                                   mkInfo (category_id row) (description row)))
                      (select_role_categories role s)))).
Proof.
  intros Hc Hrole. apply (dict_of_keys String.eqb String.eqb_eq).
  rewrite map_map. cbn [fst].
  apply (in_map category_name). unfold select_role_categories.
  apply in_flat_map. exists (category_id c). split; [exact Hrole|].
  apply filter_In. split; [exact Hc | apply Z.eqb_refl].
Qed.

Lemma lower_key_In name (d : dict string CategoryInfo) key :
  In key (map fst d) -> lower key = lower name ->
  str_in (lower name) (map (fun kv => lower (fst kv)) d) = true.
Proof.
  intros Hin Hname. apply str_in_In. rewrite <- Hname, <- map_map.
  apply (in_map lower). exact Hin.
Qed.

(** X23 ([CategoryManager.add_category]).  A name that a category of either
    role already bears, up to letter case, is refused, and the store is left
    as it was. *)
Theorem add_category_rejects_existing_name name ty descr key w c role :
  In c (categories_tbl (db w)) ->
  In (category_id c) (role_tbl role (db w)) ->
  lower (category_name c) = lower name ->
  fst (add_category name ty descr key w) = CategoryExists /\
  db (snd (add_category name ty descr key w)) = db w.
Proof.
  intros Hc Hrole Hname.
  unfold add_category, procedure, bind, load_categories, modify, gets. simpl_world.
  assert (H : str_in (lower name)
                (map (fun kv => lower (fst kv))
                   (dict_of String.eqb
                      (map (fun row => (category_name row,
                                        mkInfo (category_id row) (description row)))
                         (select_role_categories (income_categories_tbl (db w)) (db w)))))
              || str_in (lower name)
                   (map (fun kv => lower (fst kv))
                      (dict_of String.eqb
                         (map (fun row => (category_name row,
                                           mkInfo (category_id row) (description row)))
                            (select_role_categories (expense_categories_tbl (db w)) (db w)))))
              = true).
  { apply orb_true_iff. destruct role; [left | right].
    all: eapply lower_key_In; [apply role_category_cached; eassumption | exact Hname]. }
  rewrite H. split; reflexivity.
Qed.

Lemma select_category_id_inserted name descr key s :
  exists id, select_category_id name (insert_category key name descr s) = Some id.
Proof.
  unfold select_category_id, insert_category. cbn [categories_tbl set_categories_tbl].
  destruct (find _ _) as [c|] eqn:E; [cbn; eauto|].
  assert (Hin : In (mkCategory key name descr) (categories_tbl s ++ [mkCategory key name descr]))
    by (apply in_or_app; right; left; reflexivity).
  apply (find_none _ _ E) in Hin. cbn [category_name] in Hin.
  rewrite String.eqb_refl in Hin. discriminate.
Qed.

(** X24 ([CategoryManager.add_category]).  The category type is checked
    only after the row has been inserted: with a type that is neither
    income nor expense, a name that is not refused as existing still gets
    its row in [categories], while neither role table gains a row. *)
Theorem add_category_type_checked_late name ty descr key w :
  lower ty <> "income"%string -> lower ty <> "expense"%string ->
  match fst (add_category name ty descr key w) with
  | CategoryExists => db (snd (add_category name ty descr key w)) = db w
  | InvalidCategoryType =>
      categories_tbl (db (snd (add_category name ty descr key w)))
      = categories_tbl (db w) ++ [mkCategory key name descr] /\
      income_categories_tbl (db (snd (add_category name ty descr key w)))
      = income_categories_tbl (db w) /\
      expense_categories_tbl (db (snd (add_category name ty descr key w)))
      = expense_categories_tbl (db w)
  | _ => False
  end.
Proof.
  intros Hi He. unfold add_category. apply wp_procedure. simpl_world.
  repeat (wp_go; try reflexivity).
  all: cbn [noticed].
  all: try match goal with
       | H : String.eqb _ _ = true |- _ => apply String.eqb_eq in H; contradiction
       end.
  - repeat split.
  - destruct (select_category_id_inserted name descr key (db w)) as [id Hid]. congruence.
Qed.

Lemma str_in_false_find n (d : dict string CategoryInfo) :
  str_in n (map (fun kv => lower (fst kv)) d) = false ->
  forall kv, In kv d -> String.eqb (lower (fst kv)) n = false.
Proof.
  intros H kv Hin. destruct (String.eqb (lower (fst kv)) n) eqn:E; [|reflexivity].
  apply String.eqb_eq in E. subst n.
  assert (Ht : str_in (lower (fst kv)) (map (fun kv => lower (fst kv)) d) = true).
  { apply str_in_In. apply (in_map (fun kv => lower (fst kv))). exact Hin. }
  congruence.
Qed.

Lemma find_category_none n (d : dict string CategoryInfo) :
  str_in n (map (fun kv => lower (fst kv)) d) = false -> find_category n d = None.
Proof.
  intros H. unfold find_category.
  destruct (find _ d) as [kv|] eqn:E; [|reflexivity].
  apply find_some in E. destruct E as [Hin E].
  rewrite (str_in_false_find n d H kv Hin) in E. discriminate.
Qed.

Lemma find_category_new name info (d : dict string CategoryInfo) :
  str_in (lower name) (map (fun kv => lower (fst kv)) d) = false ->
  find_category (lower name) (dict_set String.eqb name info d) = Some (i_category_id info).
Proof.
  intros H. pose proof (str_in_false_find _ _ H) as Hd. clear H.
  unfold find_category.
  induction d as [|[k0 v0] d IH]; cbn [dict_set find fst].
  - rewrite String.eqb_refl. reflexivity.
  - destruct (String.eqb name k0) eqn:E.
    + apply String.eqb_eq in E. subst k0.
      specialize (Hd (name, v0) (or_introl eq_refl)). cbn [fst] in Hd.
      rewrite String.eqb_refl in Hd. discriminate.
    + cbn [find fst]. pose proof (Hd (k0, v0) (or_introl eq_refl)) as H0.
      cbn [fst] in H0. rewrite H0.
      apply IH. intros kv Hin. apply Hd. right. exact Hin.
Qed.

Lemma select_category_id_row name s id :
  select_category_id name s = Some id ->
  exists c, In c (categories_tbl s) /\ category_id c = id /\
            lower (category_name c) = lower name.
Proof.
  unfold select_category_id. destruct (find _ _) as [c|] eqn:E; [|discriminate].
  intros [= <-]. apply find_some in E. destruct E as [Hin E]. apply String.eqb_eq in E.
  exists c. repeat split; assumption.
Qed.

Lemma select_category_id_fresh name descr key s :
  (forall c, In c (categories_tbl s) -> lower (category_name c) <> lower name) ->
  select_category_id name (insert_category key name descr s) = Some key.
Proof.
  intros Hfresh. unfold select_category_id, insert_category.
  cbn [categories_tbl set_categories_tbl].
  induction (categories_tbl s) as [|c l IH]; cbn [app find category_name].
  - rewrite String.eqb_refl. reflexivity.
  - destruct (String.eqb (lower (category_name c)) (lower name)) eqn:E.
    + apply String.eqb_eq in E. exfalso. apply (Hfresh c); [left; reflexivity | exact E].
    + apply IH. intros c' Hc'. apply Hfresh. right. exact Hc'.
Qed.

(** X25 ([CategoryManager.add_category], then
    [get_category_id_by_name]).  A category just added resolves at once,
    under its name in any letter case, to the id that was entered in the
    role table of the given type; the row is appended to [categories], and
    the id is that of a row bearing the name, the key of the new row when no
    row bore the name before. *)
Theorem add_category_then_resolved name ty descr key w id typed :
  fst (add_category name ty descr key w) = CategoryAdded id ->
  lower typed = lower name ->
  get_category_id_by_name (Some typed) (snd (add_category name ty descr key w)) = Some id /\
  categories_tbl (db (snd (add_category name ty descr key w)))
  = categories_tbl (db w) ++ [mkCategory key name descr] /\
  (exists c, In c (categories_tbl (db (snd (add_category name ty descr key w)))) /\
             category_id c = id /\ lower (category_name c) = lower name) /\
  ((forall c, In c (categories_tbl (db w)) -> lower (category_name c) <> lower name) ->
   id = key) /\
  exists role,
    lower ty = match role with
               | IncomeCategories => "income"%string
               | ExpenseCategories => "expense"%string
               end /\
    db (snd (add_category name ty descr key w))
    = insert_role role id (insert_category key name descr (db w)).
Proof.
  intros Hout Hname. revert id Hout. unfold add_category.
  apply (wp_procedure _
           (fun out w' => forall id, out = CategoryAdded id ->
              get_category_id_by_name (Some typed) w' = Some id /\
              categories_tbl (db w') = categories_tbl (db w) ++ [mkCategory key name descr] /\
              (exists c, In c (categories_tbl (db w')) /\
                         category_id c = id /\ lower (category_name c) = lower name) /\
              ((forall c, In c (categories_tbl (db w)) ->
                          lower (category_name c) <> lower name) -> id = key) /\
              exists role,
                lower ty = match role with
                           | IncomeCategories => "income"%string
                           | ExpenseCategories => "expense"%string
                           end /\
                db w' = insert_role role id (insert_category key name descr (db w)))).
  simpl_world.
  repeat (wp_go; try solve [cbn [noticed]; intros; discriminate]).
  all: cbn [noticed]; intros id [= <-].
  all: match goal with
       | H : _ || _ = false |- _ => apply orb_false_iff in H; destruct H as [Hinc Hexp]
       end.
  all: match goal with
       | H : String.eqb (lower _) _ = true |- _ => apply String.eqb_eq in H
       end.
  all: split;
    [ unfold get_category_id_by_name; simpl_world; rewrite Hname;
      rewrite ?(find_category_none _ _ Hinc), ?(find_category_new _ _ _ Hinc),
              ?(find_category_new _ _ _ Hexp); reflexivity | ].
  all: split; [reflexivity|].
  all: split;
    [ match goal with
      | H : select_category_id _ _ = Some _ |- _ =>
          apply select_category_id_row in H; destruct H as (c & Hc & Hid & Hn);
          exists c; repeat split; assumption
      end | ].
  all: split;
    [ intros Hfresh;
      match goal with
      | H : select_category_id _ _ = Some _ |- _ =>
          rewrite (select_category_id_fresh _ _ _ _ Hfresh) in H; congruence
      end | ].
  - exists IncomeCategories. split; [assumption | reflexivity].
  - exists ExpenseCategories. split; [assumption | reflexivity].
Qed.

Lemma find_info_role n role s data :
  find_info n
    (dict_of String.eqb
       (map (fun row => (category_name row, mkInfo (category_id row) (description row)))
            (select_role_categories role s))) = Some data ->
  In (i_category_id data) role /\
  exists c, In c (categories_tbl s) /\ category_id c = i_category_id data /\
            lower (category_name c) = n.
Proof.
  unfold find_info. destruct (find _ _) as [[key info]|] eqn:E; [|discriminate].
  cbn [option_map snd]. intros [= <-]. apply find_some in E. destruct E as [Hin E].
  cbn [fst] in E. apply String.eqb_eq in E.
  apply (dict_of_In String.eqb String.eqb_eq) in Hin. apply in_map_iff in Hin.
  destruct Hin as (c & [= <- <-] & Hc). unfold select_role_categories in Hc.
  apply in_flat_map in Hc. destruct Hc as (id & Hid & Hc). apply filter_In in Hc.
  destruct Hc as [Hc Heq]. apply Z.eqb_eq in Heq. cbn [i_category_id].
  split; [rewrite Heq; exact Hid|]. exists c. repeat split; assumption.
Qed.

Lemma find_cat_data_loaded n w data table :
  find_cat_data n (snd (load_categories w)) = Some (data, table) ->
  In (i_category_id data) (role_tbl table (db w)) /\
  exists c, In c (categories_tbl (db w)) /\ category_id c = i_category_id data /\
            lower (category_name c) = n.
Proof.
  unfold find_cat_data, load_categories, modify. cbn [snd]. simpl_world.
  destruct (find_info n _) as [d|] eqn:E.
  - intros [= <- <-]. apply find_info_role in E. exact E.
  - destruct (find_info n (dict_of _ (map _ (select_role_categories
                                               (expense_categories_tbl _) _))))
      as [d|] eqn:E'; [|discriminate].
    intros [= <- <-]. apply find_info_role in E'. exact E'.
Qed.

Lemma category_rows_gone id l :
  Forall (fun t => t_category_id t <> Some id)
    (filter (fun t => negb match t_category_id t with
                           | Some c => (c =? id)%Z
                           | None => false
                           end) l).
Proof.
  apply Forall_forall. intros t Ht. apply filter_In in Ht. destruct Ht as [_ Ht].
  intros E. rewrite E, Z.eqb_refl in Ht. discriminate.
Qed.

(** X26 ([CategoryManager.delete_category]).  Deleting a category cascades:
    its row, its row in the role table it was found in (income first) and
    every transaction booked under it are removed, and its budgets too when
    it was found as an expense category.  The balances of the accounts are
    left as they are, although transactions were removed, and the budget
    cache is not reloaded.  A call that ends with any other line leaves the
    store as it was. *)
Theorem delete_category_cascades name w :
  accounts_tbl (db (snd (delete_category name w))) = accounts_tbl (db w) /\
  budgets (snd (delete_category name w)) = budgets w /\
  match fst (delete_category name w) with
  | CategoryDeleted id =>
      (exists c, In c (categories_tbl (db w)) /\ category_id c = id /\
                 lower (category_name c) = lower name) /\
      categories_tbl (db (snd (delete_category name w)))
      = filter (fun c => negb (category_id c =? id)%Z) (categories_tbl (db w)) /\
      Forall (fun t => t_category_id t <> Some id)
             (transactions_tbl (db (snd (delete_category name w)))) /\
      incl (transactions_tbl (db (snd (delete_category name w))))
           (transactions_tbl (db w)) /\
      exists table,
        In id (role_tbl table (db w)) /\
        role_tbl table (db (snd (delete_category name w)))
        = filter (fun c => negb (c =? id)%Z) (role_tbl table (db w)) /\
        budgets_tbl (db (snd (delete_category name w)))
        = match table with
          | ExpenseCategories =>
              filter (fun b => negb (b_category_id b =? id)%Z) (budgets_tbl (db w))
          | IncomeCategories => budgets_tbl (db w)
          end
  | _ => db (snd (delete_category name w)) = db w
  end.
Proof.
  unfold delete_category. apply wp_procedure. simpl_world.
  repeat (wp_go; try solve [repeat split; reflexivity]).
  all: cbn [noticed].
  all: match goal with
       | H : find_cat_data _ _ = Some _ |- _ =>
           apply (find_cat_data_loaded _ w) in H; destruct H as (Hrole & Hrow)
       end.
  all: split; [reflexivity|]; split; [reflexivity|]; split; [exact Hrow|].
  all: split; [reflexivity|]; split; [apply category_rows_gone|].
  all: split; [apply incl_filter_trans, incl_refl|].
  - exists IncomeCategories. repeat split. exact Hrole.
  - exists ExpenseCategories. repeat split. exact Hrole.
Qed.

(** X27 ([CategoryManager.update_category]).  An update edits the name and
    the description of one category and nothing else: the role tables, the
    budgets, the transactions and the accounts are not touched, no category
    changes its key, and every category but the selected one keeps its row;
    a blank new name or description keeps the old one, and with both blank
    nothing is written. *)
Theorem update_category_edits_one_row name new_name new_description w :
  income_categories_tbl (db (snd (update_category name new_name new_description w)))
  = income_categories_tbl (db w) /\
  expense_categories_tbl (db (snd (update_category name new_name new_description w)))
  = expense_categories_tbl (db w) /\
  budgets_tbl (db (snd (update_category name new_name new_description w)))
  = budgets_tbl (db w) /\
  transactions_tbl (db (snd (update_category name new_name new_description w)))
  = transactions_tbl (db w) /\
  match fst (update_category name new_name new_description w) with
  | CategoryUpdated id =>
      (truthy new_name <> None \/ truthy new_description <> None) /\
      Forall2 (fun c' c =>
                 category_id c' = category_id c /\
                 (category_id c <> id -> c' = c) /\
                 (truthy new_name = None -> category_name c' = category_name c) /\
                 (truthy new_description = None -> description c' = description c))
              (categories_tbl (db (snd (update_category name new_name new_description w))))
              (categories_tbl (db w))
  | _ => db (snd (update_category name new_name new_description w)) = db w
  end.
Proof.
  unfold update_category. apply wp_procedure. simpl_world.
  repeat (wp_go; try solve [repeat split; reflexivity]).
  all: cbn [noticed].
  all: do 4 (split; [reflexivity|]).
  all: split; [first [left; discriminate | right; discriminate]|].
  all: unfold update_category_row; cbn [categories_tbl set_categories_tbl].
  all: apply Forall2_map_self; intros c' _.
  all: destruct (category_id c' =? _)%Z eqn:E;
       [apply Z.eqb_eq in E | apply Z.eqb_neq in E].
  all: cbn [category_id category_name description or_else].
  all: repeat split; intros;
       repeat match goal with
              | H : truthy ?x = _ |- context [truthy ?x] => rewrite H
              end;
       first [reflexivity | congruence].
Qed.

(* ================================================================= *)
(** ** The budget menu *)

Lemma get_category_id_by_name_capitalize s w :
  get_category_id_by_name (Some (capitalize s)) w = get_category_id_by_name (Some s) w.
Proof. unfold get_category_id_by_name. rewrite lower_capitalize. reflexivity. Qed.

Section BudgetMenuFacts.
Context {rt : Runtime}.

(** X28 ([BudgetManager.update_budget]).  An update changes the monthly
    limit of one budget and nothing else: the budget is the one the
    reloaded cache holds for the category the typed name resolves to (its
    capitalisation plays no role), the new limit is at least 0.01, and no
    budget changes its key, its category or its spent value.  A call that
    does not report an update leaves the store as it was; in every case the
    cache is left loaded. *)
Theorem update_budget_changes_limit_only inp w :
  budgets_loaded (snd (update_budget inp w)) /\
  match fst (update_budget inp w) with
  | BudgetUpdated id limit =>
      (1 # 100) <= limit /\
      (exists c b,
         get_category_id_by_name (Some (get_string (ub_category_name inp))) w = Some c /\
         dict_get Z.eqb c (load_budgets w) = Some b /\ budget_id b = id) /\
      db (snd (update_budget inp w)) = update_budget_limit limit id (db w) /\
      map (fun b => (budget_id b, b_category_id b, spent b))
          (budgets_tbl (db (snd (update_budget inp w))))
      = map (fun b => (budget_id b, b_category_id b, spent b)) (budgets_tbl (db w))
  | _ => db (snd (update_budget inp w)) = db w
  end.
Proof.
  unfold update_budget. apply wp_procedure. unfold budgets_loaded. simpl_world.
  repeat (wp_go; try solve [repeat split; reflexivity]).
  cbn [noticed]. split; [reflexivity|].
  match goal with H : Some _ = Some _ |- _ => injection H as <- end.
  split; [assumption|]. split; [|split; [reflexivity|]].
  - match goal with
    | H : get_category_id_by_name _ _ = Some ?c, H' : dict_get _ _ _ = Some ?b |- _ =>
        exists c, b; rewrite get_category_id_by_name_capitalize in H;
        repeat split; [exact H | exact H']
    end.
  - unfold update_budget_limit. cbn [budgets_tbl set_budgets_tbl]. rewrite map_map.
    apply map_ext. intros r. destruct (budget_id r =? _)%Z; reflexivity.
Qed.

(** X29 ([BudgetManager.delete_budget]).  A confirmed deletion removes the
    budget the reloaded cache holds for the category the typed name
    resolves to, by its key, and nothing else: the other budgets, the
    transactions and the accounts stay.  A call that does not report a
    deletion leaves the store as it was; in every case the cache is left
    loaded. *)
Theorem delete_budget_removes_one_budget inp w :
  budgets_loaded (snd (delete_budget inp w)) /\
  match fst (delete_budget inp w) with
  | BudgetDeleted id =>
      (exists c b,
         get_category_id_by_name (Some (get_string (rb_category_name inp))) w = Some c /\
         dict_get Z.eqb c (load_budgets w) = Some b /\ budget_id b = id) /\
      db (snd (delete_budget inp w)) = delete_budget_row id (db w) /\
      ~ In id (map budget_id (budgets_tbl (db (snd (delete_budget inp w)))))
  | _ => db (snd (delete_budget inp w)) = db w
  end.
Proof.
  unfold delete_budget. apply wp_procedure. unfold budgets_loaded. simpl_world.
  repeat (wp_go; try solve [repeat split; reflexivity]).
  cbn [noticed]. split; [reflexivity|].
  split; [|split; [reflexivity|]].
  - match goal with
    | H : get_category_id_by_name _ _ = Some ?c, H' : dict_get _ _ _ = Some ?b |- _ =>
        exists c, b; repeat split; [exact H | exact H']
    end.
  - unfold delete_budget_row. cbn [budgets_tbl set_budgets_tbl].
    intros Hin. apply in_map_iff in Hin. destruct Hin as (r & Hid & Hr).
    apply filter_In in Hr. destruct Hr as [_ Hr]. rewrite Hid, Z.eqb_refl in Hr.
    discriminate.
Qed.

End BudgetMenuFacts.

(** X30 ([BudgetManager.check_budget_alerts] called without arguments).
    Asked from the budgets menu, the method never ends silently: for a name
    that resolves to no category, or to a category without a cached budget,
    reading the spent value raises and the error line is printed. *)
Theorem check_budget_alerts_asked_never_silent typed w :
  check_budget_alerts_asked typed w <> NothingReported /\
  ((forall c, get_category_id_by_name (Some (get_string typed)) w = Some c ->
              dict_get Z.eqb c (budgets w) = None) ->
   check_budget_alerts_asked typed w = ErrorCheckingAlerts).
Proof.
  unfold check_budget_alerts_asked.
  destruct (get_category_id_by_name (Some (get_string typed)) w) as [c|];
    [|split; [discriminate | reflexivity]].
  destruct (dict_get Z.eqb c (budgets w)) as [b|] eqn:Hb.
  - split.
    + unfold check_budget_alerts. rewrite Hb. cbv zeta.
      destruct (is_zero _); [discriminate|].
      destruct (fle _ _); [discriminate|]. destruct (flt _ _); discriminate.
    + intros H. specialize (H c eq_refl). congruence.
  - split; [discriminate | reflexivity].
Qed.
(* ================================================================= *)
(** ** The menus at work *)

(** On the household store with a budget of 100 and an expense of 60 under
    Groceries: deleting the category removes the expense and the budget and
    leaves the Wallet at 140; deleting the Wallet, typed in lower case,
    removes the expense and leaves the budget at 60 spent. *)
Example deletions_at_work :
  select_balance 1 (db charged) = Some 140 /\
  (let w := snd (delete_category "groceries" charged) in
   fst (delete_category "groceries" charged) = CategoryDeleted 2 /\
   transactions_tbl (db w) = [] /\ budgets_tbl (db w) = [] /\
   select_balance 1 (db w) = Some 140 /\
   map fst (budgets w) = [2%Z]) /\
  (let w := snd (delete_account (rt := decimal_console) delete_wallet charged) in
   fst (delete_account (rt := decimal_console) delete_wallet charged) = AccountDeleted 1 /\
   transactions_tbl (db w) = [] /\ map account_id (accounts_tbl (db w)) = [2%Z] /\
   map spent (budgets_tbl (db w)) = [60]).
Proof. vm_compute. repeat split; reflexivity. Qed.

(** The first balance typed, -5, is refused; the account is added with 10. *)
Lemma get_float_accepted_line_witness :
  get_float (rt := decimal_console) (n_balance cash_account) (Some 0) opened
  = (inl (Some 10), opened) /\
  opened = opened /\ 0 <= 10 /\
  exists line,
    In line (firstn 3 (n_balance cash_account)) /\ decimal_float (strip line) = Some 10.
Proof.
  assert (H : get_float (rt := decimal_console) (n_balance cash_account) (Some 0) opened
              = (inl (Some 10), opened)) by (vm_compute; reflexivity).
  split; [exact H|].
  exact (get_float_accepted_line (rt := decimal_console)
           (n_balance cash_account) (Some 0) opened 10 opened H).
Defined.

(** Three lines that are refused with [min_value = 0]; the fourth is not
    read. *)
Lemma get_float_gives_up_witness :
  get_float (rt := decimal_console) ["abc"; "-1"; ""; "7"]%string (Some 0) opened
  = (inl None, opened).
Proof.
  apply (get_float_gives_up (rt := decimal_console) "abc" "-1" "" ["7"%string]
           (Some 0) opened).
  - exact I.
  - vm_compute. reflexivity.
  - exact I.
Defined.

(** The choice 9 is not valid; the choice 2, typed with blanks, is. *)
Lemma get_valid_menu_choice_valid_witness :
  get_valid_menu_choice (rt := decimal_console) ["9"; " 2 "]%string ["1"; "2"]%string opened
  = (inl 2%Z, opened) /\
  opened = opened /\
  exists line,
    In line ["9"; " 2 "]%string /\ In (strip line) ["1"; "2"]%string /\
    decimal_int (strip line) = Some 2%Z.
Proof.
  assert (H : get_valid_menu_choice (rt := decimal_console) ["9"; " 2 "]%string
                ["1"; "2"]%string opened = (inl 2%Z, opened)) by (vm_compute; reflexivity).
  split; [exact H|].
  exact (get_valid_menu_choice_valid (rt := decimal_console) _ _ _ _ _ H).
Defined.

(** A blank line, and a date typed after a line in another format. *)
Lemma get_valid_date_blank_or_parsed_witness :
  get_valid_date read_march_10 3 ["  "; "2025-03-10"]%string opened = (inl None, opened) /\
  opened = opened /\
  exists l,
    In l (firstn 3 ["10.3."; "2025-03-10"]%string) /\ strip l <> EmptyString /\
    read_march_10 (strip l) = Some (dt_date march_10).
Proof.
  split.
  - apply (proj1 (get_valid_date_blank_or_parsed read_march_10 2 "  "
                    ["2025-03-10"%string] opened)).
    reflexivity.
  - apply (proj2 (get_valid_date_blank_or_parsed read_march_10 3 "10.3."
                    ["2025-03-10"%string] opened) (dt_date march_10) opened).
    vm_compute. reflexivity.
Defined.

(** The transfer of 300 from the Bank to the Wallet: 1200 before and after. *)
Lemma transfer_funds_conserves_money_witness :
  balances_total (db opened) == 1200 /\
  balances_total (db transferred) == balances_total (db opened).
Proof.
  split; [vm_compute; reflexivity|].
  apply (transfer_funds_conserves_money (rt := decimal_console)
           (bank_to_wallet "300" "rent") opened).
  - vm_compute. constructor; [intros [H|[]]; discriminate H|].
    constructor; [intros [] | constructor].
  - vm_compute. intros a H. exact H.
Defined.

(** An expense with an amount that is no number, and a transfer of more
    than the Bank holds. *)
Lemma refusal_changes_nothing_witness :
  snd (add_transaction (rt := decimal_console) (spend "abc") opened) = opened /\
  snd (transfer_funds (rt := decimal_console) (bank_to_wallet "5000" "") opened) = opened.
Proof.
  split.
  - apply (proj1 (refusal_changes_nothing (rt := decimal_console)
                    (spend "abc") no_transfer opened)).
    vm_compute. reflexivity.
  - apply (proj2 (refusal_changes_nothing (rt := decimal_console)
                    (spend "abc") (bank_to_wallet "5000" "") opened)).
    vm_compute. reflexivity.
Defined.

(** The expense of 60 under Groceries. *)
Lemma add_transaction_books_valid_row_witness :
  add_transaction (rt := decimal_console) (spend "60") opened
  = (TransactionAdded 1 2 Expense 60,
     snd (add_transaction (rt := decimal_console) (spend "60") opened)) /\
  (1 # 100) <= 60 /\
  exists name info,
    In (name, info) (expense_categories opened) /\ i_category_id info = 2%Z /\
    lower name = lower (get_string (a_category_name (spend "60"))).
Proof.
  assert (H : add_transaction (rt := decimal_console) (spend "60") opened
              = (TransactionAdded 1 2 Expense 60,
                 snd (add_transaction (rt := decimal_console) (spend "60") opened)))
    by (vm_compute; reflexivity).
  split; [exact H|].
  pose proof (add_transaction_books_valid_row (rt := decimal_console) (spend "60") opened
                1 2 Expense 60 _ H) as (_ & Hx & Hcat & _).
  split; [exact Hx | exact Hcat].
Defined.


(** A spent value of 101 against the limit of 100. *)
Lemma check_budget_alerts_positive_limit_witness :
  dict_get Z.eqb 2%Z (budgets budgeted) = Some groceries_budget /\
  check_budget_alerts 2 101 budgeted <> ExceededBudget /\
  check_budget_alerts 2 101 budgeted <> ErrorCheckingAlerts /\
  check_budget_alerts 2 101 budgeted = NearingBudget.
Proof.
  split; [vm_compute; reflexivity|].
  destruct (check_budget_alerts_positive_limit 2 101 budgeted groceries_budget)
    as [Hnever Hrange].
  - vm_compute. reflexivity.
  - vm_compute. reflexivity.
  - split; [exact Hnever|].
    destruct Hrange as (Herr & Hnear & _).
    + vm_compute. intros H. discriminate H.
    + vm_compute. intros H. discriminate H.
    + split; [exact Herr|]. apply Hnear. vm_compute. intros H. discriminate H.
Defined.


(** Groceries, typed in lower case. *)
Lemma category_id_name_round_trip_witness :
  exists key,
    get_category_name_by_id 2 opened = Some key /\
    lower key = lower "groceries" /\
    get_category_id_by_name (Some key) opened = Some 2%Z.
Proof.
  apply (category_id_name_round_trip "groceries" opened 2).
  - vm_compute. constructor; [intros [H|[]]; discriminate H|].
    constructor; [intros [] | constructor].
  - vm_compute. reflexivity.
Defined.

(** The blank update of the expense of 60. *)
Lemma update_transaction_keeps_balances_witness :
  fst (update_transaction (rt := decimal_console) (keep_all_at "1") charged)
  = TransactionUpdated /\
  Forall2 same_account
    (accounts_tbl (db (snd (update_transaction (rt := decimal_console) (keep_all_at "1")
                              charged))))
    (accounts_tbl (db charged)).
Proof.
  assert (H : fst (update_transaction (rt := decimal_console) (keep_all_at "1") charged)
              = TransactionUpdated) by (vm_compute; reflexivity).
  split; [exact H|].
  exact (update_transaction_keeps_balances (rt := decimal_console) (keep_all_at "1")
           charged H).
Defined.


(** The cash account typed at the menu, with -5 typed first. *)
Lemma accounts_menu_add_never_negative_witness :
  exists b,
    fst (get_float (rt := decimal_console) (n_balance cash_account) (Some 0) opened)
    = inl (Some b) /\
    0 <= b /\
    In (mkAccount 3 (get_string (n_name cash_account)) b (get_string (n_type cash_account)))
       (accounts_tbl (db (snd (accounts_menu_add (rt := decimal_console) cash_account
                                 opened)))).
Proof.
  apply (proj2 (accounts_menu_add_never_negative (rt := decimal_console) cash_account
                  opened) 3%Z).
  vm_compute. reflexivity.
Defined.

(** The Wallet is not found when it is typed as it is spelled. *)
Lemma delete_account_capital_letter_witness :
  fst (delete_account (rt := decimal_console) delete_Wallet opened) = Line AccountNotFound /\
  db (snd (delete_account (rt := decimal_console) delete_Wallet opened)) = db opened.
Proof.
  apply (delete_account_capital_letter (rt := decimal_console) delete_Wallet opened).
  vm_compute. discriminate.
Defined.

(** Groceries exists as an expense category. *)
Lemma add_category_rejects_existing_name_witness :
  fst (add_category "groceries" "income" None 3 opened) = CategoryExists /\
  db (snd (add_category "groceries" "income" None 3 opened)) = db opened.
Proof.
  apply (add_category_rejects_existing_name "groceries" "income" None 3 opened
           groceries_row ExpenseCategories).
  - vm_compute. right. left. reflexivity.
  - vm_compute. left. reflexivity.
  - reflexivity.
Defined.

(** A category Rent of the type "both". *)
Lemma add_category_type_checked_late_witness :
  fst (add_category "Rent" "both" None 3 opened) = InvalidCategoryType /\
  categories_tbl (db (snd (add_category "Rent" "both" None 3 opened)))
  = categories_tbl (db opened) ++ [mkCategory 3 "Rent" None] /\
  income_categories_tbl (db (snd (add_category "Rent" "both" None 3 opened)))
  = income_categories_tbl (db opened) /\
  expense_categories_tbl (db (snd (add_category "Rent" "both" None 3 opened)))
  = expense_categories_tbl (db opened).
Proof.
  split; [vm_compute; reflexivity|].
  apply (add_category_type_checked_late "Rent" "both" None 3 opened).
  - vm_compute. discriminate.
  - vm_compute. discriminate.
Defined.

(** The expense category Rent is added and resolved as RENT. *)
Lemma add_category_then_resolved_witness :
  get_category_id_by_name (Some "RENT"%string)
    (snd (add_category "Rent" "Expense" None 3 opened)) = Some 3%Z.
Proof.
  apply (add_category_then_resolved "Rent" "Expense" None 3 opened 3 "RENT").
  - vm_compute. reflexivity.
  - reflexivity.
Defined.
